(** * Layer constructors of tensorpack/models/conv2d.py and the training
      entry point examples/AnytimeNetwork/imagenet-ann.py

    The development has three layers.

    - [tensor]: run-time tensors as TensorFlow stores them, a shape and a
      row-major buffer, with the framework operations the layers call
      (convolution, depthwise convolution, reshape, reduce_sum, split,
      concat, transpose, bias_add).  Scalars are integers: sums and
      products are exact, rounding of floating point is not modelled.
    - [Tensor]: the Python objects the layer functions handle, a graph
      tensor with its name, its static shape ([get_shape().as_list()],
      with [None] for unknown dimensions), its value, and the attributes
      [variables] and [info] the layers attach.
    - [M]: graph construction, a state monad over the graph under
      construction in which a Python exception stops the computation and
      leaves the graph as it was when the exception was raised. *)

From Stdlib Require Import String Ascii ZArith QArith List Lia Bool.
Import ListNotations.
Open Scope Z_scope.

Set Implicit Arguments.

(* ------------------------------------------------------------------ *)
(** ** Row-major index arithmetic *)

(** Number of elements of a shape. *)
Definition size (s : list Z) : Z := fold_right Z.mul 1 s.

(** Offset of the multi-index [idx] in a row-major buffer of shape [s]. *)
Fixpoint ravel (s idx : list Z) : Z :=
  match s, idx with
  | _ :: s', i :: idx' => i * size s' + ravel s' idx'
  | _, _ => 0
  end.

(** Multi-index of the offset [k]. *)
Fixpoint unravel (s : list Z) (k : Z) : list Z :=
  match s with
  | [] => []
  | _ :: s' => k / size s' :: unravel s' (k mod size s')
  end.

Definition in_range (s idx : list Z) : Prop :=
  Forall2 (fun d i => 0 <= i < d) s idx.

Fixpoint in_rangeb (s idx : list Z) : bool :=
  match s, idx with
  | [], [] => true
  | d :: s', i :: idx' => (0 <=? i) && (i <? d) && in_rangeb s' idx'
  | _, _ => false
  end.

(** Sum of [f 0 + ... + f (n-1)]. *)
Definition sumZ (n : Z) (f : Z -> Z) : Z :=
  fold_right (fun k acc => f (Z.of_nat k) + acc) 0 (seq 0 (Z.to_nat n)).

(* ------------------------------------------------------------------ *)
(** ** Run-time tensors *)

Record tensor := mk_tensor { shape : list Z; data : list Z }.

Definition at_ (t : tensor) (idx : list Z) : Z :=
  nth (Z.to_nat (ravel (shape t) idx)) (data t) 0.

(** The tensor of shape [s] whose element at [idx] is [f idx]. *)
Definition tabulate (s : list Z) (f : list Z -> Z) : tensor :=
  {| shape := s;
     data := map (fun k => f (unravel s (Z.of_nat k)))
                 (seq 0 (Z.to_nat (size s))) |}.

(** A tensor is well formed when its buffer has one cell per index. *)
Definition wf (t : tensor) : Prop :=
  Forall (fun d => 0 <= d) (shape t) /\
  length (data t) = Z.to_nat (size (shape t)).

Definition wfb (t : tensor) : bool :=
  forallb (fun d => 0 <=? d) (shape t) &&
  Nat.eqb (length (data t)) (Z.to_nat (size (shape t))).

(* ------------------------------------------------------------------ *)
(** ** List helpers for axes *)

Fixpoint set_nth {A} (n : nat) (v : A) (l : list A) : list A :=
  match n, l with
  | _, [] => []
  | O, _ :: l' => v :: l'
  | S n', a :: l' => a :: set_nth n' v l'
  end.

Fixpoint remove_nth {A} (n : nat) (l : list A) : list A :=
  match n, l with
  | _, [] => []
  | O, _ :: l' => l'
  | S n', a :: l' => a :: remove_nth n' l'
  end.

Fixpoint insert_nth {A} (n : nat) (v : A) (l : list A) : list A :=
  match n, l with
  | O, _ => v :: l
  | S n', a :: l' => a :: insert_nth n' v l'
  | S _, [] => [v]
  end.

(** Position of the axis [a] in the permutation [perm]. *)
Fixpoint index_of (a : nat) (perm : list nat) : nat :=
  match perm with
  | [] => O
  | p :: perm' => if Nat.eqb p a then O else S (index_of a perm')
  end.

(* ------------------------------------------------------------------ *)
(** ** The framework operations on values

    The operations of TensorFlow that the layers call, on run-time
    tensors.  The layout of a 4-D tensor is given by [cl]: [true] for
    NHWC (channels last), [false] for NCHW (channels first). *)

Definition to_nhwc {A} (cl : bool) (l : list A) : list A :=
  if cl then l
  else match l with [n; c; h; w] => [n; h; w; c] | _ => l end.

Definition of_nhwc {A} (cl : bool) (l : list A) : list A :=
  if cl then l
  else match l with [n; h; w; c] => [n; c; h; w] | _ => l end.

Inductive padding_mode := SAME | VALID.

(** Output extent of a convolution along one spatial dimension of extent
    [H], for a kernel of extent [k], stride [s] and dilation [d]. *)
Definition conv_out (p : padding_mode) (H k s d : Z) : Z :=
  match p with
  | SAME => (H + s - 1) / s
  | VALID => (H - ((k - 1) * d + 1) + s) / s
  end.

(** Rows (columns) of zero padding before the image. *)
Definition pad_before (p : padding_mode) (H k s d : Z) : Z :=
  match p with
  | SAME => Z.max ((conv_out p H k s d - 1) * s + ((k - 1) * d + 1) - H) 0 / 2
  | VALID => 0
  end.

(** Element of the image at row [y] and column [x], zero in the padding. *)
Definition pixel (cl : bool) (x : tensor) (n y x' c : Z) : Z :=
  match to_nhwc cl (shape x) with
  | [_; H; W; _] =>
      if (0 <=? y) && (y <? H) && (0 <=? x') && (x' <? W)
      then at_ x (of_nhwc cl [n; y; x'; c]) else 0
  | _ => 0
  end.

(** [tf.nn.conv2d(x, w, strides, padding, dilations=, data_format=)];
    [w] has shape [kh, kw, C, F]. *)
Definition conv2d_v (cl : bool) (x w : tensor) (strides dilations : list Z)
    (p : padding_mode) : tensor :=
  match to_nhwc cl (shape x), shape w, to_nhwc cl strides, to_nhwc cl dilations with
  | [N; H; W; _], [kh; kw; C; F], [_; sh; sw; _], [_; dh; dw; _] =>
      let pt := pad_before p H kh sh dh in
      let pl := pad_before p W kw sw dw in
      tabulate (of_nhwc cl [N; conv_out p H kh sh dh; conv_out p W kw sw dw; F])
        (fun idx =>
           match to_nhwc cl idx with
           | [n; y; x'; f] =>
               sumZ kh (fun di => sumZ kw (fun dj => sumZ C (fun c =>
                 pixel cl x n (y * sh + di * dh - pt) (x' * sw + dj * dw - pl) c
                 * at_ w [di; dj; c; f])))
           | _ => 0
           end)
  | _, _, _, _ => tabulate [] (fun _ => 0)
  end.

(** [tf.nn.depthwise_conv2d(x, w, strides, padding, rate=None,
    data_format=)]; [w] has shape [kh, kw, C, M] and output channel
    [k * M + q] is input channel [k] filtered by [w[:, :, k, q]]. *)
Definition depthwise_conv2d_v (cl : bool) (x w : tensor) (strides : list Z)
    (p : padding_mode) : tensor :=
  match to_nhwc cl (shape x), shape w, to_nhwc cl strides with
  | [N; H; W; _], [kh; kw; C; M], [_; sh; sw; _] =>
      let pt := pad_before p H kh sh 1 in
      let pl := pad_before p W kw sw 1 in
      tabulate (of_nhwc cl [N; conv_out p H kh sh 1; conv_out p W kw sw 1; C * M])
        (fun idx =>
           match to_nhwc cl idx with
           | [n; y; x'; c] =>
               sumZ kh (fun di => sumZ kw (fun dj =>
                 pixel cl x n (y * sh + di - pt) (x' * sw + dj - pl) (c / M)
                 * at_ w [di; dj; c / M; c mod M]))
           | _ => 0
           end)
  | _, _, _ => tabulate [] (fun _ => 0)
  end.

(** The dimension written [-1] in the target of a reshape is the one that
    makes the number of elements agree. *)
Definition resolve_shape (total : Z) (s : list Z) : list Z :=
  let known := size (filter (fun d => negb (d =? -1)) s) in
  map (fun d => if d =? -1 then total / known else d) s.

(** [tf.reshape]: the row-major buffer is kept, the shape replaced. *)
Definition reshape_v (t : tensor) (s : list Z) : tensor :=
  {| shape := resolve_shape (size (shape t)) s; data := data t |}.

(** [tf.reduce_sum] over one axis. *)
Definition reduce_sum1_v (t : tensor) (axis : nat) : tensor :=
  tabulate (remove_nth axis (shape t))
    (fun idx => sumZ (nth axis (shape t) 0)
                  (fun j => at_ t (insert_nth axis j idx))).

(** [tf.reduce_sum] over a list of axes in increasing order: the last one
    is summed first, so the positions of the others do not move. *)
Definition reduce_sum_v (t : tensor) (axes : list nat) : tensor :=
  fold_right (fun a t' => reduce_sum1_v t' a) t axes.

(** [tf.split(t, n, axis)]: [n] pieces of equal extent along [axis]. *)
Definition split_v (t : tensor) (n : Z) (axis : nat) : list tensor :=
  let d := nth axis (shape t) 0 / n in
  map (fun i =>
         tabulate (set_nth axis d (shape t))
           (fun idx => at_ t (set_nth axis (nth axis idx 0 + Z.of_nat i * d) idx)))
      (seq 0 (Z.to_nat n)).

(** Element [idx] of the concatenation of [ts] along [axis]. *)
Fixpoint concat_at (ts : list tensor) (axis : nat) (idx : list Z) : Z :=
  match ts with
  | [] => 0
  | t :: ts' =>
      let d := nth axis (shape t) 0 in
      let i := nth axis idx 0 in
      if i <? d then at_ t idx
      else concat_at ts' axis (set_nth axis (i - d) idx)
  end.

(** [tf.concat(ts, axis)]. *)
Definition concat_v (ts : list tensor) (axis : nat) : tensor :=
  match ts with
  | [] => tabulate [] (fun _ => 0)
  | t :: _ =>
      tabulate
        (set_nth axis (fold_right (fun t' acc => nth axis (shape t') 0 + acc) 0 ts)
                 (shape t))
        (concat_at ts axis)
  end.

(** [tf.transpose(t, perm)]: dimension [k] of the result is dimension
    [perm[k]] of [t]. *)
Definition transpose_v (t : tensor) (perm : list nat) : tensor :=
  tabulate (map (fun p => nth p (shape t) 0) perm)
    (fun idx =>
       at_ t (map (fun a => nth (index_of a perm) idx 0)
                  (seq 0 (length perm)))).

(** [tf.nn.bias_add(x, b, data_format=)]: [b] is added along the channel
    axis, the last one for NHWC and axis 1 for NCHW. *)
Definition bias_add_v (cl : bool) (x b : tensor) : tensor :=
  tabulate (shape x)
    (fun idx =>
       at_ x idx
       + at_ b [nth (if cl then (length (shape x) - 1)%nat else 1%nat) idx 0]).

(* ------------------------------------------------------------------ *)
(** ** Python values and exceptions

    The code is read with the semantics of Python 3: [/] on two ints is
    true division and yields a float.  Floats are modelled as exact
    rationals. *)

Inductive exn :=
| AssertionError (msg : string)
| ValueError (msg : string)
| TypeError
| IndexError
| ZeroDivisionError.

Inductive result (A : Type) := Ok (a : A) | Raise (e : exn).
Arguments Ok {A} a.
Arguments Raise {A} e.

Inductive pynum := PInt (z : Z) | PFloat (q : Q).

(** [a / b] on two ints. *)
Definition py_truediv (a b : Z) : result pynum :=
  if b =? 0 then Raise ZeroDivisionError
  else Ok (PFloat (inject_Z a / inject_Z b)%Q).

(** [l[i]], a negative [i] counting from the end. *)
Definition py_getitem {A} (l : list A) (i : Z) : result A :=
  let j := if i <? 0 then i + Z.of_nat (length l) else i in
  if j <? 0 then Raise IndexError
  else match nth_error l (Z.to_nat j) with
       | Some a => Ok a
       | None => Raise IndexError
       end.

(** The names of the two layouts, in the spelling of tf.layers
    ([channels_last], [channels_first]) and of tf.nn ([NHWC], [NCHW]). *)
Inductive data_format := channels_last | channels_first | NHWC | NCHW.

Definition data_format_eqb (a b : data_format) : bool :=
  match a, b with
  | channels_last, channels_last | channels_first, channels_first
  | NHWC, NHWC | NCHW, NCHW => true
  | _, _ => false
  end.

(** An argument that stands for a pair: an int, a tuple or a list. *)
Inductive arg2d := A_int (a : Z) | A_tuple (l : list Z) | A_list (l : list Z).

(** Python's [==] on such arguments: a tuple is never equal to a list or
    to an int. *)
Definition arg2d_eqb (x y : arg2d) : bool :=
  match x, y with
  | A_int a, A_int b => a =? b
  | A_tuple l, A_tuple l' | A_list l, A_list l' =>
      if list_eq_dec Z.eq_dec l l' then true else false
  | _, _ => false
  end.

(** Upper case of an ASCII string, [str.upper()]. *)
Definition upper_ascii (c : ascii) : ascii :=
  let n := nat_of_ascii c in
  if (Nat.leb 97 n && Nat.leb n 122)%bool then ascii_of_nat (n - 32) else c.

Fixpoint upper (s : string) : string :=
  match s with
  | EmptyString => EmptyString
  | String c s' => String (upper_ascii c) (upper s')
  end.

(** Modelled from the spec: utils/argtools.py is not among the sources.
    The spec names the results of [shape2d] only through their uses, as
    kernel_h, kernel_w and stride_h, stride_w: an int [a] stands for
    [a, a], a tuple or list of two for itself; anything else fails the
    helper's assertion. *)
Definition shape2d (a : arg2d) : result (list Z) :=
  match a with
  | A_int a => Ok [a; a]
  | A_tuple l | A_list l =>
      if Nat.eqb (length l) 2 then Ok l else Raise (AssertionError "")
  end.

(** Modelled from the spec: utils/argtools.py is not among the sources.
    [get_data_format] renames a layout to the spelling of tf.layers
    ([tfmode] true) or of tf.nn ([tfmode] false). *)
Definition get_data_format (df : data_format) (tfmode : bool) : data_format :=
  if tfmode then
    match df with
    | NCHW => channels_first
    | NHWC => channels_last
    | _ => df
    end
  else
    match df with
    | channels_first => NCHW
    | channels_last => NHWC
    | _ => df
    end.

(** Modelled from the spec: utils/argtools.py is not among the sources.
    [shape4d] places the pair of [shape2d] at the two spatial positions
    of the layout and 1 at the batch and channel positions. *)
Definition shape4d (a : arg2d) (df : data_format) : result (list Z) :=
  match shape2d a with
  | Ok s2d =>
      Ok (if data_format_eqb (get_data_format df true) channels_last
          then [1] ++ s2d ++ [1] else [1; 1] ++ s2d)
  | Raise e => Raise e
  end.

(* ------------------------------------------------------------------ *)
(** ** The graph under construction *)

Definition initializer := list Z -> tensor.
Definition regularizer := tensor -> Z.

Record tf_variable := mk_variable {
  v_name : string;
  v_shape : list Z;
  v_value : tensor;
  v_regularizer : option regularizer }.

Inductive op :=
| Op_identity | Op_conv2d | Op_conv2d_transpose | Op_depthwise_conv2d
| Op_split | Op_concat | Op_bias_add | Op_activation | Op_reshape
| Op_reduce_sum | Op_transpose | Op_resize_images.

Record graph := mk_graph {
  g_variables : list tf_variable;
  g_nodes : list (op * string);
  g_losses : list Z }.

Definition empty_graph : graph :=
  {| g_variables := []; g_nodes := []; g_losses := [] |}.

(** Computations with a state [S] and Python exceptions: the exception,
    if any, comes with the state as it was when it was raised. *)
Definition ST (S A : Type) : Type := S -> result A * S.

Definition pure {S A} (a : A) : ST S A := fun g => (Ok a, g).

Definition bind {S A B} (c : ST S A) (k : A -> ST S B) : ST S B :=
  fun g => match c g with
           | (Ok a, g') => k a g'
           | (Raise e, g') => (Raise e, g')
           end.

Definition raise {S A} (e : exn) : ST S A := fun g => (Raise e, g).

Definition lift {S A} (r : result A) : ST S A := fun g => (r, g).

Definition assert_ {S} (c : bool) (msg : string) : ST S unit :=
  if c then pure tt else raise (AssertionError msg).

Definition check {S} (c : bool) (e : exn) : ST S unit :=
  if c then pure tt else raise e.

Declare Scope monad_scope.
Delimit Scope monad_scope with monad.
Notation "x <- c ;; k" := (bind c (fun x => k))
  (at level 61, c at next level, right associativity) : monad_scope.
Notation "c ;;; k" := (bind c (fun _ => k))
  (at level 61, right associativity) : monad_scope.
Open Scope monad_scope.

(** Graph construction. *)
Definition M : Type -> Type := ST graph.

Definition with_node (g : graph) (o : op) (nm : string) : graph :=
  {| g_variables := g_variables g;
     g_nodes := g_nodes g ++ [(o, nm)];
     g_losses := g_losses g |}.

Definition with_variable (g : graph) (v : tf_variable) : graph :=
  {| g_variables := g_variables g ++ [v];
     g_nodes := g_nodes g;
     g_losses := g_losses g |}.

Definition with_loss (g : graph) (l : Z) : graph :=
  {| g_variables := g_variables g;
     g_nodes := g_nodes g;
     g_losses := g_losses g ++ [l] |}.

Definition add_node (o : op) (nm : string) : M unit :=
  fun g => (Ok tt, with_node g o nm).

Definition add_loss (l : Z) : M unit :=
  fun g => (Ok tt, with_loss g l).

(** [tf.Dimension(value)]: the int of the value, which must be equal to
    the value and not negative. *)
Definition as_dimension (v : pynum) : result Z :=
  match v with
  | PInt z =>
      if z <? 0 then Raise (ValueError "Dimension must be >= 0") else Ok z
  | PFloat q =>
      let z := Z.quot (Qnum q) (Zpos (Qden q)) in
      if negb (Qeq_bool (inject_Z z) q)
      then Raise (ValueError "Ambiguous dimension")
      else if z <? 0 then Raise (ValueError "Dimension must be >= 0")
      else Ok z
  end.

Fixpoint as_shape (l : list pynum) : result (list Z) :=
  match l with
  | [] => Ok []
  | v :: l' =>
      match as_dimension v, as_shape l' with
      | Ok d, Ok s => Ok (d :: s)
      | Raise e, _ => Raise e
      | _, Raise e => Raise e
      end
  end.

(** [tf.get_variable(name, shape, initializer=, regularizer=)].  The
    layer runs in a variable scope of its own, opened by [layer_register],
    so the name is free. *)
Definition tf_get_variable (nm : string) (shp : list pynum)
    (init : initializer) (reg : option regularizer) : M tf_variable :=
  s <- lift (as_shape shp) ;;
  let v := {| v_name := nm; v_shape := s; v_value := init s;
              v_regularizer := reg |} in
  fun g => (Ok v, with_variable g v).

(* ------------------------------------------------------------------ *)
(** ** Graph tensors *)

Record VariableHolder := mk_holder {
  vars_W : tf_variable;
  vars_b : option tf_variable }.

Record InfoHolder := mk_info { info_flops : Q }.

Record Tensor := mk_Tensor {
  name : string;
  static_shape : list (option Z);
  value : tensor;
  variables : option VariableHolder;
  info : option InfoHolder }.

(** The tensor an operation returns: it has no attribute yet. *)
Definition output (nm : string) (st : list (option Z)) (v : tensor) : Tensor :=
  {| name := nm; static_shape := st; value := v;
     variables := None; info := None |}.

(** A variable read as a tensor. *)
Definition read (v : tf_variable) : Tensor :=
  output (v_name v) (map Some (v_shape v)) (v_value v).

Definition set_variables (t : Tensor) (h : VariableHolder) : Tensor :=
  {| name := name t; static_shape := static_shape t; value := value t;
     variables := Some h; info := info t |}.

Definition set_info (t : Tensor) (i : InfoHolder) : Tensor :=
  {| name := name t; static_shape := static_shape t; value := value t;
     variables := variables t; info := Some i |}.

(** A callable [f(x, name=)] that adds one node computing [act_fn]. *)
Record activation := mk_activation { act_op : op; act_fn : tensor -> tensor }.

Fixpoint mapM {A B} (f : A -> M B) (l : list A) : M (list B) :=
  match l with
  | [] => pure []
  | a :: l' => y <- f a ;; ys <- mapM f l' ;; pure (y :: ys)
  end.

(* ------------------------------------------------------------------ *)
(** ** The framework operations on graph tensors

    Each call adds its node to the graph and returns a new tensor with
    the static shape TensorFlow infers and the value the node computes.
    Only the checks TensorFlow makes while the graph is built are
    modelled; they raise [ValueError] or [TypeError]. *)

(** tf.nn accepts the spellings NHWC and NCHW only. *)
Definition layout (df : data_format) : M bool :=
  match df with
  | NHWC => pure true
  | NCHW => pure false
  | _ => raise (ValueError "data_format")
  end.

Definition parse_padding (s : string) : M padding_mode :=
  if String.eqb s "SAME" then pure SAME
  else if String.eqb s "VALID" then pure VALID
  else raise (ValueError "padding").

(** An axis given as a Python int, negative from the end. *)
Definition normalize_axis (rank : nat) (axis : Z) : M nat :=
  let a := if axis <? 0 then axis + Z.of_nat rank else axis in
  check ((0 <=? a) && (a <? Z.of_nat rank)) (ValueError "axis") ;;;
  pure (Z.to_nat a).

Definition is_None {A} (o : option A) : bool :=
  match o with None => true | Some _ => false end.

Definition known_or (o : option Z) (f : Z -> bool) : bool :=
  match o with Some d => f d | None => true end.

Definition static_conv (cl : bool) (p : padding_mode) (st : list (option Z))
    (kh kw sh sw dh dw F : Z) : list (option Z) :=
  match to_nhwc cl st with
  | [n; h; w; _] =>
      of_nhwc cl [n; option_map (fun H => conv_out p H kh sh dh) h;
                  option_map (fun W => conv_out p W kw sw dw) w; Some F]
  | _ => []
  end.

Definition call (f : activation) (x : Tensor) (nm : string) : M Tensor :=
  add_node (act_op f) nm ;;;
  pure (output nm (static_shape x) (act_fn f (value x))).

Definition tf_identity : activation :=
  {| act_op := Op_identity; act_fn := fun t => t |}.

Definition tf_nn_conv2d (x filter : Tensor) (strides : list Z)
    (padding : string) (dilations : list Z) (df : data_format) : M Tensor :=
  cl <- layout df ;;
  p <- parse_padding padding ;;
  check (Nat.eqb (length (static_shape x)) 4) (ValueError "rank") ;;;
  match shape (value filter), to_nhwc cl strides, to_nhwc cl dilations with
  | [kh; kw; C; F], [_; sh; sw; _], [_; dh; dw; _] =>
      check (known_or (nth (if cl then 3 else 1)%nat (static_shape x) None)
                      (fun c => c =? C)) (ValueError "depth") ;;;
      add_node Op_conv2d "" ;;;
      pure (output "" (static_conv cl p (static_shape x) kh kw sh sw dh dw F)
              (conv2d_v cl (value x) (value filter) strides dilations p))
  | _, _, _ => raise (ValueError "shape")
  end.

Definition tf_nn_depthwise_conv2d (x filter : Tensor) (strides : list Z)
    (padding : string) (df : data_format) : M Tensor :=
  cl <- layout df ;;
  p <- parse_padding padding ;;
  check (Nat.eqb (length (static_shape x)) 4) (ValueError "rank") ;;;
  match shape (value filter), to_nhwc cl strides with
  | [kh; kw; C; M'], [_; sh; sw; _] =>
      check (known_or (nth (if cl then 3 else 1)%nat (static_shape x) None)
                      (fun c => c =? C)) (ValueError "depth") ;;;
      add_node Op_depthwise_conv2d "" ;;;
      pure (output "" (static_conv cl p (static_shape x) kh kw sh sw 1 1 (C * M'))
              (depthwise_conv2d_v cl (value x) (value filter) strides p))
  | _, _ => raise (ValueError "shape")
  end.

Definition tf_split (x : Tensor) (n : Z) (axis : Z) : M (list Tensor) :=
  a <- normalize_axis (length (static_shape x)) axis ;;
  check (0 <? n) (ValueError "num_split") ;;;
  check (known_or (nth a (static_shape x) None) (fun d => d mod n =? 0))
        (ValueError "split") ;;;
  add_node Op_split "" ;;;
  pure (map (output ""
               (set_nth a (option_map (fun d => d / n) (nth a (static_shape x) None))
                        (static_shape x)))
            (split_v (value x) n a)).

Fixpoint sum_known (l : list (option Z)) : option Z :=
  match l with
  | [] => Some 0
  | Some d :: l' => option_map (Z.add d) (sum_known l')
  | None :: _ => None
  end.

Definition tf_concat (ts : list Tensor) (axis : Z) : M Tensor :=
  match ts with
  | [] => raise (ValueError "concat")
  | t :: _ =>
      a <- normalize_axis (length (static_shape t)) axis ;;
      add_node Op_concat "" ;;;
      pure (output ""
              (set_nth a (sum_known (map (fun t' => nth a (static_shape t') None) ts))
                       (static_shape t))
              (concat_v (map value ts) a))
  end.

Definition tf_nn_bias_add (x b : Tensor) (df : data_format) : M Tensor :=
  cl <- layout df ;;
  add_node Op_bias_add "" ;;;
  pure (output "" (static_shape x) (bias_add_v cl (value x) (value b))).

Fixpoint all_known (l : list (option Z)) : option (list Z) :=
  match l with
  | [] => Some []
  | Some d :: l' => option_map (cons d) (all_known l')
  | None :: _ => None
  end.

(** [tf.reshape(x, target)]; a [None] in the target is not a shape. *)
Definition tf_reshape (x : Tensor) (target : list (option Z)) : M Tensor :=
  match all_known target with
  | None => raise TypeError
  | Some s =>
      add_node Op_reshape "" ;;;
      pure (output ""
              (match all_known (static_shape x) with
               | Some sx => map Some (resolve_shape (size sx) s)
               | None => map (fun d => if d =? -1 then None else Some d) s
               end)
              (reshape_v (value x) s))
  end.

Definition tf_reduce_sum (x : Tensor) (axes : list nat) : M Tensor :=
  add_node Op_reduce_sum "" ;;;
  pure (output "" (fold_right (fun a st => remove_nth a st) (static_shape x) axes)
          (reduce_sum_v (value x) axes)).

Definition tf_transpose (x : Tensor) (perm : list nat) : M Tensor :=
  check (Nat.eqb (length perm) (length (static_shape x))) (ValueError "perm") ;;;
  add_node Op_transpose "" ;;;
  pure (output "" (map (fun p => nth p (static_shape x) None) perm)
          (transpose_v (value x) perm)).

(** [tf.constant_initializer()]: zeros. *)
Definition tf_constant_initializer : initializer :=
  fun s => tabulate s (fun _ => 0).

Inductive ResizeMethod := BILINEAR | NEAREST_NEIGHBOR | BICUBIC | AREA.

(** [conv_utils.normalize_tuple(value, 2, name)] of tf.layers. *)
Definition normalize_tuple (a : arg2d) : result (list Z) :=
  match a with
  | A_int a => Ok [a; a]
  | A_tuple l | A_list l =>
      if Nat.eqb (length l) 2 then Ok l else Raise (ValueError "tuple")
  end.

(** Output extent of a transposed convolution along one dimension. *)
Definition deconv_out (p : padding_mode) (H k s : Z) : Z :=
  match p with
  | SAME => H * s
  | VALID => H * s + Z.max (k - s) 0
  end.

(* ------------------------------------------------------------------ *)
(** ** tensorpack/models/conv2d.py *)

Section Layers.

(** What the framework provides and the layers do not look into: the
    version number [get_tf_version_number()], the default random
    initializer of [GroupedConv2D], and the numeric kernels of the
    transposed convolution and of the image resize. *)
Variable get_tf_version_number : Q.
Variable variance_scaling_initializer : initializer.
Variable conv2d_transpose_v :
  bool -> tensor -> tensor -> list Z -> padding_mode -> tensor.
Variable resize_images_v : tensor -> Z * Z -> ResizeMethod -> bool -> tensor.

(** [tf.image.resize_images(images, size, method, align_corners)], on
    channels-last images of rank 3 or 4. *)
Definition tf_image_resize_images (x : Tensor) (size_ : Z * Z)
    (method : ResizeMethod) (align_corners : bool) : M Tensor :=
  match static_shape x with
  | [n; _; _; c] =>
      add_node Op_resize_images "" ;;;
      pure (output "" [n; Some (fst size_); Some (snd size_); c]
              (resize_images_v (value x) size_ method align_corners))
  | [_; _; c] =>
      add_node Op_resize_images "" ;;;
      pure (output "" [Some (fst size_); Some (snd size_); c]
              (resize_images_v (value x) size_ method align_corners))
  | _ => raise (ValueError "rank")
  end.

(** The layer object of tf.layers after [apply]: its variables. *)
Record tf_layer := mk_layer { kernel : tf_variable; bias : option tf_variable }.

(** [tf.layers.Conv2D(...)] followed by [layer.apply(inputs)], inside
    [rename_get_variable({'kernel': 'W', 'bias': 'b'})]: the constructor
    normalises its arguments, [build] creates the variables, [call]
    convolves, adds the bias, applies the activation and records the
    activity regularizer. *)
Definition tf_layers_Conv2D_apply (filters : Z) (kernel_size strides : arg2d)
    (padding : string) (df : data_format) (dilation_rate : arg2d)
    (act : option activation) (use_bias : bool)
    (kernel_initializer bias_initializer : initializer)
    (kernel_regularizer bias_regularizer activity_regularizer : option regularizer)
    (inputs : Tensor) : M (tf_layer * Tensor) :=
  ks <- lift (normalize_tuple kernel_size) ;;
  st <- lift (normalize_tuple strides) ;;
  dl <- lift (normalize_tuple dilation_rate) ;;
  cl <- match df with
        | channels_last => pure true
        | channels_first => pure false
        | _ => raise (ValueError "data_format")
        end ;;
  p <- parse_padding (upper padding) ;;
  check (Nat.eqb (length (static_shape inputs)) 4) (ValueError "rank") ;;;
  match nth (if cl then 3 else 1)%nat (static_shape inputs) None, ks, st, dl with
  | Some input_dim, [kh; kw], [sh; sw], [dh; dw] =>
      W <- tf_get_variable "W" (map PInt (ks ++ [input_dim; filters]))
             kernel_initializer kernel_regularizer ;;
      b <- (if use_bias
            then v <- tf_get_variable "b" [PInt filters]
                        bias_initializer bias_regularizer ;; pure (Some v)
            else pure None) ;;
      add_node Op_conv2d "" ;;;
      let conv := conv2d_v cl (value inputs) (v_value W)
                    (of_nhwc cl [1; sh; sw; 1]) (of_nhwc cl [1; dh; dw; 1]) p in
      v1 <- match b with
            | Some vb =>
                add_node Op_bias_add "" ;;; pure (bias_add_v cl conv (v_value vb))
            | None => pure conv
            end ;;
      v2 <- match act with
            | Some f => add_node (act_op f) "" ;;; pure (act_fn f v1)
            | None => pure v1
            end ;;
      match activity_regularizer with
      | Some r => add_loss (r v2)
      | None => pure tt
      end ;;;
      pure ({| kernel := W; bias := b |},
            output "" (static_conv cl p (static_shape inputs) kh kw sh sw dh dw filters) v2)
  | None, _, _, _ => raise (ValueError "channel dimension")
  | _, _, _, _ => raise (ValueError "tuple")
  end.

(** [tf.layers.Conv2DTranspose(...)] followed by [layer.apply(inputs)];
    the kernel has shape [kh, kw, filters, input_dim]. *)
Definition tf_layers_Conv2DTranspose_apply (filters : Z)
    (kernel_size strides : arg2d) (padding : string) (df : data_format)
    (act : option activation) (use_bias : bool)
    (kernel_initializer bias_initializer : initializer)
    (kernel_regularizer bias_regularizer activity_regularizer : option regularizer)
    (inputs : Tensor) : M (tf_layer * Tensor) :=
  ks <- lift (normalize_tuple kernel_size) ;;
  st <- lift (normalize_tuple strides) ;;
  cl <- match df with
        | channels_last => pure true
        | channels_first => pure false
        | _ => raise (ValueError "data_format")
        end ;;
  p <- parse_padding (upper padding) ;;
  check (Nat.eqb (length (static_shape inputs)) 4) (ValueError "rank") ;;;
  match nth (if cl then 3 else 1)%nat (static_shape inputs) None, ks, st,
        to_nhwc cl (static_shape inputs) with
  | Some input_dim, [kh; kw], [sh; sw], [n; h; w; _] =>
      W <- tf_get_variable "W" (map PInt (ks ++ [filters; input_dim]))
             kernel_initializer kernel_regularizer ;;
      b <- (if use_bias
            then v <- tf_get_variable "b" [PInt filters]
                        bias_initializer bias_regularizer ;; pure (Some v)
            else pure None) ;;
      add_node Op_conv2d_transpose "" ;;;
      let conv := conv2d_transpose_v cl (value inputs) (v_value W)
                    (of_nhwc cl [1; sh; sw; 1]) p in
      v1 <- match b with
            | Some vb =>
                add_node Op_bias_add "" ;;; pure (bias_add_v cl conv (v_value vb))
            | None => pure conv
            end ;;
      v2 <- match act with
            | Some f => add_node (act_op f) "" ;;; pure (act_fn f v1)
            | None => pure v1
            end ;;
      match activity_regularizer with
      | Some r => add_loss (r v2)
      | None => pure tt
      end ;;;
      pure ({| kernel := W; bias := b |},
            output ""
              (of_nhwc cl [n; option_map (fun H => deconv_out p H kh sh) h;
                           option_map (fun W' => deconv_out p W' kw sw) w;
                           Some filters]) v2)
  | None, _, _, _ => raise (ValueError "channel dimension")
  | _, _, _, _ => raise (ValueError "tuple")
  end.

(** [flops *= h * w / sh / sw], with [h] known. *)
Definition scale_flops (flops : Q) (h : Z) (w : option Z) (sh sw : Z) : M Q :=
  match w with
  | None => raise TypeError
  | Some w =>
      if sh =? 0 then raise ZeroDivisionError
      else if sw =? 0 then raise ZeroDivisionError
      else pure (flops * (inject_Z (h * w) / inject_Z sh / inject_Z sw))%Q
  end.

Definition Conv2D (inputs : Tensor) (filters : Z) (kernel_size : arg2d)
    (strides : arg2d) (padding : string) (data_format : data_format)
    (dilation_rate : arg2d) (activation : option activation) (use_bias : bool)
    (kernel_initializer bias_initializer : initializer)
    (kernel_regularizer bias_regularizer activity_regularizer : option regularizer)
    (split : Z) : M Tensor :=
  if split =? 1 then
    lr <- tf_layers_Conv2D_apply filters kernel_size strides padding data_format
            dilation_rate activation use_bias kernel_initializer bias_initializer
            kernel_regularizer bias_regularizer activity_regularizer inputs ;;
    let layer := fst lr in
    ret <- call tf_identity (snd lr) "output" ;;
    let ret := set_variables ret
                 {| vars_W := kernel layer;
                    vars_b := if use_bias then bias layer else None |} in
    (* compute the flops of the conv *)
    let in_shape := static_shape inputs in
    let channel_axis := if data_format_eqb data_format channels_last then 3 else 1 in
    let h_dim := if data_format_eqb data_format channels_last then 1 else 2 in
    let w_dim := h_dim + 1 in
    in_channel <- lift (py_getitem in_shape channel_axis) ;;
    let out_channel := filters in
    kernel_shape <- lift (shape2d kernel_size) ;;
    stride <- lift (shape4d strides data_format) ;;
    k0 <- lift (py_getitem kernel_shape 0) ;;
    k1 <- lift (py_getitem kernel_shape 1) ;;
    flops <- match in_channel with
             | Some c =>
                 pure (1 * inject_Z c * inject_Z out_channel
                       * inject_Z k0 * inject_Z k1)%Q
             | None => raise TypeError
             end ;;
    h <- lift (py_getitem in_shape h_dim) ;;
    flops <- match h with
             | Some h' =>
                 if 0 <? h' then
                   w <- lift (py_getitem in_shape w_dim) ;;
                   sh <- lift (py_getitem stride h_dim) ;;
                   sw <- lift (py_getitem stride w_dim) ;;
                   scale_flops flops h' w sh sw
                 else pure flops
             | None => pure flops
             end ;;
    pure (set_info ret {| info_flops := flops |})
  else
    (* group conv implementation *)
    let data_format := get_data_format data_format false in
    let in_shape := static_shape inputs in
    let channel_axis := if data_format_eqb data_format NHWC then -1 else 1 in
    in_channel <- lift (py_getitem in_shape channel_axis) ;;
    match in_channel with
    | None => raise (AssertionError "[Conv2D] Input cannot have unknown channel!")
    | Some in_channel =>
        check (negb (split =? 0)) ZeroDivisionError ;;;
        assert_ (in_channel mod split =? 0) "" ;;;
        assert_ (is_None kernel_regularizer && is_None bias_regularizer
                 && is_None activity_regularizer)
                "Not supported by group conv now!" ;;;
        let out_channel := filters in
        assert_ (out_channel mod split =? 0) "" ;;;
        assert_ (arg2d_eqb dilation_rate (A_tuple [1; 1])
                 || Qle_bool 1.5 get_tf_version_number)
                "TF>=1.5 required for group dilated conv" ;;;
        kernel_shape <- lift (shape2d kernel_size) ;;
        q <- lift (py_truediv in_channel split) ;;
        let filter_shape := map PInt kernel_shape ++ [q; PInt out_channel] in
        stride <- lift (shape4d strides data_format) ;;
        dilations <- (if Qle_bool 1.5 get_tf_version_number
                      then lift (shape4d dilation_rate data_format)
                      else pure [1; 1; 1; 1]) ;;
        W <- tf_get_variable "W" filter_shape kernel_initializer None ;;
        b <- (if use_bias
              then v <- tf_get_variable "b" [PInt out_channel]
                          bias_initializer None ;; pure (Some v)
              else pure None) ;;
        inputs <- tf_split inputs split channel_axis ;;
        kernels <- tf_split (read W) split 3 ;;
        outputs <- mapM (fun ik => tf_nn_conv2d (fst ik) (snd ik) stride
                                     (upper padding) dilations data_format)
                        (combine inputs kernels) ;;
        conv <- tf_concat outputs channel_axis ;;
        let activation := match activation with
                          | None => tf_identity
                          | Some f => f
                          end in
        pre <- match b with
               | Some vb => tf_nn_bias_add conv (read vb) data_format
               | None => pure conv
               end ;;
        ret <- call activation pre "output" ;;
        pure (set_variables ret {| vars_W := W; vars_b := b |})
    end.

Definition Conv2DTranspose (inputs : Tensor) (filters : Z)
    (kernel_size strides : arg2d) (padding : string)
    (data_format : data_format) (activation : option activation)
    (use_bias : bool) (kernel_initializer bias_initializer : initializer)
    (kernel_regularizer bias_regularizer activity_regularizer : option regularizer)
    (dyn_hw : option (Z * Z)) : M Tensor :=
  lr <- tf_layers_Conv2DTranspose_apply filters kernel_size strides padding
          data_format activation use_bias kernel_initializer bias_initializer
          kernel_regularizer bias_regularizer activity_regularizer inputs ;;
  let layer := fst lr in
  ret <- call tf_identity (snd lr) "output" ;;
  pure (set_variables ret
          {| vars_W := kernel layer;
             vars_b := if use_bias then bias layer else None |}).

Definition Deconv2D := Conv2DTranspose.

Definition ResizeImages (images : Tensor) (size_ : Z * Z)
    (method : ResizeMethod) (align_corners : bool)
    (data_format : data_format) : M Tensor :=
  let l := images in
  l <- (if data_format_eqb data_format channels_first
        then tf_transpose l [0; 2; 3; 1]%nat else pure l) ;;
  l <- tf_image_resize_images l size_ method align_corners ;;
  l <- (if data_format_eqb data_format channels_first
        then tf_transpose l [0; 3; 1; 2]%nat else pure l) ;;
  call tf_identity l "output".

Definition GroupedConv2D (x : Tensor) (num_paths path_ch_out : Z)
    (kernel_shape : arg2d) (sum_paths : bool) (padding : string)
    (stride : arg2d) (W_init b_init : option initializer) (nl : activation)
    (use_bias : bool) (data_format : data_format) : M Tensor :=
  let data_format := get_data_format data_format false in
  let in_shape := static_shape x in
  let ch_dim := if data_format_eqb data_format NHWC then 3 else 1 in
  ch_in <- lift (py_getitem in_shape ch_dim) ;;
  match ch_in with
  | None => raise TypeError
  | Some ch_in =>
      check (negb (num_paths =? 0)) ZeroDivisionError ;;;
      assert_ (ch_in mod num_paths =? 0)
              "Grouped conv requires n_groups to divide ch_in" ;;;
      let ch_in_per_path := ch_in / num_paths in
      let ch_out := if sum_paths then path_ch_out else num_paths * path_ch_out in
      kernel_shape <- lift (shape2d kernel_shape) ;;
      let padding := upper padding in
      let filter_shape := kernel_shape ++ [ch_in; path_ch_out] in
      stride <- lift (shape4d stride data_format) ;;
      let W_init := match W_init with
                    | None => variance_scaling_initializer
                    | Some i => i
                    end in
      let b_init := match b_init with
                    | None => tf_constant_initializer
                    | Some i => i
                    end in
      W <- tf_get_variable "W" (map PInt filter_shape) W_init None ;;
      b <- (if use_bias
            then v <- tf_get_variable "b" [PInt ch_out] b_init None ;; pure (Some v)
            else pure None) ;;
      x <- tf_nn_depthwise_conv2d x (read W) stride padding data_format ;;
      let out_shape := static_shape x in
      (* First reshape to expose the dimension by input channels *)
      let shape_depthwise :=
        [Some num_paths; Some ch_in_per_path; Some path_ch_out] in
      x <- (if data_format_eqb data_format NHWC then
              o1 <- lift (py_getitem out_shape 1) ;;
              o2 <- lift (py_getitem out_shape 2) ;;
              tf_reshape x ([Some (-1); o1; o2] ++ shape_depthwise)
            else
              o2 <- lift (py_getitem out_shape 2) ;;
              o3 <- lift (py_getitem out_shape 3) ;;
              tf_reshape x ([Some (-1)] ++ shape_depthwise ++ [o2; o3])) ;;
      (* Then reduce sum to remove the input channel leaving output dim
         and (path dim) *)
      let sum_axis := if sum_paths
                      then [Z.to_nat ch_dim; Z.to_nat (ch_dim + 1)]
                      else [Z.to_nat (ch_dim + 1)] in
      x <- tf_reduce_sum x sum_axis ;;
      (* reshape to output shape if path dim did not collapse *)
      x <- (if negb sum_paths then
              if data_format_eqb data_format NHWC then
                o1 <- lift (py_getitem out_shape 1) ;;
                o2 <- lift (py_getitem out_shape 2) ;;
                tf_reshape x [Some (-1); o1; o2; Some ch_out]
              else
                o2 <- lift (py_getitem out_shape 2) ;;
                o3 <- lift (py_getitem out_shape 3) ;;
                tf_reshape x [Some (-1); Some ch_out; o2; o3]
            else pure x) ;;
      pre <- match b with
             | Some vb => tf_nn_bias_add x (read vb) data_format
             | None => pure x
             end ;;
      ret <- call nl pre "output" ;;
      pure (set_variables ret {| vars_W := W; vars_b := b |})
  end.

End Layers.

(* ------------------------------------------------------------------ *)
(** ** examples/AnytimeNetwork/imagenet-ann.py *)

Module imagenet_ann.

(** The namespace [parse_args] returns, with the attributes the script
    sets afterwards. *)
Record Namespace := mk_args {
  data_dir : option string;
  log_dir : option string;
  model_dir : option string;
  batch_size : Z;
  load : option string;
  nr_gpu : Z;
  eval : bool;
  is_toy : bool;
  init_channel : Z;
  num_classes : Z;
  do_mean_std_gpu_process : bool;
  input_type : string;
  mean : option (list Z);
  std : option (list Z) }.

(** What the script gets from outside: the parsed command line, the
    constants of [get_augmented_data], the sizes of the datasets and the
    file system. *)
Record world := mk_world {
  parse_args : Namespace;
  ilsvrc_mean : option (list Z);
  ilsvrc_std : option (list Z);
  dataset_size : string -> Z;
  path_exists : string -> bool }.

Record DataFlow := mk_dataflow { df_name : string; df_size : Z }.

Record TrainConfig := mk_config {
  dataflow : DataFlow;
  callbacks : list string;
  model_args : Namespace;
  steps_per_epoch : Z;
  max_epoch : Z;
  session_init : option string;
  nr_tower : option Z }.

(** The calls the script makes into argparse, the logger and the
    framework, in the order it makes them. *)
Inductive event :=
| ArgumentParser
| add_argument (flag : string)
| parser_add_resnet_arguments
| parse_args_called
| set_log_root (dir : option string)
| auto_set_dir
| get_ilsvrc_augmented_data (train_or_test : string)
| AnytimeResnet (input_size : Z)
| compute_classification_callbacks
| compute_loss_select_callbacks
| TrainConfig_called
| SaverRestore (path : string)
| SyncMultiGPUTrainer
| train (config : TrainConfig).

Definition T : Type -> Type := ST (list event).

Definition emit (e : event) : T unit := fun tr => (Ok tt, tr ++ [e]).

Definition INPUT_SIZE : Z := 224.

Section Script.

Variable w : world.

Definition get_data (args : Namespace) (train_or_test : string) : T DataFlow :=
  emit (get_ilsvrc_augmented_data train_or_test) ;;;
  pure {| df_name := train_or_test; df_size := dataset_size w train_or_test |}.

Definition get_config (args : Namespace) : T TrainConfig :=
  (* prepare dataset *)
  ds <- (if is_toy args then
           dataset_train <- get_data args "toy_train" ;;
           dataset_val <- get_data args "toy_validation" ;;
           pure (dataset_train, dataset_val)
         else
           dataset_train <- get_data args "train" ;;
           dataset_val <- get_data args "validation" ;;
           pure (dataset_train, dataset_val)) ;;
  let dataset_train := fst ds in
  let dataset_val := snd ds in
  check (negb (nr_gpu args =? 0)) ZeroDivisionError ;;;
  let steps_per_epoch := df_size dataset_train / nr_gpu args in
  emit (AnytimeResnet INPUT_SIZE) ;;;
  emit compute_classification_callbacks ;;;
  emit compute_loss_select_callbacks ;;;
  emit TrainConfig_called ;;;
  pure {| dataflow := dataset_train;
          callbacks := ["ModelSaver"; "InferenceRunner";
                        "ScheduledHyperParamSetter"; "HumanHyperParamSetter";
                        "loss_select_cbs"]%string;
          model_args := args;
          steps_per_epoch := steps_per_epoch;
          max_epoch := 128;
          session_init := None;
          nr_tower := None |}.

Definition truthy (s : option string) : bool :=
  match s with
  | None => false
  | Some s' => negb (String.eqb s' "")
  end.

Definition main : T unit :=
  emit ArgumentParser ;;;
  emit (add_argument "--data_dir") ;;;
  emit (add_argument "--log_dir") ;;;
  emit (add_argument "--model_dir") ;;;
  emit (add_argument "--batch_size") ;;;
  emit (add_argument "--load") ;;;
  emit (add_argument "--nr_gpu") ;;;
  emit (add_argument "--eval") ;;;
  emit (add_argument "--is_toy") ;;;
  emit parser_add_resnet_arguments ;;;
  emit parse_args_called ;;;
  let args := parse_args w in
  assert_ (init_channel args =? 64) "" ;;;
  assert_ (num_classes args =? 1000) "" ;;;
  let args := {| data_dir := data_dir args; log_dir := log_dir args;
                 model_dir := model_dir args; batch_size := batch_size args;
                 load := load args; nr_gpu := nr_gpu args; eval := eval args;
                 is_toy := is_toy args; init_channel := init_channel args;
                 num_classes := num_classes args;
                 do_mean_std_gpu_process := true;
                 input_type := "uint8";
                 mean := ilsvrc_mean w;
                 std := ilsvrc_std w |} in
  assert_ (do_mean_std_gpu_process args && String.eqb (input_type args) "uint8") "" ;;;
  assert_ (negb (is_None (mean args)) && negb (is_None (std args))) "" ;;;
  (* directory setup *)
  emit (set_log_root (log_dir args)) ;;;
  emit auto_set_dir ;;;
  config <- get_config args ;;
  config <- (if truthy (load args)
             then match load args with
                  | Some path =>
                      if path_exists w path then
                        emit (SaverRestore path) ;;;
                        pure {| dataflow := dataflow config;
                                callbacks := callbacks config;
                                model_args := model_args config;
                                steps_per_epoch := steps_per_epoch config;
                                max_epoch := max_epoch config;
                                session_init := Some path;
                                nr_tower := nr_tower config |}
                      else pure config
                  | None => pure config
                  end
             else pure config) ;;
  let config := {| dataflow := dataflow config;
                   callbacks := callbacks config;
                   model_args := model_args config;
                   steps_per_epoch := steps_per_epoch config;
                   max_epoch := max_epoch config;
                   session_init := session_init config;
                   nr_tower := Some (nr_gpu args) |} in
  emit SyncMultiGPUTrainer ;;;
  emit (train config).

End Script.

(** The step of the script an event belongs to. *)
Inductive phase := Parse | Logging | Config | Training.

Definition phase_of (e : event) : phase :=
  match e with
  | ArgumentParser | add_argument _ | parser_add_resnet_arguments
  | parse_args_called => Parse
  | set_log_root _ | auto_set_dir => Logging
  | get_ilsvrc_augmented_data _ | AnytimeResnet _
  | compute_classification_callbacks | compute_loss_select_callbacks
  | TrainConfig_called | SaverRestore _ => Config
  | SyncMultiGPUTrainer | train _ => Training
  end.

Definition phase_rank (p : phase) : nat :=
  match p with Parse => 0 | Logging => 1 | Config => 2 | Training => 3 end.

(** The events come in the order of their steps. *)
Fixpoint ordered (tr : list event) : bool :=
  match tr with
  | [] => true
  | e :: tr' =>
      forallb (fun e' => Nat.leb (phase_rank (phase_of e)) (phase_rank (phase_of e'))) tr'
      && ordered tr'
  end.

(** The events of the first step, in order. *)
Definition parse_events : list event :=
  [ArgumentParser; add_argument "--data_dir"; add_argument "--log_dir";
   add_argument "--model_dir"; add_argument "--batch_size"; add_argument "--load";
   add_argument "--nr_gpu"; add_argument "--eval"; add_argument "--is_toy";
   parser_add_resnet_arguments; parse_args_called].

(** The checkpoint the script restores: [args.load] when it is given and
    the file exists. *)
Definition restore_events (w : world) : list event :=
  match load (parse_args w) with
  | Some path =>
      if truthy (Some path) && path_exists w path then [SaverRestore path] else []
  | None => []
  end.

(** A command line the script accepts, and one with 10 classes. *)
Definition example_world : world :=
  {| parse_args :=
       {| data_dir := Some "/data"%string; log_dir := Some "/log"%string;
          model_dir := None; batch_size := 128; load := Some "ckpt"%string;
          nr_gpu := 2; eval := false; is_toy := false; init_channel := 64;
          num_classes := 1000; do_mean_std_gpu_process := false;
          input_type := ""%string; mean := None; std := None |};
     ilsvrc_mean := Some [124; 116; 104];
     ilsvrc_std := Some [58; 57; 57];
     dataset_size := fun _ => 1024;
     path_exists := fun _ => true |}.

Definition example_world_10_classes : world :=
  {| parse_args :=
       {| data_dir := None; log_dir := None; model_dir := None;
          batch_size := 128; load := None; nr_gpu := 1; eval := false;
          is_toy := true; init_channel := 64; num_classes := 10;
          do_mean_std_gpu_process := false; input_type := ""%string;
          mean := None; std := None |};
     ilsvrc_mean := Some [124; 116; 104];
     ilsvrc_std := Some [58; 57; 57];
     dataset_size := fun _ => 1024;
     path_exists := fun _ => false |}.

(** The events of the directory setup and of the construction of the
    two datasets. *)
Definition logging_events (w : world) : list event :=
  [set_log_root (log_dir (parse_args w)); auto_set_dir].

Definition dataset_events (w : world) : list event :=
  [get_ilsvrc_augmented_data
     (if is_toy (parse_args w) then "toy_train" else "train");
   get_ilsvrc_augmented_data
     (if is_toy (parse_args w) then "toy_validation" else "validation")].

(** The name of the training set. *)
Definition train_name (w : world) : string :=
  if is_toy (parse_args w) then "toy_train" else "train".

(** A command line with no GPU. *)
Definition example_world_no_gpu : world :=
  {| parse_args :=
       {| data_dir := None; log_dir := None; model_dir := None;
          batch_size := 128; load := None; nr_gpu := 0; eval := false;
          is_toy := false; init_channel := 64; num_classes := 1000;
          do_mean_std_gpu_process := false; input_type := ""%string;
          mean := None; std := None |};
     ilsvrc_mean := Some [124; 116; 104];
     ilsvrc_std := Some [58; 57; 57];
     dataset_size := fun _ => 1024;
     path_exists := fun _ => false |}.

End imagenet_ann.

(** The graph after the nodes of [l] were added in order. *)
Fixpoint with_nodes (g : graph) (l : list (op * string)) : graph :=
  match l with
  | [] => g
  | (o, nm) :: l' => with_nodes (with_node g o nm) l'
  end.

(* ------------------------------------------------------------------ *)
(** ** Reference definitions

    The values the two grouped convolutions build, written with the
    operations on values. *)

(** What [Conv2D] computes before bias and activation when [split] is
    not 1: the input is cut into [split] groups along the channel axis,
    the kernel into [split] slices along its fourth axis, group [i] is
    convolved with slice [i], and the results are concatenated along the
    channel axis. *)

Definition group_conv_value (cl : bool) (x Wv : tensor) (split : Z)
    (stride dilations : list Z) (p : padding_mode) : tensor :=
  concat_v
    (map (fun ik => conv2d_v cl (fst ik) (snd ik) stride dilations p)
         (combine (split_v x split (if cl then 3 else 1)%nat)
                  (split_v Wv split 3)))
    (if cl then 3 else 1)%nat.

(** What [GroupedConv2D] computes before bias and nonlinearity: a
    depthwise convolution, a reshape that exposes [P, cpp, M], a sum over
    the [cpp] axis (and over the [P] axis when [sum_paths]), and a last
    reshape when the path axis is kept. *)
Definition grouped_conv2d_value (cl sum_paths : bool) (x Wv : tensor)
    (P cpp M OH OW : Z) (stride : list Z) (p : padding_mode) : tensor :=
  let ch := (if cl then 3 else 1)%nat in
  let x1 := depthwise_conv2d_v cl x Wv stride p in
  let x2 := reshape_v x1 (if cl then [-1; OH; OW; P; cpp; M]
                          else [-1; P; cpp; M; OH; OW]) in
  let x3 := reduce_sum_v x2 (if sum_paths then [ch; S ch] else [S ch]) in
  if sum_paths then x3
  else reshape_v x3 (if cl then [-1; OH; OW; P * M] else [-1; P * M; OH; OW]).


(* ------------------------------------------------------------------ *)
(** ** Example inputs *)

(** A batch of two 3x3 images with 4 channels, in NHWC, the batch size
    being unknown statically. *)
Definition example_input : Tensor :=
  output "x" [None; Some 3; Some 3; Some 4]
    (tabulate [2; 3; 3; 4] (fun idx => ravel [2; 3; 3; 4] idx - 7)).

(** An initializer with distinct entries. *)
Definition example_initializer : initializer :=
  fun s => tabulate s (fun idx => 3 - ravel s idx).

(* ------------------------------------------------------------------ *)
(** ** Predicates of the specification *)

(** [returns c P]: whenever [c] succeeds, its result satisfies [P]. *)
Definition returns {S A} (c : ST S A) (P : A -> Prop) : Prop :=
  forall g a g', c g = (Ok a, g') -> P a.

(** The attribute [variables] of the tensor a layer returns: the weight
    named W, and the bias named b if and only if [use_bias]. *)
Definition holds_variables (ret : Tensor) (use_bias : bool) : Prop :=
  exists Wv b,
    variables ret = Some {| vars_W := Wv; vars_b := b |}
    /\ v_name Wv = "W"%string
    /\ (if use_bias then exists vb, b = Some vb /\ v_name vb = "b"%string
        else b = None).

(** The variables of a tf.layers layer: the kernel is named W and has
    the kernel regularizer, the bias (if any) is named b and has the bias
    regularizer. *)
Definition layer_variables (l : tf_layer) (use_bias : bool)
    (kr br : option regularizer) : Prop :=
  v_name (kernel l) = "W"%string /\ v_regularizer (kernel l) = kr
  /\ (if use_bias
      then exists vb, bias l = Some vb /\ v_name vb = "b"%string
                      /\ v_regularizer vb = br
      else bias l = None).

(** The flop count the specification gives for [Conv2D]: the product of
    the channel counts and of the kernel extents, times the number of
    output positions [H * W / (sh * sw)] when the height is known and
    positive. *)
Definition claimed_flops (in_channel filters kh kw : Z) (h w : option Z)
    (sh sw : Z) : Q :=
  let base := inject_Z (in_channel * filters * kh * kw) in
  match h, w with
  | Some H, Some W =>
      if 0 <? H then (base * (inject_Z (H * W) / inject_Z (sh * sw)))%Q else base
  | _, _ => base
  end.

(** A regularizer: the sum of the entries. *)
Definition example_regularizer : regularizer :=
  fun t => fold_right Z.add 0 (data t).

(** Nearest-neighbour resize of channels-last images, standing for
    [tf.image.resize_images]. *)
Definition nearest_resize (t : tensor) (size_ : Z * Z) (method : ResizeMethod)
    (align_corners : bool) : tensor :=
  match shape t with
  | [N; H; W; C] =>
      tabulate [N; fst size_; snd size_; C]
        (fun idx =>
           match idx with
           | [n; y; x; c] => at_ t [n; y * H / fst size_; x * W / snd size_; c]
           | _ => 0
           end)
  | _ => t
  end.

(** A stand-in for the kernel of the transposed convolution: zeros of
    the shape of the input. *)
Definition zero_conv2d_transpose (cl : bool) (x w : tensor) (strides : list Z)
    (p : padding_mode) : tensor :=
  tabulate (shape x) (fun _ => 0).

(** The example input in channels-first layout. *)
Definition example_input_nchw : Tensor :=
  output "x" [None; Some 4; Some 3; Some 3]
    (tabulate [2; 4; 3; 3] (fun idx => ravel [2; 4; 3; 3] idx - 7)).

(** [appends c l P]: whenever [c] succeeds it has added the nodes [l], in
    this order, to the graph, and its result satisfies [P]. *)
Definition appends {A} (c : M A) (l : list (op * string)) (P : A -> Prop) : Prop :=
  forall g a g', c g = (Ok a, g') -> g_nodes g' = g_nodes g ++ l /\ P a.


(** The example input with an unknown channel count, and with a known
    height and an unknown width. *)
Definition example_input_unknown_channel : Tensor :=
  output "x" [None; Some 3; Some 3; None] (value example_input).

Definition example_input_unknown_width : Tensor :=
  output "x" [None; Some 3; None; Some 4] (value example_input).

(** A single 3x3 image with 4 channels. *)
Definition example_image : Tensor :=
  output "image" [Some 3; Some 3; Some 4]
    (tabulate [3; 3; 4] (fun idx => ravel [3; 3; 4] idx - 7)).

(* ------------------------------------------------------------------ *)
(** ** Lemmas on indices *)


Lemma size_app s1 s2 : size (s1 ++ s2) = size s1 * size s2.
Proof.
  induction s1 as [|d s1 IH]; simpl.
  - destruct (size s2); reflexivity.
  - fold (size (s1 ++ s2)). fold (size s1). rewrite IH. ring.
Qed.



Lemma in_range_nonneg s idx : in_range s idx -> Forall (fun d => 0 <= d) s.
Proof. induction 1; constructor; [lia | assumption]. Qed.

Lemma in_range_pos s idx : in_range s idx -> Forall (fun d => 0 < d) s.
Proof. induction 1; constructor; [lia | assumption]. Qed.

Lemma in_rangeb_spec s idx : in_rangeb s idx = true <-> in_range s idx.
Proof.
  revert idx. induction s as [|d s IH]; intros [|i idx]; simpl; split;
    intros H; try discriminate; try (now inversion H); try constructor.
  - apply andb_prop in H. destruct H as [H1 H2].
    apply andb_prop in H1. destruct H1. lia.
  - apply IH. apply andb_prop in H. apply H.
  - inversion H as [|? ? ? ? Hi Hr]; subst. apply IH in Hr. rewrite Hr.
    replace (0 <=? i) with true by (symmetry; apply Z.leb_le; lia).
    replace (i <? d) with true by (symmetry; apply Z.ltb_lt; lia).
    reflexivity.
Qed.

Lemma ravel_range s idx : in_range s idx -> 0 <= ravel s idx < size s.
Proof.
  induction 1 as [|d i s idx Hi Hr IH]; simpl; [lia|].
  fold (size s). nia.
Qed.

Lemma unravel_ravel s idx : in_range s idx -> unravel s (ravel s idx) = idx.
Proof.
  induction 1 as [|d i s idx Hi Hr IH]; simpl; [reflexivity|].
  fold (size s). pose proof (ravel_range Hr) as Hk.
  f_equal.
  - rewrite Z.div_add_l by lia. rewrite Z.div_small by lia. lia.
  - rewrite Z.add_comm, Z.mod_add by lia. rewrite Z.mod_small by lia. exact IH.
Qed.



Lemma in_range_length s idx : in_range s idx -> length idx = length s.
Proof. induction 1; simpl; congruence. Qed.

(* ------------------------------------------------------------------ *)
(** ** Lemmas on tensors and sums *)

Lemma at_tabulate s f idx : in_range s idx -> at_ (tabulate s f) idx = f idx.
Proof.
  intros Hr. unfold at_, tabulate; simpl.
  pose proof (ravel_range Hr) as Hk.
  set (g := fun k : nat => f (unravel s (Z.of_nat k))).
  assert (Hd : 0 = g 0%nat -> True) by trivial. clear Hd.
  rewrite (nth_indep _ 0 (g 0%nat)) by (rewrite length_map, length_seq; lia).
  rewrite map_nth, seq_nth by lia. unfold g; simpl.
  rewrite Z2Nat.id by lia. rewrite unravel_ravel by assumption. reflexivity.
Qed.

Lemma wf_tabulate s f : Forall (fun d => 0 <= d) s -> wf (tabulate s f).
Proof.
  intros Hs. split; [exact Hs|]. simpl. rewrite length_map, length_seq.
  reflexivity.
Qed.



Lemma sumZ_ext n f g :
  (forall k, 0 <= k < n -> f k = g k) -> sumZ n f = sumZ n g.
Proof.
  unfold sumZ. intros H.
  assert (Hin : forall k, In k (seq 0 (Z.to_nat n)) -> f (Z.of_nat k) = g (Z.of_nat k)).
  { intros k Hk. apply in_seq in Hk. apply H. lia. }
  induction (seq 0 (Z.to_nat n)) as [|a l IH]; simpl; [reflexivity|].
  rewrite Hin by (left; reflexivity). rewrite IH; [reflexivity|].
  intros k Hk. apply Hin. right. exact Hk.
Qed.




(* ------------------------------------------------------------------ *)
(** ** Running graph construction *)

Ltac mred :=
  cbn [bind pure lift check assert_ raise negb andb orb fst snd is_None].

Lemma truediv_dimension a b :
  0 < b -> a mod b = 0 -> 0 <= a ->
  exists q, py_truediv a b = Ok (PFloat q) /\ as_dimension (PFloat q) = Ok (a / b).
Proof.
  intros Hb Hm Ha. unfold py_truediv.
  destruct (Z.eqb_spec b 0); [lia|]. eexists; split; [reflexivity|].
  destruct b as [|pb|pb]; try lia.
  unfold as_dimension, Qdiv, Qinv, inject_Z, Qmult; simpl Qnum; simpl Qden.
  rewrite Z.mul_1_r, Pos.mul_1_l.
  rewrite Z.quot_div_nonneg by lia.
  assert (Hq : a = Z.pos pb * (a / Z.pos pb)) by (apply Z.div_exact; lia).
  replace (Qeq_bool (a / Z.pos pb # 1) (a # pb)) with true.
  2:{ symmetry. apply Qeq_bool_iff. unfold Qeq; simpl. lia. }
  simpl negb. cbv iota.
  destruct (Z.ltb_spec (a / Z.pos pb) 0) as [Hneg|]; [|reflexivity].
  assert (0 <= a / Z.pos pb) by (apply Z.div_pos; lia). lia.
Qed.

Lemma as_shape_ints l : Forall (fun d => 0 <= d) l -> as_shape (map PInt l) = Ok l.
Proof.
  induction 1 as [|d l Hd _ IH]; simpl; [reflexivity|].
  rewrite IH. destruct (Z.ltb_spec d 0); [lia | reflexivity].
Qed.

Lemma bind_run {S A B} (c : ST S A) (k : A -> ST S B) g a g1 :
  c g = (Ok a, g1) -> bind c k g = k a g1.
Proof. intros H. unfold bind. rewrite H. reflexivity. Qed.
Arguments bind_run {S A B c} k {g a g1} _.

Lemma tf_get_variable_run nm shp s init reg g :
  as_shape shp = Ok s ->
  tf_get_variable nm shp init reg g =
  (Ok (mk_variable nm s (init s) reg), with_variable g (mk_variable nm s (init s) reg)).
Proof. intros H. unfold tf_get_variable. rewrite H. reflexivity. Qed.

Lemma normalize_axis_run rank axis g :
  0 <= (if axis <? 0 then axis + Z.of_nat rank else axis) < Z.of_nat rank ->
  normalize_axis rank axis g =
  (Ok (Z.to_nat (if axis <? 0 then axis + Z.of_nat rank else axis)), g).
Proof.
  intros H. unfold normalize_axis.
  replace ((0 <=? _) && (_ <? Z.of_nat rank)) with true; [reflexivity|].
  symmetry. apply andb_true_iff. split; [apply Z.leb_le | apply Z.ltb_lt]; lia.
Qed.

Lemma tf_split_run x n axis a d g :
  normalize_axis (length (static_shape x)) axis g = (Ok a, g) ->
  0 < n -> nth a (static_shape x) None = Some d -> d mod n = 0 ->
  tf_split x n axis g =
  (Ok (map (output "" (set_nth a (Some (d / n)) (static_shape x)))
           (split_v (value x) n a)),
   with_node g Op_split "").
Proof.
  intros Ha Hn Hd Hm. unfold tf_split.
  rewrite (bind_run _ Ha). 
  replace (0 <? n) with true by (symmetry; apply Z.ltb_lt; lia).
  rewrite Hd. simpl known_or.
  replace (d mod n =? 0) with true by (symmetry; apply Z.eqb_eq; lia).
  reflexivity.
Qed.

Lemma mapM_run {A B} (f : A -> M B) (h : A -> B) o nm l :
  (forall a g, In a l -> f a g = (Ok (h a), with_node g o nm)) ->
  forall g, mapM f l g = (Ok (map h l), with_nodes g (repeat (o, nm) (length l))).
Proof.
  induction l as [|a l IH]; intros Hf g; simpl; [reflexivity|].
  rewrite (bind_run _ (Hf a g (or_introl eq_refl))).
  rewrite (bind_run _ (IH (fun a' g' Hin => Hf a' g' (or_intror Hin)) _)).
  reflexivity.
Qed.

Lemma layout_run df g :
  (df = NHWC \/ df = NCHW) ->
  layout df g = (Ok (data_format_eqb df NHWC), g).
Proof. intros [-> | ->]; reflexivity. Qed.

Lemma get_data_format_tf df :
  get_data_format df false = NHWC \/ get_data_format df false = NCHW.
Proof. destruct df; simpl; auto. Qed.

Lemma tf_nn_conv2d_run x filter strides pad dilations df g p kh kw C F
    s0 sh sw s3 d0 dh dw d3 :
  let cl := data_format_eqb df NHWC in
  (df = NHWC \/ df = NCHW) ->
  parse_padding pad g = (Ok p, g) ->
  length (static_shape x) = 4%nat ->
  shape (value filter) = [kh; kw; C; F] ->
  to_nhwc cl strides = [s0; sh; sw; s3] ->
  to_nhwc cl dilations = [d0; dh; dw; d3] ->
  nth (if cl then 3 else 1)%nat (static_shape x) None = Some C ->
  tf_nn_conv2d x filter strides pad dilations df g =
  (Ok (output "" (static_conv cl p (static_shape x) kh kw sh sw dh dw F)
         (conv2d_v cl (value x) (value filter) strides dilations p)),
   with_node g Op_conv2d "").
Proof.
  intros cl Hdf Hp Hr Hf Hs Hd Hc. unfold tf_nn_conv2d.
  rewrite (bind_run _ (layout_run g Hdf)). fold cl.
  rewrite (bind_run _ Hp).
  rewrite Hr. simpl Nat.eqb. mred.
  rewrite Hf, Hs, Hd, Hc. simpl known_or. rewrite Z.eqb_refl. reflexivity.
Qed.

Lemma parse_padding_pure s g p g' :
  parse_padding s g = (Ok p, g') -> forall g2, parse_padding s g2 = (Ok p, g2).
Proof.
  unfold parse_padding. intros H g2.
  destruct (String.eqb s "SAME"); [inversion H; reflexivity|].
  destruct (String.eqb s "VALID"); [inversion H; reflexivity|].
  discriminate H.
Qed.

Lemma in_split_v_shape t x n a :
  In t (split_v x n a) ->
  shape t = set_nth a (nth a (shape x) 0 / n) (shape x).
Proof.
  unfold split_v. intros H. apply in_map_iff in H.
  destruct H as (i & <- & _). reflexivity.
Qed.

Lemma tf_concat_run t ts axis a g :
  normalize_axis (length (static_shape t)) axis g = (Ok a, g) ->
  exists st,
  tf_concat (t :: ts) axis g =
  (Ok (output "" st (concat_v (map value (t :: ts)) a)), with_node g Op_concat "").
Proof.
  intros Ha. unfold tf_concat. rewrite (bind_run _ Ha). eexists. reflexivity.
Qed.

Lemma to_of_nhwc4 {A} cl (a b c d : A) :
  to_nhwc cl (of_nhwc cl [a; b; c; d]) = [a; b; c; d].
Proof. destruct cl; reflexivity. Qed.

Lemma g_variables_with_nodes g l :
  g_variables (with_nodes g l) = g_variables g.
Proof.
  revert g. induction l as [|[o nm] l IH]; intros g; simpl; [reflexivity|].
  rewrite IH. reflexivity.
Qed.

Lemma tf_nn_bias_add_run x b df g :
  (df = NHWC \/ df = NCHW) ->
  tf_nn_bias_add x b df g =
  (Ok (output "" (static_shape x)
         (bias_add_v (data_format_eqb df NHWC) (value x) (value b))),
   with_node g Op_bias_add "").
Proof.
  intros Hdf. unfold tf_nn_bias_add. rewrite (bind_run _ (layout_run g Hdf)).
  reflexivity.
Qed.

Lemma map_combine_outputs {B} (F : tensor -> tensor -> B) st1 st2 l1 l2 :
  map (fun ik : Tensor * Tensor => F (value (fst ik)) (value (snd ik)))
      (combine (map (output "" st1) l1) (map (output "" st2) l2))
  = map (fun ik => F (fst ik) (snd ik)) (combine l1 l2).
Proof.
  revert l2. induction l1 as [|a l1 IH]; intros [|c l2]; simpl; try reflexivity.
  rewrite IH. reflexivity.
Qed.

Lemma split_v_length t n a : length (split_v t n a) = Z.to_nat n.
Proof. unfold split_v. rewrite length_map, length_seq. reflexivity. Qed.

Lemma Conv2D_group_run (tfv : Q) inputs filters kernel_size strides padding df
    dilation_rate act (use_bias : bool) (ki bi : initializer) split g
    (n h w : option Z) (C kh kw sh sw dh dw : Z) p :
  let cl := data_format_eqb (get_data_format df false) NHWC in
  let W := mk_variable "W" [kh; kw; C / split; filters]
             (ki [kh; kw; C / split; filters]) None in
  let b := if use_bias
           then Some (mk_variable "b" [filters] (bi [filters]) None)
           else None in
  let conv := group_conv_value cl (value inputs) (v_value W) split
                (of_nhwc cl [1; sh; sw; 1]) (of_nhwc cl [1; dh; dw; 1]) p in
  1 < split ->
  static_shape inputs = of_nhwc cl [n; h; w; Some C] ->
  0 <= C -> C mod split = 0 -> 0 <= filters -> filters mod split = 0 ->
  arg2d_eqb dilation_rate (A_tuple [1; 1]) || Qle_bool 1.5 tfv = true ->
  shape2d kernel_size = Ok [kh; kw] -> 0 <= kh -> 0 <= kw ->
  shape2d strides = Ok [sh; sw] ->
  (if Qle_bool 1.5 tfv then shape2d dilation_rate = Ok [dh; dw]
   else dh = 1 /\ dw = 1) ->
  parse_padding (upper padding) g = (Ok p, g) ->
  (forall s, shape (ki s) = s) ->
  exists st g',
    Conv2D tfv inputs filters kernel_size strides padding df dilation_rate act
      use_bias ki bi None None None split g =
    (Ok {| name := "output"%string; static_shape := st;
           value := act_fn (match act with Some f => f | None => tf_identity end)
                      (match b with
                       | Some vb => bias_add_v cl conv (v_value vb)
                       | None => conv
                       end);
           variables := Some {| vars_W := W; vars_b := b |};
           info := None |}, g')
    /\ g_variables g' =
       g_variables g ++ W :: match b with Some vb => [vb] | None => [] end.
Proof.
  intros cl W b conv Hsplit Hst HC HCm HF HFm Hdil Hks Hkh Hkw Hstr Hdl Hpad Hki.
  unfold Conv2D.
  replace (split =? 1) with false by (symmetry; apply Z.eqb_neq; lia).
  fold cl.
  assert (Hch : py_getitem (static_shape inputs) (if cl then -1 else 1) = Ok (Some C)).
  { rewrite Hst. destruct cl; reflexivity. }
  rewrite Hch. mred.
  replace (split =? 0) with false by (symmetry; apply Z.eqb_neq; lia).
  replace (C mod split =? 0) with true by (symmetry; apply Z.eqb_eq; lia).
  replace (filters mod split =? 0) with true by (symmetry; apply Z.eqb_eq; lia).
  rewrite Hdil. rewrite Hks. mred.
  destruct (truediv_dimension (a := C) (b := split)) as (q & Hq & Hqd); try lia.
  rewrite Hq. mred.
  assert (Hcl : data_format_eqb (get_data_format (get_data_format df false) true)
                  channels_last = cl) by (unfold cl; destruct df; reflexivity).
  unfold shape4d. rewrite Hstr, Hcl. mred.
  replace (if cl then [1] ++ [sh; sw] ++ [1] else [1; 1] ++ [sh; sw])
    with (of_nhwc cl [1; sh; sw; 1]) by (destruct cl; reflexivity).
  set (stride := of_nhwc cl [1; sh; sw; 1]).
  set (dil := of_nhwc cl [1; dh; dw; 1]).
  assert (Hdil4 : forall g0 : graph,
    (if Qle_bool 1.5 tfv
     then lift match shape2d dilation_rate with
               | Ok s2d => Ok (if cl then [1] ++ s2d ++ [1] else [1; 1] ++ s2d)
               | Raise e => Raise e
               end
     else pure [1; 1; 1; 1]) g0 = (Ok dil, g0)).
  { intros g0. unfold dil. destruct (Qle_bool 1.5 tfv).
    - rewrite Hdl. destruct cl; reflexivity.
    - destruct Hdl as [-> ->]. destruct cl; reflexivity. }
  rewrite (bind_run _ (Hdil4 g)).
  assert (HWs : as_shape (map PInt [kh; kw] ++ [PFloat q; PInt filters])
                = Ok [kh; kw; C / split; filters]).
  { cbn [map app as_shape]. rewrite Hqd. cbn [as_dimension].
    destruct (Z.ltb_spec kh 0); [lia|]. destruct (Z.ltb_spec kw 0); [lia|].
    destruct (Z.ltb_spec filters 0); [lia|]. reflexivity. }
  rewrite (bind_run _ (@tf_get_variable_run "W" _ _ ki None g HWs)). fold W.
  set (g1 := with_variable g W).
  assert (Hb : exists g2,
    (if use_bias
     then v <- tf_get_variable "b" [PInt filters] bi None;; pure (Some v)
     else pure None) g1 = (Ok b, g2)
    /\ g_variables g2 = g_variables g ++ W :: match b with Some vb => [vb] | None => [] end).
  { unfold b. destruct use_bias.
    - eexists. split.
      + erewrite bind_run; [reflexivity|]. apply tf_get_variable_run.
        apply (as_shape_ints (l := [filters])). repeat constructor; lia.
      + simpl. rewrite <- app_assoc. reflexivity.
    - eexists. split; [reflexivity|]. reflexivity. }
  destruct Hb as (g2 & Hb & Hg2). rewrite (bind_run _ Hb).
  set (ax := (if cl then 3 else 1)%nat).
  assert (Hax : forall g0 : graph,
            normalize_axis (length (static_shape inputs)) (if cl then -1 else 1) g0
            = (Ok ax, g0)).
  { intros g0. rewrite Hst. unfold ax. destruct cl; reflexivity. }
  assert (Hnth : nth ax (static_shape inputs) None = Some C).
  { rewrite Hst. unfold ax. destruct cl; reflexivity. }
  erewrite bind_run
    by (eapply tf_split_run; [apply Hax | lia | exact Hnth | exact HCm]).
  assert (HaxW : normalize_axis (length (static_shape (read W))) 3
                   (with_node g2 Op_split "") = (Ok 3%nat, with_node g2 Op_split "")).
  { reflexivity. }
  erewrite bind_run
    by (eapply tf_split_run; [exact HaxW | lia | reflexivity | exact HFm]).
  set (st_in := set_nth ax (Some (C / split)) (static_shape inputs)).
  set (st_k := set_nth 3 (Some (filters / split)) (static_shape (read W))).
  set (pairs := combine (map (output "" st_in) (split_v (value inputs) split ax))
                        (map (output "" st_k) (split_v (value (read W)) split 3))).
  set (hc := fun ik : Tensor * Tensor =>
              output "" (static_conv cl p (static_shape (fst ik)) kh kw sh sw dh dw
                           (filters / split))
                (conv2d_v cl (value (fst ik)) (value (snd ik)) stride dil p)).
  assert (Hconv : forall ik g0, In ik pairs ->
            tf_nn_conv2d (fst ik) (snd ik) stride (upper padding) dil
              (get_data_format df false) g0 = (Ok (hc ik), with_node g0 Op_conv2d "")).
  { intros [i k] g0 Hin. unfold pairs in Hin.
    pose proof (in_combine_l _ _ _ _ Hin) as Hi.
    pose proof (in_combine_r _ _ _ _ Hin) as Hk.
    apply in_map_iff in Hi. destruct Hi as (vi & <- & Hvi).
    apply in_map_iff in Hk. destruct Hk as (vk & <- & Hvk).
    apply in_split_v_shape in Hvk. simpl in Hvk. rewrite Hki in Hvk. simpl in Hvk.
    unfold hc. cbn [fst snd static_shape value output].
    apply tf_nn_conv2d_run with (C := C / split) (s0 := 1) (s3 := 1) (d0 := 1) (d3 := 1).
    - apply get_data_format_tf.
    - exact (parse_padding_pure _ _ Hpad g0).
    - unfold st_in. rewrite Hst. unfold ax. destruct cl; reflexivity.
    - exact Hvk.
    - apply to_of_nhwc4.
    - apply to_of_nhwc4.
    - fold cl. unfold st_in. rewrite Hst. unfold ax. destruct cl; reflexivity. }
  erewrite bind_run by (eapply mapM_run with (h := hc); exact Hconv).
  set (g3 := with_nodes _ _).
  assert (Hg3 : g_variables g3 = g_variables g2).
  { unfold g3. rewrite g_variables_with_nodes. reflexivity. }
  assert (Hvals : map value (map hc pairs) =
                  map (fun ik => conv2d_v cl (fst ik) (snd ik) stride dil p)
                      (combine (split_v (value inputs) split ax)
                               (split_v (v_value W) split 3))).
  { rewrite map_map. unfold hc, pairs. cbn [value output].
    apply (map_combine_outputs (fun a c => conv2d_v cl a c stride dil p)). }
  assert (Hcat : exists st0,
            tf_concat (map hc pairs) (if cl then -1 else 1) g3 =
            (Ok (output "" st0 conv), with_node g3 Op_concat "")).
  { destruct (map hc pairs) as [|t ts] eqn:E.
    - exfalso. apply (f_equal (@length _)) in E. rewrite length_map in E.
      unfold pairs in E. rewrite length_combine, !length_map, !split_v_length in E.
      simpl in E. lia.
    - assert (Ht : In t (map hc pairs)) by (rewrite E; left; reflexivity).
      apply in_map_iff in Ht. destruct Ht as ([i k] & <- & Hin).
      unfold pairs in Hin. apply in_combine_l in Hin.
      apply in_map_iff in Hin. destruct Hin as (vi & <- & _).
      destruct (@tf_concat_run (hc (output "" st_in vi, k)) ts
                  (if cl then -1 else 1) ax g3) as (st0 & Hrun).
      { unfold hc, st_in. cbn [fst static_shape output]. rewrite Hst.
        unfold ax. destruct cl; reflexivity. }
      exists st0. rewrite Hrun. rewrite Hvals. reflexivity. }
  destruct Hcat as (st0 & Hcat). rewrite (bind_run _ Hcat).
  unfold b. destruct use_bias.
  - erewrite bind_run by (apply tf_nn_bias_add_run; apply get_data_format_tf).
    eexists. eexists. split; [reflexivity|].
    simpl. rewrite Hg3. exact Hg2.
  - eexists. eexists. split; [reflexivity|].
    simpl. rewrite Hg3. exact Hg2.
Qed.

Lemma tf_nn_depthwise_conv2d_run x filter strides pad df g p kh kw C M'
    s0 sh sw s3 :
  let cl := data_format_eqb df NHWC in
  (df = NHWC \/ df = NCHW) ->
  parse_padding pad g = (Ok p, g) ->
  length (static_shape x) = 4%nat ->
  shape (value filter) = [kh; kw; C; M'] ->
  to_nhwc cl strides = [s0; sh; sw; s3] ->
  nth (if cl then 3 else 1)%nat (static_shape x) None = Some C ->
  tf_nn_depthwise_conv2d x filter strides pad df g =
  (Ok (output "" (static_conv cl p (static_shape x) kh kw sh sw 1 1 (C * M'))
         (depthwise_conv2d_v cl (value x) (value filter) strides p)),
   with_node g Op_depthwise_conv2d "").
Proof.
  intros cl Hdf Hp Hr Hf Hs Hc. unfold tf_nn_depthwise_conv2d.
  rewrite (bind_run _ (layout_run g Hdf)). fold cl.
  rewrite (bind_run _ Hp).
  rewrite Hr. simpl Nat.eqb. mred.
  rewrite Hf, Hs, Hc. simpl known_or. rewrite Z.eqb_refl. reflexivity.
Qed.

Lemma GroupedConv2D_run (vsi : initializer) x (P M : Z) kernel_shape (sum_paths : bool) padding
    stride (W_init b_init : option initializer) nl (use_bias : bool) df g
    (n : option Z) (H W C kh kw sh sw : Z) p :
  let cl := data_format_eqb (get_data_format df false) NHWC in
  let ch_out := if sum_paths then M else P * M in
  let Wv := mk_variable "W" [kh; kw; C; M]
              (match W_init with Some i => i | None => vsi end [kh; kw; C; M]) None in
  let b := if use_bias
           then Some (mk_variable "b" [ch_out]
                        (match b_init with Some i => i | None => tf_constant_initializer end
                           [ch_out]) None)
           else None in
  let conv := grouped_conv2d_value cl sum_paths (value x) (v_value Wv) P (C / P) M
                (conv_out p H kh sh 1) (conv_out p W kw sw 1)
                (of_nhwc cl [1; sh; sw; 1]) p in
  static_shape x = of_nhwc cl [n; Some H; Some W; Some C] ->
  0 < P -> C mod P = 0 -> 0 <= C -> 0 <= M ->
  shape2d kernel_shape = Ok [kh; kw] -> 0 <= kh -> 0 <= kw ->
  shape2d stride = Ok [sh; sw] ->
  parse_padding (upper padding) g = (Ok p, g) ->
  (forall s, shape (match W_init with Some i => i | None => vsi end s) = s) ->
  exists st g',
    GroupedConv2D vsi x P M kernel_shape sum_paths padding stride W_init b_init
      nl use_bias df g =
    (Ok {| name := "output"%string; static_shape := st;
           value := act_fn nl (match b with
                               | Some vb => bias_add_v cl conv (v_value vb)
                               | None => conv
                               end);
           variables := Some {| vars_W := Wv; vars_b := b |};
           info := None |}, g')
    /\ g_variables g' =
       g_variables g ++ Wv :: match b with Some vb => [vb] | None => [] end.
Proof.
  intros cl ch_out Wv b conv Hst HP HCm HC HM Hks Hkh Hkw Hstr Hpad Hinit.
  unfold GroupedConv2D. fold cl.
  assert (Hch : py_getitem (static_shape x) (if cl then 3 else 1) = Ok (Some C)).
  { rewrite Hst. destruct cl; reflexivity. }
  rewrite Hch. mred.
  replace (P =? 0) with false by (symmetry; apply Z.eqb_neq; lia).
  replace (C mod P =? 0) with true by (symmetry; apply Z.eqb_eq; lia).
  rewrite Hks. mred.
  assert (Hcl : data_format_eqb (get_data_format (get_data_format df false) true)
                  channels_last = cl) by (unfold cl; destruct df; reflexivity).
  unfold shape4d. rewrite Hstr, Hcl. mred.
  replace (if cl then [1] ++ [sh; sw] ++ [1] else [1; 1] ++ [sh; sw])
    with (of_nhwc cl [1; sh; sw; 1]) by (destruct cl; reflexivity).
  set (strd := of_nhwc cl [1; sh; sw; 1]).
  erewrite bind_run
    by (apply tf_get_variable_run;
        apply (as_shape_ints (l := [kh; kw] ++ [C; M])); repeat constructor; lia).
  cbn [app]. fold Wv.
  set (g1 := with_variable g Wv).
  assert (Hb : exists g2,
    (if use_bias
     then v <- tf_get_variable "b" [PInt ch_out]
                 match b_init with Some i => i | None => tf_constant_initializer end None;;
          pure (Some v)
     else pure None) g1 = (Ok b, g2)
    /\ g_variables g2 = g_variables g ++ Wv :: match b with Some vb => [vb] | None => [] end).
  { unfold b. destruct use_bias.
    - eexists. split.
      + erewrite bind_run; [reflexivity|]. apply tf_get_variable_run.
        apply (as_shape_ints (l := [ch_out])). repeat constructor.
        unfold ch_out. destruct sum_paths; nia.
      + simpl. rewrite <- app_assoc. reflexivity.
    - eexists. split; [reflexivity|]. reflexivity. }
  fold ch_out.
  destruct Hb as (g2 & Hb & Hg2). rewrite (bind_run _ Hb).
  erewrite bind_run.
  2:{ eapply tf_nn_depthwise_conv2d_run with (s0 := 1) (s3 := 1).
      - apply get_data_format_tf.
      - exact (parse_padding_pure _ _ Hpad _).
      - rewrite Hst. destruct cl; reflexivity.
      - simpl. apply Hinit.
      - apply to_of_nhwc4.
      - fold cl. rewrite Hst. destruct cl; reflexivity. }
  fold cl. cbn [static_shape output value].
  rewrite Hst. unfold conv, b, ch_out, grouped_conv2d_value, strd in *.
  clear Hb Hcl Hch. subst cl.
  destruct df, sum_paths, use_bias;
    (eexists; eexists; split; [reflexivity | simpl; exact Hg2]).
Qed.

(* ------------------------------------------------------------------ *)
(** ** The grouped convolution by depthwise convolution, reshape and sum *)



Lemma set_nth_same {A} n (l : list A) d : set_nth n (nth n l d) l = l.
Proof.
  revert n. induction l as [|a l IH]; intros [|n]; simpl; try reflexivity.
  rewrite IH. reflexivity.
Qed.

Lemma set_nth_twice {A} n (u v : A) l : set_nth n u (set_nth n v l) = set_nth n u l.
Proof.
  revert n. induction l as [|a l IH]; intros [|n]; simpl; try reflexivity.
  rewrite IH. reflexivity.
Qed.

Lemma nth_set_nth {A} n (v d : A) l :
  (n < length l)%nat -> nth n (set_nth n v l) d = v.
Proof.
  revert n. induction l as [|a l IH]; intros [|n] H; simpl in *; try lia.
  - reflexivity.
  - apply IH. lia.
Qed.

Lemma length_set_nth {A} n (v : A) l : length (set_nth n v l) = length l.
Proof.
  revert n. induction l as [|a l IH]; intros [|n]; simpl; try reflexivity.
  rewrite IH. reflexivity.
Qed.

Lemma concat_at_uniform ts axis M idx dflt :
  0 < M -> (axis < length idx)%nat ->
  (forall t, In t ts -> nth axis (shape t) 0 = M) ->
  0 <= nth axis idx 0 < Z.of_nat (length ts) * M ->
  concat_at ts axis idx =
  at_ (nth (Z.to_nat (nth axis idx 0 / M)) ts dflt)
      (set_nth axis (nth axis idx 0 mod M) idx).
Proof.
  intros HM. revert idx. induction ts as [|t ts IH]; intros idx Hax Hsh Hi.
  - simpl in Hi. lia.
  - cbn [concat_at]. rewrite (Hsh t (or_introl eq_refl)).
    set (i := nth axis idx 0) in *.
    destruct (Z.ltb_spec i M) as [Hlt|Hge].
    + rewrite Z.div_small, Z.mod_small by lia. simpl.
      unfold i. rewrite set_nth_same. reflexivity.
    + assert (Hi' : nth axis (set_nth axis (i - M) idx) 0 = i - M)
        by (apply nth_set_nth; assumption).
      rewrite IH.
      * rewrite Hi', set_nth_twice.
        replace (i - M) with (i + (-1) * M) by ring.
        rewrite Z.div_add, Z.mod_add by lia.
        assert (1 <= i / M) by (apply Z.div_le_lower_bound; lia).
        replace (Z.to_nat (i / M)) with (S (Z.to_nat (i / M + -1))) by lia.
        reflexivity.
      * rewrite length_set_nth. assumption.
      * intros t' Ht'. apply Hsh. right. assumption.
      * rewrite Hi'. simpl length in Hi. lia.
Qed.

Lemma combine_map_seq {A B} (f : nat -> A) (g : nat -> B) l :
  combine (map f l) (map g l) = map (fun i => (f i, g i)) l.
Proof. induction l as [|a l IH]; simpl; [reflexivity|]. rewrite IH. reflexivity. Qed.

Lemma nth_map_seq {A} (f : nat -> A) n i d :
  (i < n)%nat -> nth i (map f (seq 0 n)) d = f i.
Proof.
  intros H. rewrite (nth_indep _ d (f 0%nat)) by (rewrite length_map, length_seq; lia).
  rewrite map_nth, seq_nth by lia. reflexivity.
Qed.


Lemma conv2d_v_eq cl x w strides dil p N H W Cx C kh kw F s0 sh sw s3 d0 dh dw d3 :
  shape x = of_nhwc cl [N; H; W; Cx] -> shape w = [kh; kw; C; F] ->
  strides = of_nhwc cl [s0; sh; sw; s3] -> dil = of_nhwc cl [d0; dh; dw; d3] ->
  conv2d_v cl x w strides dil p =
  tabulate (of_nhwc cl [N; conv_out p H kh sh dh; conv_out p W kw sw dw; F])
    (fun idx =>
       match to_nhwc cl idx with
       | [n; y; x'; f] =>
           sumZ kh (fun di => sumZ kw (fun dj => sumZ C (fun c =>
             pixel cl x n (y * sh + di * dh - pad_before p H kh sh dh)
                   (x' * sw + dj * dw - pad_before p W kw sw dw) c
             * at_ w [di; dj; c; f])))
       | _ => 0
       end).
Proof.
  intros Hx Hw -> ->. unfold conv2d_v.
  rewrite Hx, Hw, !to_of_nhwc4. reflexivity.
Qed.



(** A pixel of group [i] of the input is the pixel of the whole input at
    the channel shifted by [i] groups. *)
Lemma pixel_split cl x N H W C cpp (i : nat) n y x' j :
  shape x = of_nhwc cl [N; H; W; C] ->
  0 <= n < N -> 0 <= j < cpp ->
  pixel cl
    (tabulate (set_nth (if cl then 3 else 1)%nat cpp (shape x))
       (fun idx => at_ x (set_nth (if cl then 3 else 1)%nat
                            (nth (if cl then 3 else 1)%nat idx 0 + Z.of_nat i * cpp) idx)))
    n y x' j
  = pixel cl x n y x' (j + Z.of_nat i * cpp).
Proof.
  intros Hx Hn Hj. unfold pixel. rewrite Hx.
  destruct cl; cbn [shape tabulate set_nth of_nhwc to_nhwc];
    (destruct ((0 <=? y) && (y <? H) && (0 <=? x') && (x' <? W)) eqn:E;
     [| reflexivity]);
    apply andb_prop in E; destruct E as [E E4];
    apply andb_prop in E; destruct E as [E E3];
    apply andb_prop in E; destruct E as [E1 E2];
    rewrite at_tabulate by (repeat constructor; lia); reflexivity.
Qed.


Lemma sum_axis_tabulated s (G : nat -> list Z -> Z) axis l :
  fold_right (fun t' acc => nth axis (shape t') 0 + acc) 0
             (map (fun i => tabulate s (G i)) l)
  = Z.of_nat (length l) * nth axis s 0.
Proof.
  induction l as [|a l IH]; [reflexivity|].
  cbn [map fold_right length]. rewrite IH. simpl shape. lia.
Qed.

Lemma concat_v_tabulated s (G : nat -> list Z -> Z) n axis :
  (0 < n)%nat ->
  concat_v (map (fun i => tabulate s (G i)) (seq 0 n)) axis =
  tabulate (set_nth axis (Z.of_nat n * nth axis s 0) s)
           (concat_at (map (fun i => tabulate s (G i)) (seq 0 n)) axis).
Proof.
  intros Hn. unfold concat_v.
  rewrite sum_axis_tabulated, length_seq.
  destruct n as [|n]; [lia|]. reflexivity.
Qed.



(* ------------------------------------------------------------------ *)
(** ** What a successful call returns *)

Lemma returns_pure {S A} (a : A) (P : A -> Prop) :
  P a -> returns (S := S) (pure a) P.
Proof. intros H g r g' E. inversion E; subst. exact H. Qed.

Lemma returns_raise {S A} e (P : A -> Prop) : returns (S := S) (raise e) P.
Proof. intros g r g' E. discriminate E. Qed.

Lemma returns_bind {S A B} (c : ST S A) (k : A -> ST S B) Q P :
  returns c Q -> (forall a, Q a -> returns (k a) P) -> returns (bind c k) P.
Proof.
  intros Hc Hk g r g' E. unfold bind in E.
  destruct (c g) as [[a|e] g1] eqn:Ec; [|discriminate E].
  exact (Hk a (Hc _ _ _ Ec) _ _ _ E).
Qed.

Lemma returns_any {S A} (c : ST S A) : returns c (fun _ => True).
Proof. intros g a g' _. exact I. Qed.

Lemma returns_seq {S A B} (c : ST S A) (k : A -> ST S B) P :
  (forall a, returns (k a) P) -> returns (bind c k) P.
Proof.
  intros Hk. apply returns_bind with (Q := fun _ => True).
  - apply returns_any.
  - intros a _. apply Hk.
Qed.

Lemma returns_lift {S A} (r : result A) :
  returns (S := S) (lift r) (fun a => r = Ok a).
Proof. intros g a g' E. inversion E; subst. reflexivity. Qed.

Lemma returns_weaken {S A} (c : ST S A) (Q P : A -> Prop) :
  returns c Q -> (forall a, Q a -> P a) -> returns c P.
Proof. intros Hc HQ g a g' E. apply HQ. exact (Hc _ _ _ E). Qed.

Lemma returns_check {S} b e (P : unit -> Prop) :
  (b = true -> P tt) -> returns (S := S) (check b e) P.
Proof.
  intros H g [] g' E. unfold check in E. destruct b; [auto | discriminate E].
Qed.

Lemma returns_assert {S} b msg (P : unit -> Prop) :
  (b = true -> P tt) -> returns (S := S) (assert_ b msg) P.
Proof.
  intros H g [] g' E. unfold assert_ in E. destruct b; [auto | discriminate E].
Qed.

Lemma returns_call f x nm :
  returns (call f x nm)
    (fun r => r = output nm (static_shape x) (act_fn f (value x))).
Proof. intros g a g' E. inversion E; subst. reflexivity. Qed.

Lemma returns_get_variable nm shp init reg :
  returns (tf_get_variable nm shp init reg)
    (fun v => v_name v = nm /\ v_regularizer v = reg /\ as_shape shp = Ok (v_shape v)).
Proof.
  intros g v g' E. unfold tf_get_variable, bind, lift in E.
  destruct (as_shape shp) as [s|e]; [|discriminate E].
  inversion E; subst. simpl. auto.
Qed.

Lemma returns_bias (use_bias : bool) shp init reg :
  returns (if use_bias
           then v <- tf_get_variable "b" shp init reg;; pure (Some v)
           else pure None)
    (fun b => if use_bias
              then exists vb, b = Some vb /\ v_name vb = "b"%string
                              /\ v_regularizer vb = reg
              else b = None).
Proof.
  destruct use_bias.
  - eapply returns_bind; [apply returns_get_variable|].
    intros v (Hn & Hr & _). apply returns_pure. exists v. auto.
  - apply returns_pure. reflexivity.
Qed.

Lemma Conv2D_group_returns (tfv : Q) inputs filters kernel_size strides padding df
    dilation_rate act use_bias ki bi kr br ar split :
  (split =? 1) = false ->
  returns (Conv2D tfv inputs filters kernel_size strides padding df dilation_rate
             act use_bias ki bi kr br ar split)
    (fun ret => name ret = "output"%string /\ info ret = None
                /\ holds_variables ret use_bias).
Proof.
  intros Hs. unfold Conv2D. rewrite Hs.
  apply returns_seq. intros [c|]; [|apply returns_raise].
  do 9 (apply returns_seq; intros ?).
  eapply returns_bind; [apply returns_get_variable|]. intros Wv (HW & _ & _).
  eapply returns_bind; [apply returns_bias|]. intros b Hb.
  do 5 (apply returns_seq; intros ?).
  eapply returns_bind; [apply returns_call|]. intros ret ->.
  apply returns_pure. cbn. repeat split.
  exists Wv, b. repeat split; try assumption.
  destruct use_bias; [destruct Hb as (vb & -> & Hn & _); eauto | assumption].
Qed.

Lemma tf_layers_Conv2D_apply_returns filters kernel_size strides padding df
    dilation_rate act use_bias ki bi kr br ar inputs :
  returns (tf_layers_Conv2D_apply filters kernel_size strides padding df
             dilation_rate act use_bias ki bi kr br ar inputs)
    (fun lr => layer_variables (fst lr) use_bias kr br
               /\ (df = channels_last \/ df = channels_first)).
Proof.
  unfold tf_layers_Conv2D_apply.
  do 3 (apply returns_seq; intros ?).
  apply returns_bind with (Q := fun _ => df = channels_last \/ df = channels_first).
  { destruct df; try apply returns_raise; apply returns_pure; auto. }
  intros cl Hdf.
  do 2 (apply returns_seq; intros ?).
  destruct (nth _ (static_shape inputs) None) as [input_dim|].
  2:{ apply returns_raise. }
  destruct a as [|kh [|kw [|]]]; try apply returns_raise.
  destruct a0 as [|sh [|sw [|]]]; try apply returns_raise.
  destruct a1 as [|dh [|dw [|]]]; try apply returns_raise.
  eapply returns_bind; [apply returns_get_variable|]. intros Wv (HW & HWr & _).
  eapply returns_bind; [apply returns_bias|]. intros b Hb.
  do 4 (apply returns_seq; intros ?).
  apply returns_pure. cbn. repeat split; assumption.
Qed.


Lemma holds_variables_layer ret l use_bias kr br :
  layer_variables l use_bias kr br ->
  holds_variables
    (set_variables ret {| vars_W := kernel l;
                          vars_b := if use_bias then bias l else None |})
    use_bias.
Proof.
  intros (HW & _ & Hb). exists (kernel l), (if use_bias then bias l else None).
  split; [reflexivity|]. split; [exact HW|].
  destruct use_bias; [|reflexivity].
  destruct Hb as (vb & Hvb & Hn & _). exists vb. auto.
Qed.




Lemma returns_scale_flops flops h w sh sw :
  returns (scale_flops flops h w sh sw)
    (fun f => exists w', w = Some w' /\ sh <> 0 /\ sw <> 0 /\
              f = (flops * (inject_Z (h * w') / inject_Z sh / inject_Z sw))%Q).
Proof.
  unfold scale_flops. destruct w as [w'|]; [|apply returns_raise].
  destruct (Z.eqb_spec sh 0); [apply returns_raise|].
  destruct (Z.eqb_spec sw 0); [apply returns_raise|].
  apply returns_pure. exists w'. auto.
Qed.

Lemma shape2d_pair a l : shape2d a = Ok l -> exists k0 k1, l = [k0; k1].
Proof.
  destruct a as [a|l'|l']; simpl; intros H.
  - inversion H. eauto.
  - destruct l' as [|k0 [|k1 [|]]]; try discriminate H. inversion H. eauto.
  - destruct l' as [|k0 [|k1 [|]]]; try discriminate H. inversion H. eauto.
Qed.

Lemma inject_Z_nonzero z : z <> 0 -> ~ (inject_Z z == 0)%Q.
Proof. intros H E. apply H. unfold Qeq in E. simpl in E. lia. Qed.

Lemma Conv2D_dense_returns (tfv : Q) inputs filters kernel_size strides padding df
    dilation_rate act use_bias ki bi kr br ar :
  let in_shape := static_shape inputs in
  let channel_axis := if data_format_eqb df channels_last then 3 else 1 in
  let h_dim := if data_format_eqb df channels_last then 1 else 2 in
  returns (Conv2D tfv inputs filters kernel_size strides padding df dilation_rate
             act use_bias ki bi kr br ar 1)
    (fun ret =>
       name ret = "output"%string /\ holds_variables ret use_bias /\
       exists c kh kw sh sw h f,
         py_getitem in_shape channel_axis = Ok (Some c)
         /\ shape2d kernel_size = Ok [kh; kw]
         /\ shape2d strides = Ok [sh; sw]
         /\ py_getitem in_shape h_dim = Ok h
         /\ info ret = Some {| info_flops := f |}
         /\ match h with
            | Some H =>
                if 0 <? H
                then exists W, py_getitem in_shape (h_dim + 1) = Ok (Some W)
                               /\ sh <> 0 /\ sw <> 0
                               /\ (f == claimed_flops c filters kh kw (Some H) (Some W) sh sw)%Q
                else (f == claimed_flops c filters kh kw (Some H) None sh sw)%Q
            | None => (f == claimed_flops c filters kh kw None None sh sw)%Q
            end).
Proof.
  intros in_shape channel_axis h_dim. unfold Conv2D. simpl (1 =? 1).
  cbv iota.
  eapply returns_bind; [apply tf_layers_Conv2D_apply_returns|].
  intros lr (Hl & Hdf).
  eapply returns_bind; [apply returns_call|]. intros ret ->.
  fold in_shape channel_axis h_dim.
  eapply returns_bind; [apply returns_lift|]. intros in_channel Hic.
  eapply returns_bind; [apply returns_lift|]. intros kernel_shape Hks.
  eapply returns_bind; [apply returns_lift|]. intros stride Hst.
  cbv beta in Hic, Hks, Hst.
  destruct (shape2d_pair _ Hks) as (kh & kw & ->).
  unfold shape4d in Hst.
  destruct (shape2d strides) as [s2d|] eqn:Es2d; [|discriminate Hst].
  destruct (shape2d_pair _ Es2d) as (sh & sw & ->).
  assert (Hstride : py_getitem stride h_dim = Ok sh
                    /\ py_getitem stride (h_dim + 1) = Ok sw).
  { inversion Hst; subst stride. unfold h_dim.
    destruct Hdf as [-> | ->]; split; reflexivity. }
  destruct Hstride as (Hsh & Hsw). clear Hst.
  eapply returns_bind; [apply returns_lift|]. intros k0 Hk0.
  cbv in Hk0. inversion Hk0; subst k0; clear Hk0.
  eapply returns_bind; [apply returns_lift|]. intros k1 Hk1.
  cbv in Hk1. inversion Hk1; subst k1; clear Hk1.
  destruct in_channel as [c|]; [|apply returns_raise].
  apply returns_bind
    with (Q := fun f => f = (1 * inject_Z c * inject_Z filters
                             * inject_Z kh * inject_Z kw)%Q);
    [apply returns_pure; reflexivity|].
  intros flops ->.
  eapply returns_bind; [apply returns_lift|]. intros h Hh. cbv beta in Hh.
  assert (Hbase : (1 * inject_Z c * inject_Z filters * inject_Z kh * inject_Z kw
                   == inject_Z (c * filters * kh * kw))%Q).
  { rewrite !inject_Z_mult. ring. }
  destruct h as [H|].
  - destruct (0 <? H) eqn:EH.
    + apply returns_bind
        with (Q := fun f => exists w',
                 py_getitem in_shape (h_dim + 1) = Ok (Some w')
                 /\ sh <> 0 /\ sw <> 0
                 /\ f = (1 * inject_Z c * inject_Z filters * inject_Z kh * inject_Z kw
                         * (inject_Z (H * w') / inject_Z sh / inject_Z sw))%Q).
      { eapply returns_bind; [apply returns_lift|]. intros w Hw. cbv beta in Hw.
        eapply returns_bind; [apply returns_lift|]. intros sh0 Hsh0.
        cbv beta in Hsh0. rewrite Hsh in Hsh0. inversion Hsh0; subst sh0; clear Hsh0.
        eapply returns_bind; [apply returns_lift|]. intros sw0 Hsw0.
        cbv beta in Hsw0. rewrite Hsw in Hsw0. inversion Hsw0; subst sw0; clear Hsw0.
        eapply returns_weaken; [apply returns_scale_flops|].
        intros f (w' & -> & Hs1 & Hs2 & ->). exists w'. auto. }
      intros f (w' & Hw & Hs1 & Hs2 & ->).
      apply returns_pure. split; [reflexivity|].
      split; [exact (holds_variables_layer _ Hl)|].
      exists c, kh, kw, sh, sw, (Some H). eexists.
      repeat (split; [first [eassumption | reflexivity]|]).
      rewrite EH. exists w'. repeat (split; [assumption|]).
      unfold claimed_flops. rewrite EH. rewrite Hbase.
      rewrite (inject_Z_mult sh sw). field.
      split; apply inject_Z_nonzero; assumption.
    + apply returns_bind with (Q := fun f => (f == inject_Z (c * filters * kh * kw))%Q);
        [apply returns_pure; exact Hbase|].
      intros f Hf. apply returns_pure. split; [reflexivity|].
      split; [exact (holds_variables_layer _ Hl)|].
      exists c, kh, kw, sh, sw, (Some H), f.
      repeat (split; [first [eassumption | reflexivity]|]).
      rewrite EH. unfold claimed_flops. exact Hf.
  - apply returns_bind with (Q := fun f => (f == inject_Z (c * filters * kh * kw))%Q);
      [apply returns_pure; exact Hbase|].
    intros f Hf. apply returns_pure. split; [reflexivity|].
    split; [exact (holds_variables_layer _ Hl)|].
    exists c, kh, kw, sh, sw, None, f.
    repeat (split; [first [eassumption | reflexivity]|]).
    exact Hf.
Qed.

(* ------------------------------------------------------------------ *)
(** ** Running the dense branch of Conv2D *)

Lemma normalize_tuple_shape2d a l : shape2d a = Ok l -> normalize_tuple a = Ok l.
Proof.
  destruct a as [a|l'|l']; simpl; try (intros H; exact H);
    destruct (Nat.eqb (length l') 2); intros H; try discriminate H; exact H.
Qed.

Lemma tf_layers_Conv2D_apply_run (filters : Z) kernel_size strides padding df
    dilation_rate act (use_bias : bool) (ki bi : initializer)
    (kr br ar : option regularizer) inputs g
    (n h w : option Z) (C kh kw sh sw dh dw : Z) p :
  let cl := data_format_eqb df channels_last in
  let Wv := mk_variable "W" [kh; kw; C; filters] (ki [kh; kw; C; filters]) kr in
  let b := if use_bias
           then Some (mk_variable "b" [filters] (bi [filters]) br)
           else None in
  let conv := conv2d_v cl (value inputs) (v_value Wv)
                (of_nhwc cl [1; sh; sw; 1]) (of_nhwc cl [1; dh; dw; 1]) p in
  let v1 := match b with
            | Some vb => bias_add_v cl conv (v_value vb)
            | None => conv
            end in
  let v2 := match act with Some f => act_fn f v1 | None => v1 end in
  (df = channels_last \/ df = channels_first) ->
  static_shape inputs = of_nhwc cl [n; h; w; Some C] ->
  0 <= C -> 0 <= filters ->
  shape2d kernel_size = Ok [kh; kw] -> 0 <= kh -> 0 <= kw ->
  shape2d strides = Ok [sh; sw] ->
  shape2d dilation_rate = Ok [dh; dw] ->
  parse_padding (upper padding) g = (Ok p, g) ->
  exists st g',
    tf_layers_Conv2D_apply filters kernel_size strides padding df dilation_rate
      act use_bias ki bi kr br ar inputs g
    = (Ok ({| kernel := Wv; bias := b |}, output "" st v2), g')
    /\ g_variables g' =
       g_variables g ++ Wv :: match b with Some vb => [vb] | None => [] end
    /\ g_losses g' =
       g_losses g ++ match ar with Some r => [r v2] | None => [] end.
Proof.
  intros cl Wv b conv v1 v2 Hdf Hst HC HF Hks Hkh Hkw Hstr Hdl Hpad.
  unfold tf_layers_Conv2D_apply.
  rewrite (normalize_tuple_shape2d _ Hks), (normalize_tuple_shape2d _ Hstr),
    (normalize_tuple_shape2d _ Hdl). mred.
  assert (Hws : as_shape (map PInt ([kh; kw] ++ [C; filters]))
                = Ok [kh; kw; C; filters]).
  { apply (as_shape_ints (l := [kh; kw; C; filters])). repeat constructor; lia. }
  assert (Hbs : as_shape [PInt filters] = Ok [filters]).
  { apply (as_shape_ints (l := [filters])). repeat constructor; lia. }
  unfold v2, v1, conv, b, Wv, cl in *. clear v2 v1 conv b Wv cl.
  destruct Hdf as [-> | ->]; cbn [data_format_eqb] in *;
    mred; rewrite (bind_run _ Hpad); rewrite Hst;
    cbn [of_nhwc length Nat.eqb nth]; mred;
    cbn [app] in Hws |- *;
    rewrite (bind_run _ (@tf_get_variable_run "W" _ _ ki kr g Hws));
    (destruct use_bias;
     [ erewrite bind_run
         by (erewrite bind_run by (apply tf_get_variable_run; exact Hbs);
             reflexivity)
     | mred ]);
    destruct act, ar;
    (eexists; eexists; split; [reflexivity|]; split;
     [cbn; rewrite <- ?app_assoc; reflexivity
     | cbn; rewrite ?app_nil_r; reflexivity]).
Qed.

Lemma flops_run (cl : bool) (n h w : option Z) (C filters kh kw sh sw : Z)
    (R : Tensor) (g : graph) :
  match h with
  | Some H => 0 < H -> w <> None /\ sh <> 0 /\ sw <> 0
  | None => True
  end ->
  exists f,
    (in_channel <- lift (py_getitem (of_nhwc cl [n; h; w; Some C]) (if cl then 3 else 1));;
     kernel_shape <- lift (Ok [kh; kw]);;
     stride <- lift (Ok (if cl then [1] ++ [sh; sw] ++ [1] else [1; 1] ++ [sh; sw]));;
     k0 <- lift (py_getitem kernel_shape 0);;
     k1 <- lift (py_getitem kernel_shape 1);;
     flops <- match in_channel with
              | Some c => pure (1 * inject_Z c * inject_Z filters
                                * inject_Z k0 * inject_Z k1)%Q
              | None => raise TypeError
              end;;
     h0 <- lift (py_getitem (of_nhwc cl [n; h; w; Some C]) (if cl then 1 else 2));;
     flops0 <- match h0 with
               | Some h' =>
                   if 0 <? h' then
                     w0 <- lift (py_getitem (of_nhwc cl [n; h; w; Some C])
                                   ((if cl then 1 else 2) + 1));;
                     sh0 <- lift (py_getitem stride (if cl then 1 else 2));;
                     sw0 <- lift (py_getitem stride ((if cl then 1 else 2) + 1));;
                     scale_flops flops h' w0 sh0 sw0
                   else pure flops
               | None => pure flops
               end;;
     pure (set_info R {| info_flops := flops0 |})) g
    = (Ok (set_info R {| info_flops := f |}), g).
Proof.
  intros Hflops.
  destruct cl; cbn [of_nhwc app].
  - change (py_getitem [n; h; w; Some C] 3) with (Ok (Some C)).
    change (py_getitem [n; h; w; Some C] 1) with (Ok h).
    change (py_getitem [n; h; w; Some C] (1 + 1)) with (Ok w).
    cbn [lift bind pure].
    change (py_getitem [kh; kw] 0) with (Ok kh).
    change (py_getitem [kh; kw] 1) with (Ok kw).
    change (py_getitem [1; sh; sw; 1] 1) with (Ok sh).
    change (py_getitem [1; sh; sw; 1] (1 + 1)) with (Ok sw).
    cbn [lift bind pure].
    destruct h as [H|]; [|eexists; reflexivity].
    destruct (0 <? H) eqn:EH; [|eexists; reflexivity].
    apply Z.ltb_lt in EH. destruct (Hflops EH) as (Hw & Hs1 & Hs2).
    destruct w as [W|]; [|congruence].
    cbv [lift bind pure scale_flops].
    destruct (Z.eqb_spec sh 0); [contradiction|].
    destruct (Z.eqb_spec sw 0); [contradiction|].
    eexists; reflexivity.
  - change (py_getitem [n; Some C; h; w] 1) with (Ok (Some C)).
    change (py_getitem [n; Some C; h; w] 2) with (Ok h).
    change (py_getitem [n; Some C; h; w] (2 + 1)) with (Ok w).
    cbn [lift bind pure].
    change (py_getitem [kh; kw] 0) with (Ok kh).
    change (py_getitem [kh; kw] 1) with (Ok kw).
    change (py_getitem [1; 1; sh; sw] 2) with (Ok sh).
    change (py_getitem [1; 1; sh; sw] (2 + 1)) with (Ok sw).
    cbn [lift bind pure].
    destruct h as [H|]; [|eexists; reflexivity].
    destruct (0 <? H) eqn:EH; [|eexists; reflexivity].
    apply Z.ltb_lt in EH. destruct (Hflops EH) as (Hw & Hs1 & Hs2).
    destruct w as [W|]; [|congruence].
    cbv [lift bind pure scale_flops].
    destruct (Z.eqb_spec sh 0); [contradiction|].
    destruct (Z.eqb_spec sw 0); [contradiction|].
    eexists; reflexivity.
Qed.

Lemma Conv2D_dense_run (tfv : Q) inputs (filters : Z) kernel_size strides padding df
    dilation_rate act (use_bias : bool) (ki bi : initializer)
    (kr br ar : option regularizer) g
    (n h w : option Z) (C kh kw sh sw dh dw : Z) p :
  let cl := data_format_eqb df channels_last in
  let Wv := mk_variable "W" [kh; kw; C; filters] (ki [kh; kw; C; filters]) kr in
  let b := if use_bias
           then Some (mk_variable "b" [filters] (bi [filters]) br)
           else None in
  let conv := conv2d_v cl (value inputs) (v_value Wv)
                (of_nhwc cl [1; sh; sw; 1]) (of_nhwc cl [1; dh; dw; 1]) p in
  let v1 := match b with
            | Some vb => bias_add_v cl conv (v_value vb)
            | None => conv
            end in
  let v2 := match act with Some f => act_fn f v1 | None => v1 end in
  (df = channels_last \/ df = channels_first) ->
  static_shape inputs = of_nhwc cl [n; h; w; Some C] ->
  0 <= C -> 0 <= filters ->
  shape2d kernel_size = Ok [kh; kw] -> 0 <= kh -> 0 <= kw ->
  shape2d strides = Ok [sh; sw] ->
  shape2d dilation_rate = Ok [dh; dw] ->
  parse_padding (upper padding) g = (Ok p, g) ->
  match h with
  | Some H => 0 < H -> w <> None /\ sh <> 0 /\ sw <> 0
  | None => True
  end ->
  exists ret g',
    Conv2D tfv inputs filters kernel_size strides padding df dilation_rate act
      use_bias ki bi kr br ar 1 g = (Ok ret, g')
    /\ variables ret = Some {| vars_W := Wv; vars_b := b |}
    /\ value ret = v2
    /\ g_variables g' =
       g_variables g ++ Wv :: match b with Some vb => [vb] | None => [] end
    /\ g_losses g' =
       g_losses g ++ match ar with Some r => [r v2] | None => [] end.
Proof.
  intros cl Wv b conv v1 v2 Hdf Hst HC HF Hks Hkh Hkw Hstr Hdl Hpad Hflops.
  unfold Conv2D. simpl (1 =? 1). cbv iota.
  destruct (@tf_layers_Conv2D_apply_run filters kernel_size strides padding df
              dilation_rate act use_bias ki bi kr br ar inputs g n h w C kh kw
              sh sw dh dw p Hdf Hst HC HF Hks Hkh Hkw Hstr Hdl Hpad)
    as (st & g1 & Hrun & Hv & Hl).
  rewrite (bind_run _ Hrun). cbn [fst snd kernel bias].
  unfold call. mred. cbn [add_node bind pure].
  rewrite Hks. unfold shape4d. rewrite Hstr. rewrite Hst.
  fold cl Wv b conv v1 v2.
  assert (Hcl : get_data_format df true = df) by (destruct Hdf as [-> | ->]; reflexivity).
  rewrite Hcl. fold cl.
  destruct (@flops_run cl n h w C filters kh kw sh sw
              (set_variables
                 (output "output" st (act_fn tf_identity v2))
                 {| vars_W := Wv; vars_b := if use_bias then b else None |})
              (with_node g1 Op_identity "output") Hflops)
    as (f & Hf).
  cbn [static_shape value output].
  eexists. eexists. split; [exact Hf|].
  cbn [variables value set_info set_variables output g_variables g_losses
       with_node act_fn tf_identity].
  split; [|split; [reflexivity | split; assumption]].
  unfold b. destruct use_bias; reflexivity.
Qed.

(* ------------------------------------------------------------------ *)
(** ** The claims *)



Lemma Conv2D_group_not_divisible (tfv : Q) inputs filters kernel_size strides
    padding df dilation_rate act use_bias ki bi kr br ar split g c :
  1 < split ->
  py_getitem (static_shape inputs)
    (if data_format_eqb (get_data_format df false) NHWC then -1 else 1)
  = Ok (Some c) ->
  c mod split <> 0 \/ filters mod split <> 0 ->
  exists msg,
    Conv2D tfv inputs filters kernel_size strides padding df dilation_rate act
      use_bias ki bi kr br ar split g = (Raise (AssertionError msg), g).
Proof.
  intros Hs Hc Hd. unfold Conv2D.
  replace (split =? 1) with false by (symmetry; apply Z.eqb_neq; lia).
  rewrite Hc. mred.
  replace (split =? 0) with false by (symmetry; apply Z.eqb_neq; lia).
  destruct (Z.eqb_spec (c mod split) 0) as [Hc0|Hc0]; mred;
    [| eexists; reflexivity].
  destruct (is_None kr && is_None br && is_None ar); mred;
    [| eexists; reflexivity].
  destruct (Z.eqb_spec (filters mod split) 0) as [Hf0|Hf0]; mred;
    [| eexists; reflexivity].
  destruct Hd; contradiction.
Qed.

Lemma GroupedConv2D_not_divisible (vsi : initializer) x num_paths path_ch_out
    kernel_shape sum_paths padding stride W_init b_init nl use_bias df g c :
  0 < num_paths ->
  py_getitem (static_shape x)
    (if data_format_eqb (get_data_format df false) NHWC then 3 else 1)
  = Ok (Some c) ->
  c mod num_paths <> 0 ->
  GroupedConv2D vsi x num_paths path_ch_out kernel_shape sum_paths padding stride
    W_init b_init nl use_bias df g
  = (Raise (AssertionError "Grouped conv requires n_groups to divide ch_in"), g).
Proof.
  intros Hs Hc Hd. unfold GroupedConv2D. rewrite Hc. mred.
  replace (num_paths =? 0) with false by (symmetry; apply Z.eqb_neq; lia).
  replace (c mod num_paths =? 0) with false by (symmetry; apply Z.eqb_neq; lia).
  reflexivity.
Qed.

(** C2.  With [split > 1] [Conv2D] stops with an [AssertionError], the
    graph being as it was before the call (no variable, no node), when the
    input channel count is not divisible by [split] or [filters] is not;
    [GroupedConv2D] does so when the channel count is not divisible by
    [num_paths].  When the counts are divisible (and the other arguments
    are accepted) both calls succeed and the weight [W] is in the graph. *)
Theorem divisibility_assertions (tfv : Q) (vsi : initializer) (g : graph)
    (* the call of Conv2D *)
    inputs (filters : Z) kernel_size strides padding df dilation_rate act
    (use_bias : bool) (ki bi : initializer) kr br ar (split c : Z)
    (* the call of GroupedConv2D *)
    x (num_paths path_ch_out : Z) kernel_shape sum_paths padding' stride
    (W_init b_init : option initializer) nl (use_bias' : bool) df' (c' : Z) :
  let cl := data_format_eqb (get_data_format df false) NHWC in
  let cl' := data_format_eqb (get_data_format df' false) NHWC in
  (1 < split ->
   py_getitem (static_shape inputs) (if cl then -1 else 1) = Ok (Some c) ->
   c mod split <> 0 \/ filters mod split <> 0 ->
   exists msg,
     Conv2D tfv inputs filters kernel_size strides padding df dilation_rate act
       use_bias ki bi kr br ar split g = (Raise (AssertionError msg), g))
  /\
  (0 < num_paths ->
   py_getitem (static_shape x) (if cl' then 3 else 1) = Ok (Some c') ->
   c' mod num_paths <> 0 ->
   exists msg,
     GroupedConv2D vsi x num_paths path_ch_out kernel_shape sum_paths padding'
       stride W_init b_init nl use_bias' df' g = (Raise (AssertionError msg), g))
  /\
  (forall (n h w : option Z) (kh kw sh sw dh dw : Z) p,
   1 < split ->
   static_shape inputs = of_nhwc cl [n; h; w; Some c] ->
   c mod split = 0 -> filters mod split = 0 -> 0 <= c -> 0 <= filters ->
   arg2d_eqb dilation_rate (A_tuple [1; 1]) || Qle_bool 1.5 tfv = true ->
   shape2d kernel_size = Ok [kh; kw] -> 0 <= kh -> 0 <= kw ->
   shape2d strides = Ok [sh; sw] ->
   (if Qle_bool 1.5 tfv then shape2d dilation_rate = Ok [dh; dw]
    else dh = 1 /\ dw = 1) ->
   parse_padding (upper padding) g = (Ok p, g) ->
   (forall s, shape (ki s) = s) ->
   exists ret g' Wv,
     Conv2D tfv inputs filters kernel_size strides padding df dilation_rate act
       use_bias ki bi None None None split g = (Ok ret, g')
     /\ In Wv (g_variables g') /\ v_name Wv = "W"%string)
  /\
  (forall (n : option Z) (H W kh kw sh sw : Z) p,
   0 < num_paths ->
   static_shape x = of_nhwc cl' [n; Some H; Some W; Some c'] ->
   c' mod num_paths = 0 -> 0 <= c' -> 0 <= path_ch_out ->
   shape2d kernel_shape = Ok [kh; kw] -> 0 <= kh -> 0 <= kw ->
   shape2d stride = Ok [sh; sw] ->
   parse_padding (upper padding') g = (Ok p, g) ->
   (forall s, shape (match W_init with Some i => i | None => vsi end s) = s) ->
   exists ret g' Wv,
     GroupedConv2D vsi x num_paths path_ch_out kernel_shape sum_paths padding'
       stride W_init b_init nl use_bias' df' g = (Ok ret, g')
     /\ In Wv (g_variables g') /\ v_name Wv = "W"%string).
Proof.
  intros cl cl'. repeat split.
  - intros Hs Hc Hd. eapply Conv2D_group_not_divisible; eassumption.
  - intros Hs Hc Hd. eexists. eapply GroupedConv2D_not_divisible; eassumption.
  - intros n h w kh kw sh sw dh dw p Hs Hst Hc Hf Hc0 Hf0 Hdil Hks Hkh Hkw Hstr Hdl
      Hpad Hki.
    destruct (@Conv2D_group_run tfv inputs filters kernel_size strides padding df
                dilation_rate act use_bias ki bi split g n h w c kh kw sh sw dh dw p
                Hs Hst Hc0 Hc Hf0 Hf Hdil Hks Hkh Hkw Hstr Hdl Hpad Hki)
      as (st & g' & Hrun & Hvars).
    eexists. exists g'. eexists. split; [exact Hrun|]. split.
    + rewrite Hvars. apply in_or_app. right. left. reflexivity.
    + reflexivity.
  - intros n H W kh kw sh sw p Hs Hst Hc Hc0 HM Hks Hkh Hkw Hstr Hpad Hinit.
    destruct (@GroupedConv2D_run vsi x num_paths path_ch_out kernel_shape
                sum_paths padding' stride W_init b_init nl use_bias' df' g n H W c'
                kh kw sh sw p Hst Hs Hc Hc0 HM Hks Hkh Hkw Hstr Hpad Hinit)
      as (st & g' & Hrun & Hvars).
    eexists. exists g'. eexists. split; [exact Hrun|]. split.
    + rewrite Hvars. apply in_or_app. right. left. reflexivity.
    + reflexivity.
Qed.

Lemma divisibility_assertions_witness :
  (exists msg,
     Conv2D 1.4 example_input 6 (A_int 3) (A_int 1) "same" channels_last (A_tuple [1; 1])
       None true example_initializer example_initializer None None None 3 empty_graph
     = (Raise (AssertionError msg), empty_graph))
  /\ (exists msg,
     GroupedConv2D example_initializer example_input 3 2 (A_int 3) false "same" (A_int 1) None None
       tf_identity false NHWC empty_graph
     = (Raise (AssertionError msg), empty_graph))
  /\ (exists ret g' Wv,
     Conv2D 1.4 example_input 6 (A_int 3) (A_int 1) "same" channels_last (A_tuple [1; 1])
       None true example_initializer example_initializer None None None 2 empty_graph = (Ok ret, g')
     /\ In Wv (g_variables g') /\ v_name Wv = "W"%string)
  /\ (exists ret g' Wv,
     GroupedConv2D example_initializer example_input 2 2 (A_int 3) false "same" (A_int 1) None None
       tf_identity false NHWC empty_graph = (Ok ret, g')
     /\ In Wv (g_variables g') /\ v_name Wv = "W"%string).
Proof.
  pose proof (@divisibility_assertions 1.4 example_initializer empty_graph
                example_input 6 (A_int 3) (A_int 1) "same" channels_last (A_tuple [1; 1])
                None true example_initializer example_initializer None None None 3 4
                example_input 3 2 (A_int 3) false "same" (A_int 1) None None
                tf_identity false NHWC 4) as (Ha & Hb & _ & _).
  pose proof (@divisibility_assertions 1.4 example_initializer empty_graph
                example_input 6 (A_int 3) (A_int 1) "same" channels_last (A_tuple [1; 1])
                None true example_initializer example_initializer None None None 2 4
                example_input 2 2 (A_int 3) false "same" (A_int 1) None None
                tf_identity false NHWC 4) as (_ & _ & Hc & Hd).
  split; [| split; [| split]].
  - apply Ha; [lia | reflexivity | left; discriminate].
  - apply Hb; [lia | reflexivity | discriminate].
  - apply (Hc None (Some 3) (Some 3) 3 3 1 1 1 1 SAME);
      try reflexivity; try lia. split; reflexivity.
  - apply (Hd None 3 3 3 3 1 1 SAME); try reflexivity; lia.
Defined.



Lemma group_pieces_eq (cl : bool) x Wv (s : Z) stride dil p
    (N H W C kh kw Ck F sh sw dh dw : Z) :
  let cpp := C / s in
  let fs := F / s in
  let ch := (if cl then 3 else 1)%nat in
  shape x = of_nhwc cl [N; H; W; C] -> shape Wv = [kh; kw; Ck; F] ->
  stride = of_nhwc cl [1; sh; sw; 1] -> dil = of_nhwc cl [1; dh; dw; 1] ->
  map (fun ik => conv2d_v cl (fst ik) (snd ik) stride dil p)
      (combine (split_v x s ch) (split_v Wv s 3))
  = map (fun i =>
      tabulate (of_nhwc cl [N; conv_out p H kh sh dh; conv_out p W kw sw dw; fs])
        (fun idx =>
           match to_nhwc cl idx with
           | [n; y; x'; f] =>
               sumZ kh (fun di => sumZ kw (fun dj => sumZ Ck (fun c =>
                 pixel cl
                   (tabulate (set_nth ch cpp (shape x))
                      (fun idx => at_ x (set_nth ch (nth ch idx 0 + Z.of_nat i * cpp) idx)))
                   n (y * sh + di * dh - pad_before p H kh sh dh)
                   (x' * sw + dj * dw - pad_before p W kw sw dw) c
                 * at_ (tabulate (set_nth 3 fs (shape Wv))
                          (fun idx => at_ Wv (set_nth 3 (nth 3 idx 0 + Z.of_nat i * fs) idx)))
                       [di; dj; c; f])))
           | _ => 0
           end))
      (seq 0 (Z.to_nat s)).
Proof.
  intros cpp fs ch Hx Hw Hs Hd. unfold split_v.
  rewrite combine_map_seq, map_map. apply map_ext. intros i.
  cbn [fst snd]. rewrite Hx, Hw.
  replace (nth ch (of_nhwc cl [N; H; W; C]) 0 / s) with cpp
    by (unfold ch; destruct cl; reflexivity).
  replace (nth 3 [kh; kw; Ck; F] 0 / s) with fs by reflexivity.
  apply conv2d_v_eq with (Cx := cpp) (s0 := 1) (s3 := 1) (d0 := 1) (d3 := 1).
  - unfold ch. destruct cl; reflexivity.
  - reflexivity.
  - exact Hs.
  - exact Hd.
Qed.

(** The element of the grouped convolution at output channel [c]: with
    [fs] output channels and [cpp] input channels per group, it is the
    convolution of the input channels of group [c / fs] only, with
    column [c] of the kernel. *)
Lemma group_conv_value_at (cl : bool) x Wv (s N H W C kh kw F sh sw dh dw : Z) p
    (n y x' c : Z) :
  let cpp := C / s in
  let fs := F / s in
  let OH := conv_out p H kh sh dh in
  let OW := conv_out p W kw sw dw in
  let T := group_conv_value cl x Wv s (of_nhwc cl [1; sh; sw; 1])
             (of_nhwc cl [1; dh; dw; 1]) p in
  shape x = of_nhwc cl [N; H; W; C] -> shape Wv = [kh; kw; cpp; F] ->
  1 < s -> 0 < C -> C mod s = 0 -> 0 < F -> F mod s = 0 ->
  0 <= n < N -> 0 <= y < OH -> 0 <= x' < OW -> 0 <= c < F ->
  shape T = of_nhwc cl [N; OH; OW; F]
  /\ at_ T (of_nhwc cl [n; y; x'; c]) =
     sumZ kh (fun di => sumZ kw (fun dj => sumZ cpp (fun j =>
       pixel cl x n (y * sh + di * dh - pad_before p H kh sh dh)
             (x' * sw + dj * dw - pad_before p W kw sw dw)
             (j + (c / fs) * cpp)
       * at_ Wv [di; dj; j; c]))).
Proof.
  intros cpp fs OH OW T Hx Hw Hs HC HCm HF HFm Hn Hy Hx' Hc.
  assert (HCeq : C = s * cpp) by (apply Z.div_exact; lia).
  assert (HFeq : F = s * fs) by (apply Z.div_exact; lia).
  assert (Hcpp : 0 < cpp) by nia. assert (Hfs : 0 < fs) by nia.
  unfold T, group_conv_value.
  rewrite (@group_pieces_eq cl x Wv s _ _ p N H W C kh kw cpp F sh sw dh dw
             Hx Hw eq_refl eq_refl).
  fold cpp fs OH OW.
  rewrite concat_v_tabulated by lia.
  set (G := fun i : nat => tabulate _ _).
  set (pieces := map G (seq 0 (Z.to_nat s))).
  assert (Hq : 0 <= c mod fs < fs) by (apply Z.mod_pos_bound; lia).
  assert (Hg : 0 <= c / fs < s).
  { split; [apply Z.div_pos; lia | apply Z.div_lt_upper_bound; nia]. }
  assert (Hsz : Z.of_nat (Z.to_nat s) * fs = F) by (rewrite Z2Nat.id by lia; lia).
  destruct cl.
  - cbn [of_nhwc nth set_nth]. rewrite Hsz. split; [reflexivity|].
    rewrite at_tabulate by (repeat constructor; lia).
    rewrite (@concat_at_uniform pieces 3 fs [n; y; x'; c] (G 0%nat)); try lia.
    2:{ simpl; lia. }
    2:{ intros t Ht. unfold pieces in Ht. apply in_map_iff in Ht.
        destruct Ht as (i & <- & _). reflexivity. }
    2:{ unfold pieces. rewrite length_map, length_seq. cbn [nth]. lia. }
    cbn [nth set_nth]. unfold pieces.
    rewrite nth_map_seq by lia. unfold G.
    rewrite at_tabulate by (repeat constructor; lia).
    cbn [to_nhwc].
    apply sumZ_ext. intros di Hdi. apply sumZ_ext. intros dj Hdj.
    apply sumZ_ext. intros j Hj.
    rewrite (@pixel_split true x N H W C cpp (Z.to_nat (c / fs)) n _ _ j Hx) by lia.
    rewrite at_tabulate by (rewrite Hw; repeat constructor; lia).
    rewrite Z2Nat.id by lia. cbn [nth set_nth].
    replace (c mod fs + c / fs * fs) with c
      by (rewrite (Z.div_mod c fs) at 1 by lia; ring).
    reflexivity.
  - cbn [of_nhwc nth set_nth]. rewrite Hsz. split; [reflexivity|].
    rewrite at_tabulate by (repeat constructor; lia).
    rewrite (@concat_at_uniform pieces 1 fs [n; c; y; x'] (G 0%nat)); try lia.
    2:{ simpl; lia. }
    2:{ intros t Ht. unfold pieces in Ht. apply in_map_iff in Ht.
        destruct Ht as (i & <- & _). reflexivity. }
    2:{ unfold pieces. rewrite length_map, length_seq. cbn [nth]. lia. }
    cbn [nth set_nth]. unfold pieces.
    rewrite nth_map_seq by lia. unfold G.
    rewrite at_tabulate by (repeat constructor; lia).
    cbn [to_nhwc].
    apply sumZ_ext. intros di Hdi. apply sumZ_ext. intros dj Hdj.
    apply sumZ_ext. intros j Hj.
    rewrite (@pixel_split false x N H W C cpp (Z.to_nat (c / fs)) n _ _ j Hx) by lia.
    rewrite at_tabulate by (rewrite Hw; repeat constructor; lia).
    rewrite Z2Nat.id by lia. cbn [nth set_nth].
    replace (c mod fs + c / fs * fs) with c
      by (rewrite (Z.div_mod c fs) at 1 by lia; ring).
    reflexivity.
Qed.

(** C4.  With [split = s > 1], [Conv2D] cuts the input into [s] groups
    along the channel axis and the weight [W] into [s] slices along its
    fourth axis, convolves group [i] with slice [i], concatenates the
    results along the channel axis, adds the bias if and only if
    [use_bias], and applies the activation (the identity for [None]).
    An output channel of group [i] is computed from the input channels
    of group [i] alone. *)
Theorem Conv2D_group_convolution (tfv : Q) inputs (filters : Z) kernel_size
    strides padding df dilation_rate act (use_bias : bool) (ki bi : initializer)
    (split : Z) g (n h w : option Z) (N H W C kh kw sh sw dh dw : Z) p :
  let cl := data_format_eqb (get_data_format df false) NHWC in
  let ch := (if cl then 3 else 1)%nat in
  let stride := of_nhwc cl [1; sh; sw; 1] in
  let dilations := of_nhwc cl [1; dh; dw; 1] in
  let activation := match act with Some f => f | None => tf_identity end in
  let cpp := C / split in
  let fs := filters / split in
  1 < split ->
  static_shape inputs = of_nhwc cl [n; h; w; Some C] ->
  shape (value inputs) = of_nhwc cl [N; H; W; C] ->
  0 < C -> C mod split = 0 -> 0 < filters -> filters mod split = 0 ->
  arg2d_eqb dilation_rate (A_tuple [1; 1]) || Qle_bool 1.5 tfv = true ->
  shape2d kernel_size = Ok [kh; kw] -> 0 <= kh -> 0 <= kw ->
  shape2d strides = Ok [sh; sw] ->
  (if Qle_bool 1.5 tfv then shape2d dilation_rate = Ok [dh; dw]
   else dh = 1 /\ dw = 1) ->
  parse_padding (upper padding) g = (Ok p, g) ->
  (forall s, shape (ki s) = s) ->
  exists ret g' Wv b T,
    Conv2D tfv inputs filters kernel_size strides padding df dilation_rate act
      use_bias ki bi None None None split g = (Ok ret, g')
    /\ variables ret = Some {| vars_W := Wv; vars_b := b |}
    /\ (if use_bias then b <> None else b = None)
    /\ T = concat_v
             (map (fun ik => conv2d_v cl (fst ik) (snd ik) stride dilations p)
                  (combine (split_v (value inputs) split ch)
                           (split_v (v_value Wv) split 3)))
             ch
    /\ value ret =
       act_fn activation
         (match b with
          | Some vb => bias_add_v cl T (v_value vb)
          | None => T
          end)
    /\ (forall i y x' c,
          0 <= i < N -> 0 <= y < conv_out p H kh sh dh ->
          0 <= x' < conv_out p W kw sw dw -> 0 <= c < filters ->
          at_ T (of_nhwc cl [i; y; x'; c]) =
          sumZ kh (fun di => sumZ kw (fun dj => sumZ cpp (fun j =>
            pixel cl (value inputs) i
                  (y * sh + di * dh - pad_before p H kh sh dh)
                  (x' * sw + dj * dw - pad_before p W kw sw dw)
                  (j + (c / fs) * cpp)
            * at_ (v_value Wv) [di; dj; j; c])))).
Proof.
  intros cl ch stride dilations activation cpp fs Hs Hst Hsh HC HCm HF HFm Hdil
    Hks Hkh Hkw Hstr Hdl Hpad Hki.
  destruct (@Conv2D_group_run tfv inputs filters kernel_size strides padding df
              dilation_rate act use_bias ki bi split g n h w C kh kw sh sw dh dw p
              Hs Hst ltac:(lia) HCm ltac:(lia) HFm Hdil Hks Hkh Hkw Hstr Hdl Hpad
              Hki)
    as (st & g' & Hrun & _).
  eexists. exists g'. eexists. eexists. eexists.
  split; [exact Hrun|]. split; [reflexivity|]. split.
  { destruct use_bias; [discriminate | reflexivity]. }
  split; [reflexivity|]. split; [reflexivity|].
  intros i y x' c Hi Hy Hx' Hc. cbn [v_value].
  apply (@group_conv_value_at cl (value inputs) _ split N H W C kh kw filters
           sh sw dh dw p i y x' c Hsh (Hki _) Hs HC HCm HF HFm Hi Hy Hx' Hc).
Qed.

Lemma Conv2D_group_convolution_witness :
  exists ret g' Wv b T,
    Conv2D 1.4 example_input 6 (A_int 3) (A_int 1) "same" channels_last
      (A_tuple [1; 1]) None true example_initializer example_initializer
      None None None 2 empty_graph = (Ok ret, g')
    /\ variables ret = Some {| vars_W := Wv; vars_b := b |}
    /\ b <> None
    /\ T = concat_v
             (map (fun ik => conv2d_v true (fst ik) (snd ik) [1; 1; 1; 1]
                               [1; 1; 1; 1] SAME)
                  (combine (split_v (value example_input) 2 3)
                           (split_v (v_value Wv) 2 3)))
             3
    /\ value ret =
       act_fn tf_identity
         (match b with
          | Some vb => bias_add_v true T (v_value vb)
          | None => T
          end)
    /\ (forall i y x' c,
          0 <= i < 2 -> 0 <= y < conv_out SAME 3 3 1 1 ->
          0 <= x' < conv_out SAME 3 3 1 1 -> 0 <= c < 6 ->
          at_ T [i; y; x'; c] =
          sumZ 3 (fun di => sumZ 3 (fun dj => sumZ (4 / 2) (fun j =>
            pixel true (value example_input) i
                  (y * 1 + di * 1 - pad_before SAME 3 3 1 1)
                  (x' * 1 + dj * 1 - pad_before SAME 3 3 1 1)
                  (j + (c / (6 / 2)) * (4 / 2))
            * at_ (v_value Wv) [di; dj; j; c])))).
Proof.
  apply (@Conv2D_group_convolution 1.4 example_input 6 (A_int 3) (A_int 1) "same"
           channels_last (A_tuple [1; 1]) None true example_initializer
           example_initializer 2 empty_graph None (Some 3) (Some 3)
           2 3 3 4 3 3 1 1 1 1 SAME);
    try reflexivity; try lia.
  split; reflexivity.
Defined.






Lemma Conv2D_group_regularizer (tfv : Q) inputs filters kernel_size strides
    padding df dilation_rate act use_bias ki bi kr br ar split g ch :
  1 < split ->
  py_getitem (static_shape inputs)
    (if data_format_eqb (get_data_format df false) NHWC then -1 else 1)
  = Ok ch ->
  is_None kr && is_None br && is_None ar = false ->
  exists msg,
    Conv2D tfv inputs filters kernel_size strides padding df dilation_rate act
      use_bias ki bi kr br ar split g = (Raise (AssertionError msg), g).
Proof.
  intros Hs Hc Hr. unfold Conv2D.
  replace (split =? 1) with false by (symmetry; apply Z.eqb_neq; lia).
  rewrite Hc. mred. destruct ch as [c|]; [|eexists; reflexivity].
  mred.
  replace (split =? 0) with false by (symmetry; apply Z.eqb_neq; lia).
  destruct (c mod split =? 0); mred; [|eexists; reflexivity].
  rewrite Hr. eexists; reflexivity.
Qed.

(** C6.  With [split > 1], [Conv2D] stops with an [AssertionError]
    whenever one of the three regularizers is not [None]; with
    [split == 1] it accepts them and hands them to the tf.layers layer:
    the kernel carries the kernel regularizer, the bias the bias
    regularizer, and the activity regularizer is applied to the output. *)
Theorem Conv2D_regularizers (tfv : Q) inputs (filters : Z) kernel_size strides
    padding df dilation_rate act (use_bias : bool) (ki bi : initializer)
    (kr br ar : option regularizer) (split : Z) g :
  (forall ch,
     1 < split ->
     py_getitem (static_shape inputs)
       (if data_format_eqb (get_data_format df false) NHWC then -1 else 1)
     = Ok ch ->
     kr <> None \/ br <> None \/ ar <> None ->
     exists msg,
       Conv2D tfv inputs filters kernel_size strides padding df dilation_rate act
         use_bias ki bi kr br ar split g = (Raise (AssertionError msg), g))
  /\
  (forall (n h w : option Z) (C kh kw sh sw dh dw : Z) p,
     let cl := data_format_eqb df channels_last in
     split = 1 ->
     (df = channels_last \/ df = channels_first) ->
     static_shape inputs = of_nhwc cl [n; h; w; Some C] ->
     0 <= C -> 0 <= filters ->
     shape2d kernel_size = Ok [kh; kw] -> 0 <= kh -> 0 <= kw ->
     shape2d strides = Ok [sh; sw] ->
     shape2d dilation_rate = Ok [dh; dw] ->
     parse_padding (upper padding) g = (Ok p, g) ->
     match h with
     | Some H => 0 < H -> w <> None /\ sh <> 0 /\ sw <> 0
     | None => True
     end ->
     exists ret g' Wv b,
       Conv2D tfv inputs filters kernel_size strides padding df dilation_rate act
         use_bias ki bi kr br ar split g = (Ok ret, g')
       /\ variables ret = Some {| vars_W := Wv; vars_b := b |}
       /\ In Wv (g_variables g') /\ v_regularizer Wv = kr
       /\ (forall vb, b = Some vb ->
           In vb (g_variables g') /\ v_regularizer vb = br)
       /\ g_losses g' =
          g_losses g ++ match ar with Some r => [r (value ret)] | None => [] end).
Proof.
  split.
  - intros ch Hs Hc Hr. eapply Conv2D_group_regularizer; try eassumption.
    destruct kr, br, ar; try reflexivity.
    destruct Hr as [Hr | [Hr | Hr]]; congruence.
  - intros n h w C kh kw sh sw dh dw p cl -> Hdf Hst HC HF Hks Hkh Hkw Hstr Hdl
      Hpad Hflops.
    destruct (@Conv2D_dense_run tfv inputs filters kernel_size strides padding df
                dilation_rate act use_bias ki bi kr br ar g n h w C kh kw sh sw
                dh dw p Hdf Hst HC HF Hks Hkh Hkw Hstr Hdl Hpad Hflops)
      as (ret & g' & Hrun & Hvars & Hval & Hgv & Hgl).
    exists ret, g'. eexists. eexists. split; [exact Hrun|].
    split; [exact Hvars|]. split.
    + rewrite Hgv. apply in_or_app. right. left. reflexivity.
    + split; [reflexivity|]. split.
      * intros vb Hb. rewrite Hgv. destruct use_bias; [|discriminate Hb].
        inversion Hb; subst vb. split; [|reflexivity].
        apply in_or_app. right. right. left. reflexivity.
      * rewrite Hgl, Hval. reflexivity.
Qed.

Lemma truediv_exact a b :
  b <> 0 -> a mod b = 0 ->
  exists q, py_truediv a b = Ok (PFloat q) /\ (q == inject_Z (a / b))%Q.
Proof.
  intros Hb Hm. unfold py_truediv.
  destruct (Z.eqb_spec b 0); [contradiction|].
  eexists. split; [reflexivity|].
  assert (Ha : a = b * (a / b)) by (apply Z.div_exact; assumption).
  rewrite Ha at 1. rewrite inject_Z_mult. field.
  apply inject_Z_nonzero. assumption.
Qed.

(** C8.  In the group-convolution branch of [Conv2D], for an input
    channel count divisible by [split], the weight [W] is created with
    shape [kernel_h, kernel_w, q, filters] where [q] is the exact integer
    quotient [in_channel // split]: the float [in_channel / split] of the
    code is that integer. *)
Theorem Conv2D_group_weight_shape (tfv : Q) inputs (filters : Z) kernel_size
    strides padding df dilation_rate act (use_bias : bool) (ki bi : initializer)
    (split : Z) g (n h w : option Z) (in_channel kh kw sh sw dh dw : Z) p :
  let cl := data_format_eqb (get_data_format df false) NHWC in
  1 < split ->
  static_shape inputs = of_nhwc cl [n; h; w; Some in_channel] ->
  0 <= in_channel -> in_channel mod split = 0 ->
  0 <= filters -> filters mod split = 0 ->
  arg2d_eqb dilation_rate (A_tuple [1; 1]) || Qle_bool 1.5 tfv = true ->
  shape2d kernel_size = Ok [kh; kw] -> 0 <= kh -> 0 <= kw ->
  shape2d strides = Ok [sh; sw] ->
  (if Qle_bool 1.5 tfv then shape2d dilation_rate = Ok [dh; dw]
   else dh = 1 /\ dw = 1) ->
  parse_padding (upper padding) g = (Ok p, g) ->
  (forall s, shape (ki s) = s) ->
  exists ret g' Wv b q,
    Conv2D tfv inputs filters kernel_size strides padding df dilation_rate act
      use_bias ki bi None None None split g = (Ok ret, g')
    /\ variables ret = Some {| vars_W := Wv; vars_b := b |}
    /\ In Wv (g_variables g')
    /\ v_shape Wv = [kh; kw; in_channel / split; filters]
    /\ in_channel = split * (in_channel / split)
    /\ py_truediv in_channel split = Ok (PFloat q)
    /\ (q == inject_Z (in_channel / split))%Q.
Proof.
  intros cl Hs Hst HC HCm HF HFm Hdil Hks Hkh Hkw Hstr Hdl Hpad Hki.
  destruct (@Conv2D_group_run tfv inputs filters kernel_size strides padding df
              dilation_rate act use_bias ki bi split g n h w in_channel kh kw sh
              sw dh dw p Hs Hst HC HCm HF HFm Hdil Hks Hkh Hkw Hstr Hdl Hpad Hki)
    as (st & g' & Hrun & Hvars).
  destruct (@truediv_exact in_channel split ltac:(lia) HCm) as (q & Hq & Hqe).
  eexists. exists g'. eexists. eexists. exists q.
  split; [exact Hrun|]. split; [reflexivity|]. split.
  - rewrite Hvars. apply in_or_app. right. left. reflexivity.
  - split; [reflexivity|]. split; [apply Z.div_exact; [lia | exact HCm]|].
    split; assumption.
Qed.

(** C9.  [Conv2D] attaches [info] (the flop count) to its result in the
    branch [split == 1] only: the tensor of a call with [split] other
    than 1 has the attribute [variables] (W, and b iff [use_bias]) and no
    attribute [info]. *)
Theorem Conv2D_info_only_dense (tfv : Q) inputs (filters : Z) kernel_size strides
    padding df dilation_rate act (use_bias : bool) (ki bi : initializer)
    (kr br ar : option regularizer) (split : Z) g ret g' :
  Conv2D tfv inputs filters kernel_size strides padding df dilation_rate act
    use_bias ki bi kr br ar split g = (Ok ret, g') ->
  (split = 1 -> exists f, info ret = Some {| info_flops := f |})
  /\ (split <> 1 -> info ret = None /\ holds_variables ret use_bias).
Proof.
  intros Hrun. split.
  - intros ->.
    destruct (@Conv2D_dense_returns tfv inputs filters kernel_size strides padding
                df dilation_rate act use_bias ki bi kr br ar _ _ _ Hrun)
      as (_ & _ & c & kh & kw & sh & sw & h & f & _ & _ & _ & _ & Hi & _).
    exists f. exact Hi.
  - intros Hs.
    assert (Hs' : (split =? 1) = false) by (apply Z.eqb_neq; exact Hs).
    destruct (@Conv2D_group_returns tfv inputs filters kernel_size strides padding
                df dilation_rate act use_bias ki bi kr br ar split Hs' _ _ _ Hrun)
      as (_ & Hi & Hv).
    split; assumption.
Qed.


Lemma Conv2D_regularizers_witness :
  (exists msg,
     Conv2D 1.4 example_input 6 (A_int 3) (A_int 1) "same" channels_last
       (A_tuple [1; 1]) None true example_initializer example_initializer
       None (Some example_regularizer) None 2 empty_graph
     = (Raise (AssertionError msg), empty_graph))
  /\
  (exists ret g' Wv b,
     Conv2D 1.4 example_input 6 (A_int 3) (A_int 1) "same" channels_last
       (A_tuple [1; 1]) None true example_initializer example_initializer
       (Some example_regularizer) (Some example_regularizer)
       (Some example_regularizer) 1 empty_graph = (Ok ret, g')
     /\ variables ret = Some {| vars_W := Wv; vars_b := b |}
     /\ In Wv (g_variables g') /\ v_regularizer Wv = Some example_regularizer
     /\ (forall vb, b = Some vb ->
         In vb (g_variables g') /\ v_regularizer vb = Some example_regularizer)
     /\ g_losses g' = g_losses empty_graph ++ [example_regularizer (value ret)]).
Proof.
  split.
  - apply (proj1 (@Conv2D_regularizers 1.4 example_input 6 (A_int 3) (A_int 1)
                    "same" channels_last (A_tuple [1; 1]) None true
                    example_initializer example_initializer
                    None (Some example_regularizer) None 2 empty_graph)
             (Some 4)); [lia | reflexivity | right; left; discriminate].
  - apply (proj2 (@Conv2D_regularizers 1.4 example_input 6 (A_int 3) (A_int 1)
                    "same" channels_last (A_tuple [1; 1]) None true
                    example_initializer example_initializer
                    (Some example_regularizer) (Some example_regularizer)
                    (Some example_regularizer) 1 empty_graph)
             None (Some 3) (Some 3) 4 3 3 1 1 1 1 SAME);
      try reflexivity; try lia; auto.
    intros _. repeat split; discriminate.
Defined.

Lemma Conv2D_group_weight_shape_witness :
  exists ret g' Wv b q,
    Conv2D 1.4 example_input 6 (A_int 3) (A_int 1) "same" channels_last
      (A_tuple [1; 1]) None true example_initializer example_initializer
      None None None 2 empty_graph = (Ok ret, g')
    /\ variables ret = Some {| vars_W := Wv; vars_b := b |}
    /\ In Wv (g_variables g')
    /\ v_shape Wv = [3; 3; 4 / 2; 6]
    /\ 4 = 2 * (4 / 2)
    /\ py_truediv 4 2 = Ok (PFloat q)
    /\ (q == inject_Z (4 / 2))%Q.
Proof.
  apply (@Conv2D_group_weight_shape 1.4 example_input 6 (A_int 3) (A_int 1) "same"
           channels_last (A_tuple [1; 1]) None true example_initializer
           example_initializer 2 empty_graph None (Some 3) (Some 3)
           4 3 3 1 1 1 1 SAME);
    try reflexivity; try lia.
  split; reflexivity.
Defined.

Lemma Conv2D_info_only_dense_witness :
  (exists ret g',
     Conv2D 1.4 example_input 6 (A_int 3) (A_int 1) "same" channels_last
       (A_tuple [1; 1]) None true example_initializer example_initializer
       None None None 1 empty_graph = (Ok ret, g')
     /\ exists f, info ret = Some {| info_flops := f |})
  /\
  (exists ret g',
     Conv2D 1.4 example_input 6 (A_int 3) (A_int 1) "same" channels_last
       (A_tuple [1; 1]) None true example_initializer example_initializer
       None None None 2 empty_graph = (Ok ret, g')
     /\ info ret = None /\ holds_variables ret true).
Proof.
  split.
  - eexists. eexists. split; [vm_compute; reflexivity|].
    eapply (@Conv2D_info_only_dense 1.4 example_input 6 (A_int 3) (A_int 1) "same"
              channels_last (A_tuple [1; 1]) None true example_initializer
              example_initializer None None None 1 empty_graph);
      [vm_compute; reflexivity | reflexivity].
  - eexists. eexists. split; [vm_compute; reflexivity|].
    eapply (@Conv2D_info_only_dense 1.4 example_input 6 (A_int 3) (A_int 1) "same"
              channels_last (A_tuple [1; 1]) None true example_initializer
              example_initializer None None None 2 empty_graph);
      [vm_compute; reflexivity | discriminate].
Defined.


(* ------------------------------------------------------------------ *)
(** ** Further properties of the layers *)









Lemma group_conv_value_shape (cl : bool) x Wv (s N H W C kh kw Ck F sh sw dh dw : Z) p :
  shape x = of_nhwc cl [N; H; W; C] -> shape Wv = [kh; kw; Ck; F] ->
  0 < s -> F mod s = 0 ->
  let T := group_conv_value cl x Wv s (of_nhwc cl [1; sh; sw; 1])
             (of_nhwc cl [1; dh; dw; 1]) p in
  shape T = of_nhwc cl [N; conv_out p H kh sh dh; conv_out p W kw sw dw; F]
  /\ (0 <= N -> 0 <= conv_out p H kh sh dh -> 0 <= conv_out p W kw sw dw -> 0 <= F ->
      wf T).
Proof.
  intros Hx Hw Hs HFm T. unfold T, group_conv_value.
  assert (HFeq : F = s * (F / s)) by (apply Z.div_exact; lia).
  rewrite (@group_pieces_eq cl x Wv s _ _ p N H W C kh kw Ck F sh sw dh dw
             Hx Hw eq_refl eq_refl).
  rewrite concat_v_tabulated by lia.
  assert (Hsz : Z.of_nat (Z.to_nat s) * (F / s) = F) by (rewrite Z2Nat.id by lia; lia).
  destruct cl; cbn [of_nhwc nth set_nth shape tabulate]; rewrite Hsz;
    (split; [reflexivity|]); intros; apply wf_tabulate; repeat constructor; nia.
Qed.







(** X4.  The tensor [Conv2D] returns with [split > 1] has the batch
    extent of the input, [filters] channels, and the height and width of
    a convolution with the kernel, stride, dilation and padding given,
    whenever the activation keeps the shape. *)
Theorem Conv2D_group_output_shape (tfv : Q) inputs (filters : Z) kernel_size
    strides padding df dilation_rate act (use_bias : bool) (ki bi : initializer)
    (split : Z) g (n h w : option Z) (N H W C kh kw sh sw dh dw : Z) p :
  let cl := data_format_eqb (get_data_format df false) NHWC in
  1 < split ->
  static_shape inputs = of_nhwc cl [n; h; w; Some C] ->
  shape (value inputs) = of_nhwc cl [N; H; W; C] ->
  0 <= C -> C mod split = 0 -> 0 <= filters -> filters mod split = 0 ->
  arg2d_eqb dilation_rate (A_tuple [1; 1]) || Qle_bool 1.5 tfv = true ->
  shape2d kernel_size = Ok [kh; kw] -> 0 <= kh -> 0 <= kw ->
  shape2d strides = Ok [sh; sw] ->
  (if Qle_bool 1.5 tfv then shape2d dilation_rate = Ok [dh; dw]
   else dh = 1 /\ dw = 1) ->
  parse_padding (upper padding) g = (Ok p, g) ->
  (forall s, shape (ki s) = s) ->
  (forall f t, act = Some f -> shape (act_fn f t) = shape t) ->
  exists ret g',
    Conv2D tfv inputs filters kernel_size strides padding df dilation_rate act
      use_bias ki bi None None None split g = (Ok ret, g')
    /\ shape (value ret) =
       of_nhwc cl [N; conv_out p H kh sh dh; conv_out p W kw sw dw; filters].
Proof.
  intros cl Hs Hst Hsh HC HCm HF HFm Hdil Hks Hkh Hkw Hstr Hdl Hpad Hki Hact.
  destruct (@Conv2D_group_run tfv inputs filters kernel_size strides padding df
              dilation_rate act use_bias ki bi split g n h w C kh kw sh sw dh dw p
              Hs Hst HC HCm HF HFm Hdil Hks Hkh Hkw Hstr Hdl Hpad Hki)
    as (st & g' & Hrun & _).
  eexists. exists g'. split; [exact Hrun|]. cbn [value]. fold cl.
  destruct (@group_conv_value_shape cl (value inputs)
              (ki [kh; kw; C / split; filters]) split
              N H W C kh kw (C / split) filters sh sw dh dw p Hsh (Hki _)
              ltac:(lia) HFm) as (Hshape & _).
  assert (Hpre : shape (if use_bias
                        then bias_add_v cl
                               (group_conv_value cl (value inputs)
                                  (ki [kh; kw; C / split; filters]) split
                                  (of_nhwc cl [1; sh; sw; 1])
                                  (of_nhwc cl [1; dh; dw; 1]) p) (bi [filters])
                        else group_conv_value cl (value inputs)
                               (ki [kh; kw; C / split; filters]) split
                               (of_nhwc cl [1; sh; sw; 1])
                               (of_nhwc cl [1; dh; dw; 1]) p)
                 = of_nhwc cl [N; conv_out p H kh sh dh; conv_out p W kw sw dw; filters]).
  { destruct use_bias; [cbn [bias_add_v shape tabulate]|]; exact Hshape. }
  destruct use_bias; cbn [v_value];
    (destruct act as [f|];
     [rewrite (Hact f _ eq_refl) | cbn [act_fn tf_identity]]; exact Hpre).
Qed.

Lemma appends_pure {A} (a : A) (P : A -> Prop) : P a -> appends (pure a) [] P.
Proof.
  intros H g r g' E. inversion E; subst. rewrite app_nil_r. auto.
Qed.

Lemma appends_raise {A} e l (P : A -> Prop) : appends (raise e) l P.
Proof. intros g r g' E. discriminate E. Qed.

Lemma appends_bind {A B} (c : M A) (k : A -> M B) l1 l2 P Q :
  appends c l1 P -> (forall a, P a -> appends (k a) l2 Q) ->
  appends (bind c k) (l1 ++ l2) Q.
Proof.
  intros Hc Hk g r g' E. unfold bind in E.
  destruct (c g) as [[a|e] g1] eqn:Ec; [|discriminate E].
  destruct (Hc _ _ _ Ec) as (H1 & HP).
  destruct (Hk a HP _ _ _ E) as (H2 & HQ).
  split; [|exact HQ]. rewrite H2, H1, app_assoc. reflexivity.
Qed.

Lemma appends_list {A} (c : M A) l l' (P : A -> Prop) :
  appends c l P -> l = l' -> appends c l' P.
Proof. intros H <-. exact H. Qed.

Lemma appends_weaken {A} (c : M A) l (P Q : A -> Prop) :
  appends c l P -> (forall a, P a -> Q a) -> appends c l Q.
Proof.
  intros H HPQ g a g' E. destruct (H _ _ _ E) as (H1 & H2). auto.
Qed.

Lemma appends_lift {A} (r : result A) : appends (lift r) [] (fun a => r = Ok a).
Proof.
  intros g a g' E. inversion E; subst. rewrite app_nil_r. auto.
Qed.

Lemma appends_check b e : appends (check b e) [] (fun _ => b = true).
Proof.
  intros g [] g' E. unfold check in E. destruct b; [|discriminate E].
  inversion E; subst. rewrite app_nil_r. auto.
Qed.

Lemma appends_assert b msg : appends (assert_ b msg) [] (fun _ => b = true).
Proof.
  intros g [] g' E. unfold assert_ in E. destruct b; [|discriminate E].
  inversion E; subst. rewrite app_nil_r. auto.
Qed.

Lemma appends_add_node o nm : appends (add_node o nm) [(o, nm)] (fun _ => True).
Proof. intros g a g' E. inversion E; subst. auto. Qed.

Lemma appends_add_loss l : appends (add_loss l) [] (fun _ => True).
Proof.
  intros g a g' E. inversion E; subst. simpl. rewrite app_nil_r. auto.
Qed.

Lemma appends_get_variable nm shp init reg :
  appends (tf_get_variable nm shp init reg) [] (fun _ => True).
Proof.
  intros g v g' E. unfold tf_get_variable, bind, lift in E.
  destruct (as_shape shp) as [s|e]; [|discriminate E].
  inversion E; subst. simpl. rewrite app_nil_r. auto.
Qed.

Lemma appends_bias (use_bias : bool) shp init reg :
  appends (if use_bias
           then v <- tf_get_variable "b" shp init reg;; pure (Some v)
           else pure None) []
    (fun b => if use_bias then exists vb, b = Some vb else b = None).
Proof.
  destruct use_bias.
  - apply appends_list with (l := [] ++ []); [|reflexivity].
    eapply appends_bind; [apply appends_get_variable|].
    intros v _. apply appends_pure. eauto.
  - apply appends_pure. reflexivity.
Qed.

(** Steps of a computation: a step that adds [l1], then the rest. *)
Ltac step H := eapply appends_bind; [H|].
Ltac quiet c := eapply appends_weaken; [c | intros ? _; exact I].

Lemma appends_layout df : appends (layout df) [] (fun _ => True).
Proof. destruct df; try apply appends_raise; apply appends_pure; exact I. Qed.

Lemma appends_parse_padding s : appends (parse_padding s) [] (fun _ => True).
Proof.
  unfold parse_padding.
  destruct (String.eqb s "SAME"); [apply appends_pure; exact I|].
  destruct (String.eqb s "VALID"); [apply appends_pure; exact I|].
  apply appends_raise.
Qed.

Lemma appends_normalize_axis rank axis :
  appends (normalize_axis rank axis) [] (fun _ => True).
Proof.
  unfold normalize_axis. apply appends_list with (l := [] ++ []); [|reflexivity].
  step ltac:(apply appends_check). intros _ _. apply appends_pure. exact I.
Qed.

Lemma appends_call f x nm : appends (call f x nm) [(act_op f, nm)] (fun _ => True).
Proof.
  unfold call. apply appends_list with (l := [(act_op f, nm)] ++ []); [|reflexivity].
  step ltac:(apply appends_add_node). intros _ _. apply appends_pure. exact I.
Qed.

Lemma appends_tf_split x n axis :
  appends (tf_split x n axis) [(Op_split, ""%string)]
    (fun l => length l = Z.to_nat n /\ 0 < n).
Proof.
  unfold tf_split.
  apply appends_list with (l := [] ++ [] ++ [] ++ [(Op_split, ""%string)] ++ []);
    [|reflexivity].
  step ltac:(apply appends_normalize_axis). intros a _.
  step ltac:(apply appends_check). intros u Hn. cbv beta in Hn. clear u.
  step ltac:(apply appends_check). intros _ _.
  step ltac:(apply appends_add_node). intros _ _.
  apply appends_pure. rewrite length_map, split_v_length.
  split; [reflexivity | apply Z.ltb_lt; exact Hn].
Qed.

Lemma appends_tf_nn_conv2d x filter strides padding dilations df :
  appends (tf_nn_conv2d x filter strides padding dilations df)
    [(Op_conv2d, ""%string)] (fun _ => True).
Proof.
  unfold tf_nn_conv2d.
  apply appends_list with (l := [] ++ [] ++ [] ++ [] ++ [(Op_conv2d, ""%string)] ++ []);
    [|reflexivity].
  step ltac:(apply appends_layout). intros cl _.
  step ltac:(apply appends_parse_padding). intros p _.
  step ltac:(quiet ltac:(apply appends_check)). intros _ _.
  repeat match goal with
         | |- appends (match ?l with _ => _ end) _ _ =>
             destruct l; try apply appends_raise
         end.
  step ltac:(quiet ltac:(apply appends_check)). intros _ _.
  step ltac:(apply appends_add_node). intros _ _.
  apply appends_pure. exact I.
Qed.

Lemma appends_mapM {A B} (f : A -> M B) o nm l :
  (forall a, appends (f a) [(o, nm)] (fun _ => True)) ->
  appends (mapM f l) (repeat (o, nm) (length l)) (fun _ => True).
Proof.
  intros Hf. induction l as [|a l IH]; cbn [mapM length repeat].
  - apply appends_pure. exact I.
  - apply appends_list with (l := [(o, nm)] ++ repeat (o, nm) (length l) ++ []).
    2:{ rewrite app_nil_r. reflexivity. }
    step ltac:(apply Hf). intros y _.
    step ltac:(apply IH). intros ys _.
    apply appends_pure. exact I.
Qed.

Lemma appends_tf_concat ts axis :
  appends (tf_concat ts axis) [(Op_concat, ""%string)] (fun _ => True).
Proof.
  unfold tf_concat. destruct ts as [|t ts]; [apply appends_raise|].
  apply appends_list with (l := [] ++ [(Op_concat, ""%string)] ++ []); [|reflexivity].
  step ltac:(apply appends_normalize_axis). intros a _.
  step ltac:(apply appends_add_node). intros _ _.
  apply appends_pure. exact I.
Qed.

Lemma appends_tf_nn_bias_add x b df :
  appends (tf_nn_bias_add x b df) [(Op_bias_add, ""%string)] (fun _ => True).
Proof.
  unfold tf_nn_bias_add.
  apply appends_list with (l := [] ++ [(Op_bias_add, ""%string)] ++ []); [|reflexivity].
  step ltac:(apply appends_layout). intros cl _.
  step ltac:(apply appends_add_node). intros _ _.
  apply appends_pure. exact I.
Qed.

Lemma appends_tf_nn_depthwise_conv2d x filter strides padding df :
  appends (tf_nn_depthwise_conv2d x filter strides padding df)
    [(Op_depthwise_conv2d, ""%string)] (fun _ => True).
Proof.
  unfold tf_nn_depthwise_conv2d.
  apply appends_list
    with (l := [] ++ [] ++ [] ++ [] ++ [(Op_depthwise_conv2d, ""%string)] ++ []);
    [|reflexivity].
  step ltac:(apply appends_layout). intros cl _.
  step ltac:(apply appends_parse_padding). intros p _.
  step ltac:(quiet ltac:(apply appends_check)). intros _ _.
  repeat match goal with
         | |- appends (match ?l with _ => _ end) _ _ =>
             destruct l; try apply appends_raise
         end.
  step ltac:(quiet ltac:(apply appends_check)). intros _ _.
  step ltac:(apply appends_add_node). intros _ _.
  apply appends_pure. exact I.
Qed.

Lemma appends_tf_reshape x target :
  appends (tf_reshape x target) [(Op_reshape, ""%string)] (fun _ => True).
Proof.
  unfold tf_reshape. destruct (all_known target); [|apply appends_raise].
  apply appends_list with (l := [(Op_reshape, ""%string)] ++ []); [|reflexivity].
  step ltac:(apply appends_add_node). intros _ _.
  apply appends_pure. exact I.
Qed.

Lemma appends_tf_reduce_sum x axes :
  appends (tf_reduce_sum x axes) [(Op_reduce_sum, ""%string)] (fun _ => True).
Proof.
  unfold tf_reduce_sum.
  apply appends_list with (l := [(Op_reduce_sum, ""%string)] ++ []); [|reflexivity].
  step ltac:(apply appends_add_node). intros _ _.
  apply appends_pure. exact I.
Qed.

Lemma appends_two_lifts {A B} (r1 r2 : result A) (k : A -> A -> M B) l :
  (forall a b, appends (k a b) l (fun _ => True)) ->
  appends (a <- lift r1 ;; b <- lift r2 ;; k a b) l (fun _ => True).
Proof.
  intros Hk. apply appends_list with (l := [] ++ [] ++ l); [|reflexivity].
  step ltac:(apply appends_lift). intros a _.
  step ltac:(apply appends_lift). intros b _. apply Hk.
Qed.

(** The nodes of the group branch of [Conv2D]. *)
Lemma Conv2D_group_appends (tfv : Q) inputs filters kernel_size strides padding df
    dilation_rate act use_bias ki bi kr br ar split :
  split <> 1 ->
  appends (Conv2D tfv inputs filters kernel_size strides padding df dilation_rate
             act use_bias ki bi kr br ar split)
    ([(Op_split, ""); (Op_split, "")]%string
     ++ repeat (Op_conv2d, ""%string) (Z.to_nat split)
     ++ [(Op_concat, ""%string)]
     ++ (if use_bias then [(Op_bias_add, ""%string)] else [])
     ++ [(act_op (match act with Some f => f | None => tf_identity end),
          "output"%string)])
    (fun _ => 1 < split).
Proof.
  intros Hs. unfold Conv2D.
  replace (split =? 1) with false by (symmetry; apply Z.eqb_neq; exact Hs).
  eapply appends_list.
  - step ltac:(apply appends_lift). intros [c|] _; [|apply appends_raise].
    step ltac:(apply appends_check). intros _ _.
    step ltac:(apply appends_assert). intros _ _.
    step ltac:(apply appends_assert). intros _ _.
    step ltac:(apply appends_assert). intros _ _.
    step ltac:(apply appends_assert). intros _ _.
    step ltac:(apply appends_lift). intros kernel_shape _.
    step ltac:(apply appends_lift). intros q _.
    step ltac:(apply appends_lift). intros stride _.
    eapply appends_bind with (P := fun _ => True) (l1 := []).
    { destruct (Qle_bool 1.5 tfv);
        [quiet ltac:(apply appends_lift) | apply appends_pure; exact I]. }
    intros dilations _.
    step ltac:(apply appends_get_variable). intros Wv _.
    step ltac:(apply appends_bias). intros b Hb.
    step ltac:(apply appends_tf_split). intros ins (Hin & Hpos).
    step ltac:(apply appends_tf_split). intros ks (Hk & _).
    step ltac:(eapply appends_list;
               [ apply appends_mapM; intros; apply appends_tf_nn_conv2d
               | rewrite length_combine, Hin, Hk, Nat.min_id; reflexivity ]).
    intros outs _.
    step ltac:(apply appends_tf_concat). intros conv _.
    eapply appends_bind
      with (P := fun _ => True)
           (l1 := if use_bias then [(Op_bias_add, ""%string)] else []).
    { destruct use_bias.
      - destruct Hb as (vb & ->). apply appends_tf_nn_bias_add.
      - rewrite Hb. apply appends_pure. exact I. }
    intros pre _.
    step ltac:(apply appends_call). intros ret _.
    apply appends_weaken with (P := fun _ => 1 < split).
    + apply appends_pure. lia.
    + auto.
  - cbn [app]. rewrite <- ?app_assoc. reflexivity.
Qed.

(** The nodes of [GroupedConv2D]. *)
Lemma GroupedConv2D_appends (vsi : initializer) x num_paths path_ch_out
    kernel_shape (sum_paths : bool) padding stride W_init b_init nl
    (use_bias : bool) df :
  appends (GroupedConv2D vsi x num_paths path_ch_out kernel_shape sum_paths
             padding stride W_init b_init nl use_bias df)
    ([(Op_depthwise_conv2d, ""); (Op_reshape, ""); (Op_reduce_sum, "")]%string
     ++ (if sum_paths then [] else [(Op_reshape, ""%string)])
     ++ (if use_bias then [(Op_bias_add, ""%string)] else [])
     ++ [(act_op nl, "output"%string)])
    (fun _ => True).
Proof.
  unfold GroupedConv2D.
  eapply appends_list.
  - step ltac:(apply appends_lift). intros [c|] _; [|apply appends_raise].
    step ltac:(apply appends_check). intros _ _.
    step ltac:(apply appends_assert). intros _ _.
    step ltac:(apply appends_lift). intros ks _.
    step ltac:(apply appends_lift). intros strd _.
    step ltac:(apply appends_get_variable). intros Wv _.
    step ltac:(apply appends_bias). intros b Hb.
    step ltac:(apply appends_tf_nn_depthwise_conv2d). intros x1 _.
    eapply appends_bind with (P := fun _ => True) (l1 := [(Op_reshape, ""%string)]).
    { destruct (data_format_eqb (get_data_format df false) NHWC);
        apply appends_two_lifts; intros; apply appends_tf_reshape. }
    intros x2 _.
    step ltac:(apply appends_tf_reduce_sum). intros x3 _.
    eapply appends_bind
      with (P := fun _ => True)
           (l1 := if sum_paths then [] else [(Op_reshape, ""%string)]).
    { destruct sum_paths; cbn [negb].
      - apply appends_pure. exact I.
      - destruct (data_format_eqb (get_data_format df false) NHWC);
          apply appends_two_lifts; intros; apply appends_tf_reshape. }
    intros x4 _.
    eapply appends_bind
      with (P := fun _ => True)
           (l1 := if use_bias then [(Op_bias_add, ""%string)] else []).
    { destruct use_bias.
      - destruct Hb as (vb & ->). apply appends_tf_nn_bias_add.
      - rewrite Hb. apply appends_pure. exact I. }
    intros pre _.
    step ltac:(apply appends_call). intros ret _.
    apply appends_pure. exact I.
  - cbn [app]. rewrite <- ?app_assoc, ?app_nil_r. reflexivity.
Qed.

(** X5.  A successful call of [Conv2D] with [split] other than 1 adds
    to the graph two split nodes, [split] convolutions, one concat, a
    bias_add if and only if [use_bias], and the activation named output,
    in this order: [split + 4] nodes, one more with a bias. *)
Theorem Conv2D_group_nodes (tfv : Q) inputs (filters : Z) kernel_size strides
    padding df dilation_rate act (use_bias : bool) (ki bi : initializer)
    (kr br ar : option regularizer) (split : Z) g ret g' :
  split <> 1 ->
  Conv2D tfv inputs filters kernel_size strides padding df dilation_rate act
    use_bias ki bi kr br ar split g = (Ok ret, g') ->
  g_nodes g' =
  g_nodes g
  ++ [(Op_split, ""); (Op_split, "")]%string
  ++ repeat (Op_conv2d, ""%string) (Z.to_nat split)
  ++ [(Op_concat, ""%string)]
  ++ (if use_bias then [(Op_bias_add, ""%string)] else [])
  ++ [(act_op (match act with Some f => f | None => tf_identity end),
       "output"%string)]
  /\ Z.of_nat (length (g_nodes g')) =
     Z.of_nat (length (g_nodes g)) + split + 4 + (if use_bias then 1 else 0).
Proof.
  intros Hs Hrun.
  destruct (@Conv2D_group_appends tfv inputs filters kernel_size strides padding
              df dilation_rate act use_bias ki bi kr br ar split Hs _ _ _ Hrun)
    as (Hn & Hpos).
  split; [exact Hn|]. rewrite Hn.
  rewrite !length_app, repeat_length. destruct use_bias; simpl length; lia.
Qed.

(** X6.  A successful call of [GroupedConv2D] adds to the graph one
    depthwise convolution, a reshape, a reduce_sum, a second reshape
    unless [sum_paths], a bias_add if and only if [use_bias], and [nl]
    named output: their number does not depend on [num_paths]. *)
Theorem GroupedConv2D_nodes (vsi : initializer)
    x (num_paths path_ch_out : Z) kernel_shape (sum_paths : bool) padding stride
    (W_init b_init : option initializer) nl (use_bias : bool) df g ret g' :
  GroupedConv2D vsi x num_paths path_ch_out kernel_shape sum_paths padding
    stride W_init b_init nl use_bias df g = (Ok ret, g') ->
  g_nodes g' =
  g_nodes g
  ++ [(Op_depthwise_conv2d, ""); (Op_reshape, ""); (Op_reduce_sum, "")]%string
  ++ (if sum_paths then [] else [(Op_reshape, ""%string)])
  ++ (if use_bias then [(Op_bias_add, ""%string)] else [])
  ++ [(act_op nl, "output"%string)]
  /\ Z.of_nat (length (g_nodes g')) =
     Z.of_nat (length (g_nodes g)) + 4 + (if sum_paths then 0 else 1)
     + (if use_bias then 1 else 0).
Proof.
  intros Hrun.
  destruct (@GroupedConv2D_appends vsi x num_paths path_ch_out kernel_shape
              sum_paths padding stride W_init b_init nl use_bias df _ _ _ Hrun)
    as (Hn & _).
  split; [exact Hn|]. rewrite Hn.
  rewrite !length_app. destruct sum_paths, use_bias; simpl length; lia.
Qed.

(** X7.  On an input whose static channel count is unknown the three
    convolutions stop before the graph is touched, each in its own way:
    [Conv2D] with [split] other than 1 by its assertion, [Conv2D] with
    [split == 1] by a [ValueError] of tf.layers, [GroupedConv2D] by the
    [TypeError] of [None % num_paths]. *)
Theorem unknown_channel (tfv : Q) (vsi : initializer) inputs (filters : Z)
    kernel_size strides padding df dilation_rate act (use_bias : bool)
    (ki bi : initializer) (kr br ar : option regularizer) (split : Z)
    (num_paths path_ch_out : Z) kernel_shape (sum_paths : bool) stride
    (W_init b_init : option initializer) nl g (n h w : option Z) :
  let cl := data_format_eqb (get_data_format df false) NHWC in
  static_shape inputs = of_nhwc cl [n; h; w; None] ->
  (split <> 1 ->
   Conv2D tfv inputs filters kernel_size strides padding df dilation_rate act
     use_bias ki bi kr br ar split g
   = (Raise (AssertionError "[Conv2D] Input cannot have unknown channel!"), g))
  /\ (exists msg,
        Conv2D tfv inputs filters kernel_size strides padding df dilation_rate act
          use_bias ki bi kr br ar 1 g = (Raise (ValueError msg), g))
  /\ GroupedConv2D vsi inputs num_paths path_ch_out kernel_shape sum_paths padding
       stride W_init b_init nl use_bias df g = (Raise TypeError, g).
Proof.
  intros cl Hst. split; [|split].
  - intros Hs. unfold Conv2D.
    replace (split =? 1) with false by (symmetry; apply Z.eqb_neq; exact Hs).
    fold cl. rewrite Hst. destruct cl; reflexivity.
  - unfold Conv2D. simpl (1 =? 1). cbv iota.
    unfold tf_layers_Conv2D_apply.
    destruct (normalize_tuple kernel_size) as [ks|e1] eqn:E1.
    2:{ destruct kernel_size as [a|l|l]; simpl in E1; try discriminate E1;
        destruct (Nat.eqb (length l) 2); inversion E1; eexists; reflexivity. }
    destruct (normalize_tuple strides) as [st|e2] eqn:E2.
    2:{ destruct strides as [a|l|l]; simpl in E2; try discriminate E2;
        destruct (Nat.eqb (length l) 2); inversion E2; eexists; reflexivity. }
    destruct (normalize_tuple dilation_rate) as [dl|e3] eqn:E3.
    2:{ destruct dilation_rate as [a|l|l]; simpl in E3; try discriminate E3;
        destruct (Nat.eqb (length l) 2); inversion E3; eexists; reflexivity. }
    cbn [lift bind].
    unfold cl in Hst.
    destruct df; cbn [bind raise pure]; try (eexists; reflexivity);
      unfold parse_padding;
      (destruct (String.eqb (upper padding) "SAME");
       [|destruct (String.eqb (upper padding) "VALID")]);
      cbn [bind raise pure]; try (eexists; reflexivity);
      rewrite Hst; cbn; eexists; reflexivity.
  - unfold GroupedConv2D. fold cl. rewrite Hst. destruct cl; reflexivity.
Qed.

(** X8.  With a known channel count, [split = 0] and [num_paths = 0]
    stop [Conv2D] and [GroupedConv2D] with the [ZeroDivisionError] of the
    divisibility test, not with an [AssertionError], and the graph is
    untouched. *)
Theorem zero_groups (tfv : Q) (vsi : initializer) inputs (filters : Z)
    kernel_size strides padding df dilation_rate act (use_bias : bool)
    (ki bi : initializer) (kr br ar : option regularizer)
    (path_ch_out : Z) kernel_shape (sum_paths : bool) stride
    (W_init b_init : option initializer) nl g (n h w : option Z) (C : Z) :
  let cl := data_format_eqb (get_data_format df false) NHWC in
  static_shape inputs = of_nhwc cl [n; h; w; Some C] ->
  Conv2D tfv inputs filters kernel_size strides padding df dilation_rate act
    use_bias ki bi kr br ar 0 g = (Raise ZeroDivisionError, g)
  /\ GroupedConv2D vsi inputs 0 path_ch_out kernel_shape sum_paths padding
       stride W_init b_init nl use_bias df g = (Raise ZeroDivisionError, g).
Proof.
  intros cl Hst. split.
  - unfold Conv2D. simpl (0 =? 1). cbv iota. fold cl. rewrite Hst.
    destruct cl; reflexivity.
  - unfold GroupedConv2D. fold cl. rewrite Hst. destruct cl; reflexivity.
Qed.

Lemma returns_tf_split_positive x n axis :
  returns (tf_split x n axis) (fun _ => 0 < n).
Proof.
  unfold tf_split. apply returns_seq. intros a.
  eapply returns_bind with (Q := fun _ => 0 < n).
  - apply returns_check. intros H. apply Z.ltb_lt. exact H.
  - intros _ H. intros g r g' _. exact H.
Qed.

(** X9.  A call of [Conv2D] that returns has [split >= 1]: zero and
    negative values of [split] never build a layer. *)
Theorem Conv2D_split_positive (tfv : Q) inputs (filters : Z) kernel_size strides
    padding df dilation_rate act (use_bias : bool) (ki bi : initializer)
    (kr br ar : option regularizer) (split : Z) g ret g' :
  Conv2D tfv inputs filters kernel_size strides padding df dilation_rate act
    use_bias ki bi kr br ar split g = (Ok ret, g') ->
  1 <= split.
Proof.
  destruct (Z.eqb_spec split 1) as [-> | Hs]; [intros _; lia|].
  revert g ret g'.
  change (returns (Conv2D tfv inputs filters kernel_size strides padding df
                     dilation_rate act use_bias ki bi kr br ar split)
            (fun _ => 1 <= split)).
  unfold Conv2D.
  replace (split =? 1) with false by (symmetry; apply Z.eqb_neq; exact Hs).
  apply returns_seq. intros [c|]; [|apply returns_raise].
  do 11 (apply returns_seq; intros ?).
  eapply returns_bind; [apply returns_tf_split_positive|]. intros ? Hp.
  cbv beta in Hp. intros g r g' _. lia.
Qed.

(** X10.  Under a TensorFlow older than 1.5 the group branch of
    [Conv2D] stops with the assertion
    'TF>=1.5 required for group dilated conv' unless [dilation_rate] is
    the tuple [(1, 1)] itself: the list [[1, 1]] and the int [1] are
    refused too, and the graph is untouched. *)
Theorem group_dilation_needs_tf15 (tfv : Q) inputs (filters : Z) kernel_size
    strides padding df dilation_rate act (use_bias : bool) (ki bi : initializer)
    (split : Z) g (n h w : option Z) (C : Z) :
  let cl := data_format_eqb (get_data_format df false) NHWC in
  static_shape inputs = of_nhwc cl [n; h; w; Some C] ->
  split <> 1 -> split <> 0 -> C mod split = 0 -> filters mod split = 0 ->
  Qle_bool 1.5 tfv = false ->
  dilation_rate <> A_tuple [1; 1] ->
  Conv2D tfv inputs filters kernel_size strides padding df dilation_rate act
    use_bias ki bi None None None split g
  = (Raise (AssertionError "TF>=1.5 required for group dilated conv"), g).
Proof.
  intros cl Hst Hs1 Hs0 HC HF Htf Hd. unfold Conv2D.
  replace (split =? 1) with false by (symmetry; apply Z.eqb_neq; exact Hs1).
  fold cl.
  assert (Hch : py_getitem (static_shape inputs) (if cl then -1 else 1) = Ok (Some C)).
  { rewrite Hst. destruct cl; reflexivity. }
  rewrite Hch. mred.
  replace (split =? 0) with false by (symmetry; apply Z.eqb_neq; exact Hs0).
  replace (C mod split =? 0) with true by (symmetry; apply Z.eqb_eq; exact HC).
  replace (filters mod split =? 0) with true by (symmetry; apply Z.eqb_eq; exact HF).
  rewrite Htf.
  assert (He : arg2d_eqb dilation_rate (A_tuple [1; 1]) = false).
  { destruct dilation_rate as [a|l|l]; try reflexivity. simpl.
    destruct (list_eq_dec Z.eq_dec l [1; 1]) as [->|]; [congruence | reflexivity]. }
  rewrite He. reflexivity.
Qed.

Lemma parse_padding_invalid s g :
  String.eqb s "SAME" = false -> String.eqb s "VALID" = false ->
  parse_padding s g = (Raise (ValueError "padding"), g).
Proof. intros H1 H2. unfold parse_padding. rewrite H1, H2. reflexivity. Qed.

Lemma mapM_head_raises {A B} (f : A -> M B) a l e g g' :
  f a g = (Raise e, g') -> mapM f (a :: l) g = (Raise e, g').
Proof. intros H. cbn [mapM]. unfold bind. rewrite H. reflexivity. Qed.

Lemma bind_raise {S A B} (c : ST S A) (k : A -> ST S B) g e g1 :
  c g = (Raise e, g1) -> bind c k g = (Raise e, g1).
Proof. intros H. unfold bind. rewrite H. reflexivity. Qed.

(** X11.  A padding that is neither same nor valid (in any case) stops
    the group branch of [Conv2D] with the [ValueError] of the first
    tf.nn.conv2d, after the variables W (and b) and the two split nodes
    were added: unlike a failed assertion, this failure leaves them in
    the graph. *)
Theorem Conv2D_group_invalid_padding (tfv : Q) inputs filters kernel_size strides
    padding df dilation_rate act (use_bias : bool) (ki bi : initializer) split g
    (n h w : option Z) (C kh kw sh sw dh dw : Z) :
  let cl := data_format_eqb (get_data_format df false) NHWC in
  let W := mk_variable "W" [kh; kw; C / split; filters]
             (ki [kh; kw; C / split; filters]) None in
  let b := if use_bias
           then Some (mk_variable "b" [filters] (bi [filters]) None)
           else None in
  1 < split ->
  static_shape inputs = of_nhwc cl [n; h; w; Some C] ->
  0 <= C -> C mod split = 0 -> 0 <= filters -> filters mod split = 0 ->
  arg2d_eqb dilation_rate (A_tuple [1; 1]) || Qle_bool 1.5 tfv = true ->
  shape2d kernel_size = Ok [kh; kw] -> 0 <= kh -> 0 <= kw ->
  shape2d strides = Ok [sh; sw] ->
  (if Qle_bool 1.5 tfv then shape2d dilation_rate = Ok [dh; dw]
   else dh = 1 /\ dw = 1) ->
  String.eqb (upper padding) "SAME" = false ->
  String.eqb (upper padding) "VALID" = false ->
  exists g',
    Conv2D tfv inputs filters kernel_size strides padding df dilation_rate act
      use_bias ki bi None None None split g = (Raise (ValueError "padding"), g')
    /\ g_variables g' =
       g_variables g ++ W :: match b with Some vb => [vb] | None => [] end
    /\ g_nodes g' = g_nodes g ++ [(Op_split, ""%string); (Op_split, ""%string)].
Proof.
  intros cl W b Hsplit Hst HC HCm HF HFm Hdil Hks Hkh Hkw Hstr Hdl Hp1 Hp2.
  unfold Conv2D.
  replace (split =? 1) with false by (symmetry; apply Z.eqb_neq; lia).
  fold cl.
  assert (Hch : py_getitem (static_shape inputs) (if cl then -1 else 1) = Ok (Some C)).
  { rewrite Hst. destruct cl; reflexivity. }
  rewrite Hch. mred.
  replace (split =? 0) with false by (symmetry; apply Z.eqb_neq; lia).
  replace (C mod split =? 0) with true by (symmetry; apply Z.eqb_eq; lia).
  replace (filters mod split =? 0) with true by (symmetry; apply Z.eqb_eq; lia).
  rewrite Hdil. rewrite Hks. mred.
  destruct (truediv_dimension (a := C) (b := split)) as (q & Hq & Hqd); try lia.
  rewrite Hq. mred.
  assert (Hcl : data_format_eqb (get_data_format (get_data_format df false) true)
                  channels_last = cl) by (unfold cl; destruct df; reflexivity).
  unfold shape4d. rewrite Hstr, Hcl. mred.
  replace (if cl then [1] ++ [sh; sw] ++ [1] else [1; 1] ++ [sh; sw])
    with (of_nhwc cl [1; sh; sw; 1]) by (destruct cl; reflexivity).
  set (stride := of_nhwc cl [1; sh; sw; 1]).
  set (dil := of_nhwc cl [1; dh; dw; 1]).
  assert (Hdil4 : forall g0 : graph,
    (if Qle_bool 1.5 tfv
     then lift match shape2d dilation_rate with
               | Ok s2d => Ok (if cl then [1] ++ s2d ++ [1] else [1; 1] ++ s2d)
               | Raise e => Raise e
               end
     else pure [1; 1; 1; 1]) g0 = (Ok dil, g0)).
  { intros g0. unfold dil. destruct (Qle_bool 1.5 tfv).
    - rewrite Hdl. destruct cl; reflexivity.
    - destruct Hdl as [-> ->]. destruct cl; reflexivity. }
  rewrite (bind_run _ (Hdil4 g)).
  assert (HWs : as_shape (map PInt [kh; kw] ++ [PFloat q; PInt filters])
                = Ok [kh; kw; C / split; filters]).
  { cbn [map app as_shape]. rewrite Hqd. cbn [as_dimension].
    destruct (Z.ltb_spec kh 0); [lia|]. destruct (Z.ltb_spec kw 0); [lia|].
    destruct (Z.ltb_spec filters 0); [lia|]. reflexivity. }
  rewrite (bind_run _ (@tf_get_variable_run "W" _ _ ki None g HWs)). fold W.
  set (g1 := with_variable g W).
  assert (Hb : exists g2,
    (if use_bias
     then v <- tf_get_variable "b" [PInt filters] bi None;; pure (Some v)
     else pure None) g1 = (Ok b, g2)
    /\ g_variables g2 = g_variables g ++ W :: match b with Some vb => [vb] | None => [] end
    /\ g_nodes g2 = g_nodes g).
  { unfold b. destruct use_bias.
    - eexists. split.
      + erewrite bind_run; [reflexivity|]. apply tf_get_variable_run.
        apply (as_shape_ints (l := [filters])). repeat constructor; lia.
      + simpl. rewrite <- app_assoc. split; reflexivity.
    - eexists. split; [reflexivity|]. split; reflexivity. }
  destruct Hb as (g2 & Hb & Hg2 & Hn2). rewrite (bind_run _ Hb).
  set (ax := (if cl then 3 else 1)%nat).
  assert (Hax : forall g0 : graph,
            normalize_axis (length (static_shape inputs)) (if cl then -1 else 1) g0
            = (Ok ax, g0)).
  { intros g0. rewrite Hst. unfold ax. destruct cl; reflexivity. }
  assert (Hnth : nth ax (static_shape inputs) None = Some C).
  { rewrite Hst. unfold ax. destruct cl; reflexivity. }
  erewrite bind_run
    by (eapply tf_split_run; [apply Hax | lia | exact Hnth | exact HCm]).
  assert (HaxW : normalize_axis (length (static_shape (read W))) 3
                   (with_node g2 Op_split "") = (Ok 3%nat, with_node g2 Op_split "")).
  { reflexivity. }
  erewrite bind_run
    by (eapply tf_split_run; [exact HaxW | lia | reflexivity | exact HFm]).
  set (pairs := combine _ _).
  destruct pairs as [|[i k] rest] eqn:E.
  { exfalso. apply (f_equal (@length _)) in E. unfold pairs in E.
    rewrite length_combine, !length_map, !split_v_length in E. simpl in E. lia. }
  erewrite bind_raise.
  2:{ apply mapM_head_raises. cbn [fst snd]. unfold tf_nn_conv2d.
      rewrite (bind_run _ (layout_run _ (get_data_format_tf df))).
      apply bind_raise. apply (@parse_padding_invalid _ _ Hp1 Hp2). }
  eexists. split; [reflexivity|]. split.
  - cbn. exact Hg2.
  - cbn. rewrite Hn2, <- app_assoc. reflexivity.
Qed.

(** X12.  With [split == 1], an input whose static height is known and
    positive and whose static width is unknown stops [Conv2D] with the
    [TypeError] of [H * None] in the flop count, after the layer was
    built: the variables and the node output are in the graph. *)
Theorem Conv2D_flops_unknown_width (tfv : Q) inputs (filters : Z) kernel_size
    strides padding df dilation_rate act (use_bias : bool) (ki bi : initializer)
    (kr br ar : option regularizer) g
    (n : option Z) (H C kh kw sh sw dh dw : Z) p :
  let cl := data_format_eqb df channels_last in
  let Wv := mk_variable "W" [kh; kw; C; filters] (ki [kh; kw; C; filters]) kr in
  let b := if use_bias
           then Some (mk_variable "b" [filters] (bi [filters]) br)
           else None in
  (df = channels_last \/ df = channels_first) ->
  static_shape inputs = of_nhwc cl [n; Some H; None; Some C] ->
  0 < H -> 0 <= C -> 0 <= filters ->
  shape2d kernel_size = Ok [kh; kw] -> 0 <= kh -> 0 <= kw ->
  shape2d strides = Ok [sh; sw] ->
  shape2d dilation_rate = Ok [dh; dw] ->
  parse_padding (upper padding) g = (Ok p, g) ->
  exists g',
    Conv2D tfv inputs filters kernel_size strides padding df dilation_rate act
      use_bias ki bi kr br ar 1 g = (Raise TypeError, g')
    /\ g_variables g' =
       g_variables g ++ Wv :: match b with Some vb => [vb] | None => [] end
    /\ In (Op_identity, "output"%string) (g_nodes g').
Proof.
  intros cl Wv b Hdf Hst HH HC HF Hks Hkh Hkw Hstr Hdl Hpad.
  unfold Conv2D. simpl (1 =? 1). cbv iota.
  destruct (@tf_layers_Conv2D_apply_run filters kernel_size strides padding df
              dilation_rate act use_bias ki bi kr br ar inputs g n (Some H) None
              C kh kw sh sw dh dw p Hdf Hst HC HF Hks Hkh Hkw Hstr Hdl Hpad)
    as (st & g1 & Hrun & Hv & Hl).
  rewrite (bind_run _ Hrun). cbn [fst snd kernel bias].
  unfold call. mred. cbn [add_node bind pure].
  rewrite Hks. unfold shape4d. rewrite Hstr. rewrite Hst.
  assert (Hcl : get_data_format df true = df) by (destruct Hdf as [-> | ->]; reflexivity).
  rewrite Hcl. fold cl.
  replace (0 <? H) with true by (symmetry; apply Z.ltb_lt; exact HH).
  exists (with_node g1 Op_identity "output"). split.
  - destruct cl; cbn [of_nhwc app].
    + change (py_getitem [n; Some H; None; Some C] 3) with (Ok (Some C)).
      change (py_getitem [n; Some H; None; Some C] 1) with (Ok (Some H)).
      change (py_getitem [n; Some H; None; Some C] (1 + 1)) with (@Ok (option Z) None).
      cbn [lift bind pure].
      change (py_getitem [kh; kw] 0) with (Ok kh).
      change (py_getitem [kh; kw] 1) with (Ok kw).
      change (py_getitem [1; sh; sw; 1] 1) with (Ok sh).
      change (py_getitem [1; sh; sw; 1] (1 + 1)) with (Ok sw).
      cbn [lift bind pure].
      replace (0 <? H) with true by (symmetry; apply Z.ltb_lt; exact HH).
      reflexivity.
    + change (py_getitem [n; Some C; Some H; None] 1) with (Ok (Some C)).
      change (py_getitem [n; Some C; Some H; None] 2) with (Ok (Some H)).
      change (py_getitem [n; Some C; Some H; None] (2 + 1)) with (@Ok (option Z) None).
      cbn [lift bind pure].
      change (py_getitem [kh; kw] 0) with (Ok kh).
      change (py_getitem [kh; kw] 1) with (Ok kw).
      change (py_getitem [1; 1; sh; sw] 2) with (Ok sh).
      change (py_getitem [1; 1; sh; sw] (2 + 1)) with (Ok sw).
      cbn [lift bind pure].
      replace (0 <? H) with true by (symmetry; apply Z.ltb_lt; exact HH).
      reflexivity.
  - split; [exact Hv|]. cbn. apply in_or_app. right. left. reflexivity.
Qed.

Lemma tf_layers_Conv2DTranspose_apply_run
    (ct : bool -> tensor -> tensor -> list Z -> padding_mode -> tensor)
    (filters : Z) kernel_size strides padding df act (use_bias : bool)
    (ki bi : initializer) (kr br ar : option regularizer) inputs g
    (n h w : option Z) (C kh kw sh sw : Z) p :
  let cl := data_format_eqb df channels_last in
  let Wv := mk_variable "W" [kh; kw; filters; C] (ki [kh; kw; filters; C]) kr in
  let b := if use_bias
           then Some (mk_variable "b" [filters] (bi [filters]) br)
           else None in
  (df = channels_last \/ df = channels_first) ->
  static_shape inputs = of_nhwc cl [n; h; w; Some C] ->
  0 <= C -> 0 <= filters ->
  shape2d kernel_size = Ok [kh; kw] -> 0 <= kh -> 0 <= kw ->
  shape2d strides = Ok [sh; sw] ->
  parse_padding (upper padding) g = (Ok p, g) ->
  exists v2 g',
    tf_layers_Conv2DTranspose_apply ct filters kernel_size strides padding df
      act use_bias ki bi kr br ar inputs g
    = (Ok ({| kernel := Wv; bias := b |},
           output ""
             (of_nhwc cl [n; option_map (fun H => deconv_out p H kh sh) h;
                          option_map (fun W => deconv_out p W kw sw) w;
                          Some filters]) v2), g')
    /\ g_variables g' =
       g_variables g ++ Wv :: match b with Some vb => [vb] | None => [] end
    /\ g_losses g' =
       g_losses g ++ match ar with Some r => [r v2] | None => [] end.
Proof.
  intros cl Wv b Hdf Hst HC HF Hks Hkh Hkw Hstr Hpad.
  unfold tf_layers_Conv2DTranspose_apply.
  rewrite (normalize_tuple_shape2d _ Hks), (normalize_tuple_shape2d _ Hstr). mred.
  assert (Hws : as_shape (map PInt ([kh; kw] ++ [filters; C]))
                = Ok [kh; kw; filters; C]).
  { apply (as_shape_ints (l := [kh; kw; filters; C])). repeat constructor; lia. }
  assert (Hbs : as_shape [PInt filters] = Ok [filters]).
  { apply (as_shape_ints (l := [filters])). repeat constructor; lia. }
  unfold b, Wv, cl in *. clear b Wv cl.
  destruct Hdf as [-> | ->]; cbn [data_format_eqb] in *;
    mred; rewrite (bind_run _ Hpad); rewrite Hst;
    cbn [of_nhwc to_nhwc length Nat.eqb nth]; mred;
    cbn [app] in Hws |- *;
    rewrite (bind_run _ (@tf_get_variable_run "W" _ _ ki kr g Hws));
    (destruct use_bias;
     [ erewrite bind_run
         by (erewrite bind_run by (apply tf_get_variable_run; exact Hbs);
             reflexivity)
     | mred ]);
    destruct act, ar;
    (eexists; eexists; split; [reflexivity|]; split;
     [cbn; rewrite <- ?app_assoc; reflexivity
     | cbn; rewrite ?app_nil_r; reflexivity]).
Qed.

(** X13.  [Conv2DTranspose] on a valid input returns the tensor named
    output of the tf.layers layer, with the layer's kernel of shape
    [kh, kw, filters, C] and its bias as [variables], no [info], the
    regularizers handed to the layer; [dyn_hw] is not used, and
    [Deconv2D] is the same function. *)
Theorem Conv2DTranspose_builds
    (ct : bool -> tensor -> tensor -> list Z -> padding_mode -> tensor)
    inputs (filters : Z) kernel_size strides padding df act (use_bias : bool)
    (ki bi : initializer) (kr br ar : option regularizer)
    (dyn_hw dyn_hw' : option (Z * Z)) g
    (n h w : option Z) (C kh kw sh sw : Z) p :
  let cl := data_format_eqb df channels_last in
  let Wv := mk_variable "W" [kh; kw; filters; C] (ki [kh; kw; filters; C]) kr in
  let b := if use_bias
           then Some (mk_variable "b" [filters] (bi [filters]) br)
           else None in
  (df = channels_last \/ df = channels_first) ->
  static_shape inputs = of_nhwc cl [n; h; w; Some C] ->
  0 <= C -> 0 <= filters ->
  shape2d kernel_size = Ok [kh; kw] -> 0 <= kh -> 0 <= kw ->
  shape2d strides = Ok [sh; sw] ->
  parse_padding (upper padding) g = (Ok p, g) ->
  exists ret g',
    Conv2DTranspose ct inputs filters kernel_size strides padding df act use_bias
      ki bi kr br ar dyn_hw g = (Ok ret, g')
    /\ Deconv2D ct inputs filters kernel_size strides padding df act use_bias
         ki bi kr br ar dyn_hw' g = (Ok ret, g')
    /\ name ret = "output"%string
    /\ variables ret = Some {| vars_W := Wv; vars_b := b |}
    /\ info ret = None
    /\ static_shape ret =
       of_nhwc cl [n; option_map (fun H => deconv_out p H kh sh) h;
                   option_map (fun W => deconv_out p W kw sw) w; Some filters]
    /\ g_variables g' =
       g_variables g ++ Wv :: match b with Some vb => [vb] | None => [] end
    /\ g_losses g' =
       g_losses g ++ match ar with Some r => [r (value ret)] | None => [] end.
Proof.
  intros cl Wv b Hdf Hst HC HF Hks Hkh Hkw Hstr Hpad.
  destruct (@tf_layers_Conv2DTranspose_apply_run ct filters kernel_size strides
              padding df act use_bias ki bi kr br ar inputs g n h w C kh kw sh sw p
              Hdf Hst HC HF Hks Hkh Hkw Hstr Hpad)
    as (v2 & g1 & Hrun & Hv & Hl).
  unfold Deconv2D, Conv2DTranspose.
  rewrite (bind_run _ Hrun). cbn [fst snd kernel bias].
  unfold call. mred. cbn [add_node bind pure].
  eexists. eexists. split; [reflexivity|]. split; [reflexivity|].
  cbn [name variables info static_shape value set_variables output g_variables
       g_losses with_node act_fn tf_identity].
  split; [reflexivity|]. split.
  { fold Wv b. destruct use_bias; reflexivity. }
  split; [reflexivity|]. split; [reflexivity|]. split; assumption.
Qed.


(** X15.  Whatever [ResizeImages] returns or raises, it creates no
    variable and no loss and adds at most four nodes to the graph, none
    when it raises. *)
Theorem ResizeImages_frame
    (rs : tensor -> Z * Z -> ResizeMethod -> bool -> tensor)
    images size_ method align_corners df g r g' :
  ResizeImages rs images size_ method align_corners df g = (r, g') ->
  g_variables g' = g_variables g /\ g_losses g' = g_losses g
  /\ exists l, g_nodes g' = g_nodes g ++ l /\ (length l <= 4)%nat
               /\ (forall e, r = Raise e -> l = []).
Proof.
  unfold ResizeImages.
  destruct (data_format_eqb df channels_first);
    cbv beta iota zeta delta [tf_transpose tf_image_resize_images call bind pure check
                         raise add_node];
    destruct (static_shape images) as [|a [|b [|c [|d [|e l]]]]];
    cbn [length Nat.eqb map nth static_shape output];
    intros E; inversion E; subst; cbn [g_variables g_losses g_nodes with_node];
    (split; [reflexivity|]; split; [reflexivity|]);
    rewrite <- ?app_assoc;
    first [ exists []; rewrite app_nil_r; split; [reflexivity|]; split;
            [simpl; lia | reflexivity]
          | eexists; split; [reflexivity|]; split; [simpl; lia | discriminate] ].
Qed.

(** X16.  A single image (rank 3) is resized with channels_last, and
    refused with channels_first by the first transpose, before any node
    is added. *)
Theorem ResizeImages_single_image
    (rs : tensor -> Z * Z -> ResizeMethod -> bool -> tensor)
    image size_ method align_corners g (h w c : option Z) :
  static_shape image = [h; w; c] ->
  (exists ret g',
     ResizeImages rs image size_ method align_corners channels_last g
     = (Ok ret, g')
     /\ value ret = rs (value image) size_ method align_corners
     /\ static_shape ret = [Some (fst size_); Some (snd size_); c])
  /\ ResizeImages rs image size_ method align_corners channels_first g
     = (Raise (ValueError "perm"), g).
Proof.
  intros Hst. unfold ResizeImages, tf_transpose, tf_image_resize_images, call.
  cbv [data_format_eqb bind pure]. rewrite Hst. split.
  - eexists. eexists. split; [reflexivity|]. split; reflexivity.
  - reflexivity.
Qed.

(** *** Instances on the example inputs *)




Lemma Conv2D_group_output_shape_witness :
  exists ret g',
    Conv2D 1.5 example_input 6 (A_int 2) (A_int 1) "valid" channels_last
      (A_tuple [2; 1]) None true example_initializer example_initializer
      None None None 2 empty_graph = (Ok ret, g')
    /\ shape (value ret) =
       [2; conv_out VALID 3 2 1 2; conv_out VALID 3 2 1 1; 6].
Proof.
  apply (@Conv2D_group_output_shape 1.5 example_input 6 (A_int 2) (A_int 1)
           "valid" channels_last (A_tuple [2; 1]) None true example_initializer
           example_initializer 2 empty_graph None (Some 3) (Some 3)
           2 3 3 4 2 2 1 1 2 1 VALID);
    try reflexivity; try lia.
  intros f t Hf. discriminate Hf.
Defined.

Lemma Conv2D_group_nodes_witness :
  exists ret g',
    Conv2D 1.4 example_input 6 (A_int 3) (A_int 1) "same" channels_last
      (A_tuple [1; 1]) None true example_initializer example_initializer
      None None None 2 empty_graph = (Ok ret, g')
    /\ g_nodes g' =
       g_nodes empty_graph
       ++ [(Op_split, ""); (Op_split, "")]%string
       ++ repeat (Op_conv2d, ""%string) (Z.to_nat 2)
       ++ [(Op_concat, ""%string)]
       ++ [(Op_bias_add, ""%string)]
       ++ [(act_op tf_identity, "output"%string)]
    /\ Z.of_nat (length (g_nodes g')) =
       Z.of_nat (length (g_nodes empty_graph)) + 2 + 4 + 1.
Proof.
  eexists. eexists.
  refine ((fun E => conj E
             (@Conv2D_group_nodes 1.4 example_input 6 (A_int 3) (A_int 1) "same"
                channels_last (A_tuple [1; 1]) None true example_initializer
                example_initializer None None None 2 empty_graph _ _ _ E)) _).
  - discriminate.
  - vm_compute. reflexivity.
Defined.

Lemma GroupedConv2D_nodes_witness :
  exists ret g',
    GroupedConv2D example_initializer example_input 2 3 (A_int 3) false "same"
      (A_int 1) None None tf_identity true NHWC empty_graph = (Ok ret, g')
    /\ g_nodes g' =
       g_nodes empty_graph
       ++ [(Op_depthwise_conv2d, ""); (Op_reshape, ""); (Op_reduce_sum, "")]%string
       ++ [(Op_reshape, ""%string)]
       ++ [(Op_bias_add, ""%string)]
       ++ [(act_op tf_identity, "output"%string)]
    /\ Z.of_nat (length (g_nodes g')) =
       Z.of_nat (length (g_nodes empty_graph)) + 4 + 1 + 1.
Proof.
  eexists. eexists.
  refine ((fun E => conj E
             (@GroupedConv2D_nodes example_initializer example_input 2 3 (A_int 3)
                false "same" (A_int 1) None None tf_identity true NHWC
                empty_graph _ _ E)) _).
  vm_compute. reflexivity.
Defined.

Lemma unknown_channel_witness :
  Conv2D 1.4 example_input_unknown_channel 6 (A_int 3) (A_int 1) "same"
    channels_last (A_tuple [1; 1]) None true example_initializer
    example_initializer None None None 2 empty_graph
  = (Raise (AssertionError "[Conv2D] Input cannot have unknown channel!"),
     empty_graph)
  /\ (exists msg,
        Conv2D 1.4 example_input_unknown_channel 6 (A_int 3) (A_int 1) "same"
          channels_last (A_tuple [1; 1]) None true example_initializer
          example_initializer None None None 1 empty_graph
        = (Raise (ValueError msg), empty_graph))
  /\ GroupedConv2D example_initializer example_input_unknown_channel 2 3 (A_int 3)
       false "same" (A_int 1) None None tf_identity true channels_last empty_graph
     = (Raise TypeError, empty_graph).
Proof.
  pose proof (@unknown_channel 1.4 example_initializer
                example_input_unknown_channel 6 (A_int 3) (A_int 1) "same"
                channels_last (A_tuple [1; 1]) None true example_initializer
                example_initializer None None None 2 2 3 (A_int 3) false (A_int 1)
                None None tf_identity empty_graph None (Some 3) (Some 3) eq_refl)
    as (H1 & H2 & H3).
  split; [apply H1; discriminate|]. split; [exact H2 | exact H3].
Defined.

Lemma zero_groups_witness :
  Conv2D 1.4 example_input 6 (A_int 3) (A_int 1) "same" channels_last
    (A_tuple [1; 1]) None true example_initializer example_initializer
    None None None 0 empty_graph = (Raise ZeroDivisionError, empty_graph)
  /\ GroupedConv2D example_initializer example_input 0 3 (A_int 3) false "same"
       (A_int 1) None None tf_identity true channels_last empty_graph
     = (Raise ZeroDivisionError, empty_graph).
Proof.
  apply (@zero_groups 1.4 example_initializer example_input 6 (A_int 3) (A_int 1)
           "same" channels_last (A_tuple [1; 1]) None true example_initializer
           example_initializer None None None 3 (A_int 3) false (A_int 1)
           None None tf_identity empty_graph None (Some 3) (Some 3) 4).
  reflexivity.
Defined.

Lemma Conv2D_split_positive_witness :
  exists ret g',
    Conv2D 1.4 example_input 6 (A_int 3) (A_int 1) "same" channels_last
      (A_tuple [1; 1]) None true example_initializer example_initializer
      None None None 2 empty_graph = (Ok ret, g')
    /\ 1 <= 2.
Proof.
  eexists. eexists.
  refine ((fun E => conj E
             (@Conv2D_split_positive 1.4 example_input 6 (A_int 3) (A_int 1) "same"
                channels_last (A_tuple [1; 1]) None true example_initializer
                example_initializer None None None 2 empty_graph _ _ E)) _).
  vm_compute. reflexivity.
Defined.

Lemma group_dilation_needs_tf15_witness :
  Conv2D 1.4 example_input 6 (A_int 3) (A_int 1) "same" channels_last
    (A_list [1; 1]) None true example_initializer example_initializer
    None None None 2 empty_graph
  = (Raise (AssertionError "TF>=1.5 required for group dilated conv"),
     empty_graph).
Proof.
  apply (@group_dilation_needs_tf15 1.4 example_input 6 (A_int 3) (A_int 1) "same"
           channels_last (A_list [1; 1]) None true example_initializer
           example_initializer 2 empty_graph None (Some 3) (Some 3) 4);
    try reflexivity; discriminate.
Defined.

Lemma Conv2D_group_invalid_padding_witness :
  exists g',
    Conv2D 1.4 example_input 6 (A_int 3) (A_int 1) "full" channels_last
      (A_tuple [1; 1]) None true example_initializer example_initializer
      None None None 2 empty_graph = (Raise (ValueError "padding"), g')
    /\ g_variables g' =
       g_variables empty_graph
       ++ [mk_variable "W" [3; 3; 4 / 2; 6] (example_initializer [3; 3; 4 / 2; 6]) None;
           mk_variable "b" [6] (example_initializer [6]) None]
    /\ g_nodes g' =
       g_nodes empty_graph ++ [(Op_split, ""%string); (Op_split, ""%string)].
Proof.
  apply (@Conv2D_group_invalid_padding 1.4 example_input 6 (A_int 3) (A_int 1)
           "full" channels_last (A_tuple [1; 1]) None true example_initializer
           example_initializer 2 empty_graph None (Some 3) (Some 3)
           4 3 3 1 1 1 1);
    try reflexivity; try lia.
  split; reflexivity.
Defined.

Lemma Conv2D_flops_unknown_width_witness :
  exists g',
    Conv2D 1.4 example_input_unknown_width 6 (A_int 3) (A_int 1) "same"
      channels_last (A_tuple [1; 1]) None true example_initializer
      example_initializer None None None 1 empty_graph = (Raise TypeError, g')
    /\ g_variables g' =
       g_variables empty_graph
       ++ [mk_variable "W" [3; 3; 4; 6] (example_initializer [3; 3; 4; 6]) None;
           mk_variable "b" [6] (example_initializer [6]) None]
    /\ In (Op_identity, "output"%string) (g_nodes g').
Proof.
  apply (@Conv2D_flops_unknown_width 1.4 example_input_unknown_width 6 (A_int 3)
           (A_int 1) "same" channels_last (A_tuple [1; 1]) None true
           example_initializer example_initializer None None None empty_graph
           None 3 4 3 3 1 1 1 1 SAME);
    try reflexivity; try lia.
  left. reflexivity.
Defined.

Lemma Conv2DTranspose_builds_witness :
  exists ret g',
    Conv2DTranspose zero_conv2d_transpose example_input 6 (A_int 3) (A_int 2)
      "same" channels_last None true example_initializer example_initializer
      (Some example_regularizer) None None None empty_graph = (Ok ret, g')
    /\ Deconv2D zero_conv2d_transpose example_input 6 (A_int 3) (A_int 2)
         "same" channels_last None true example_initializer example_initializer
         (Some example_regularizer) None None (Some (7, 7)) empty_graph
       = (Ok ret, g')
    /\ name ret = "output"%string
    /\ variables ret =
       Some {| vars_W := mk_variable "W" [3; 3; 6; 4]
                           (example_initializer [3; 3; 6; 4])
                           (Some example_regularizer);
               vars_b := Some (mk_variable "b" [6] (example_initializer [6]) None) |}
    /\ info ret = None
    /\ static_shape ret =
       [None; Some (deconv_out SAME 3 3 2); Some (deconv_out SAME 3 3 2); Some 6]
    /\ g_variables g' =
       g_variables empty_graph
       ++ [mk_variable "W" [3; 3; 6; 4] (example_initializer [3; 3; 6; 4])
             (Some example_regularizer);
           mk_variable "b" [6] (example_initializer [6]) None]
    /\ g_losses g' = g_losses empty_graph ++ [].
Proof.
  apply (@Conv2DTranspose_builds zero_conv2d_transpose example_input 6 (A_int 3)
           (A_int 2) "same" channels_last None true example_initializer
           example_initializer (Some example_regularizer) None None None
           (Some (7, 7)) empty_graph None (Some 3) (Some 3) 4 3 3 2 2 SAME);
    try reflexivity; try lia.
  left. reflexivity.
Defined.


Lemma ResizeImages_frame_witness :
  exists r g',
    ResizeImages nearest_resize example_input_nchw (2, 5) NEAREST_NEIGHBOR true
      channels_first empty_graph = (r, g')
    /\ g_variables g' = g_variables empty_graph
    /\ g_losses g' = g_losses empty_graph
    /\ exists l, g_nodes g' = g_nodes empty_graph ++ l /\ (length l <= 4)%nat
                 /\ (forall e, r = Raise e -> l = []).
Proof.
  eexists. eexists.
  refine ((fun E => conj E
             (@ResizeImages_frame nearest_resize example_input_nchw (2, 5)
                NEAREST_NEIGHBOR true channels_first empty_graph _ _ E)) _).
  vm_compute. reflexivity.
Defined.

Lemma ResizeImages_single_image_witness :
  (exists ret g',
     ResizeImages nearest_resize example_image (2, 5) NEAREST_NEIGHBOR true
       channels_last empty_graph = (Ok ret, g')
     /\ value ret = nearest_resize (value example_image) (2, 5) NEAREST_NEIGHBOR true
     /\ static_shape ret = [Some (fst (2, 5)); Some (snd (2, 5)); Some 4])
  /\ ResizeImages nearest_resize example_image (2, 5) NEAREST_NEIGHBOR true
       channels_first empty_graph = (Raise (ValueError "perm"), empty_graph).
Proof.
  apply (@ResizeImages_single_image nearest_resize example_image (2, 5)
           NEAREST_NEIGHBOR true empty_graph (Some 3) (Some 3) (Some 4)).
  reflexivity.
Defined.
(* ------------------------------------------------------------------ *)
(** ** The training script *)

Import imagenet_ann.

Lemma main_assertion_fails (w : world) :
  init_channel (parse_args w) <> 64 \/ num_classes (parse_args w) <> 1000 ->
  main w [] = (Raise (AssertionError ""), parse_events).
Proof.
  intros H. unfold main. cbv [bind emit app].
  destruct (Z.eqb_spec (init_channel (parse_args w)) 64) as [E1|E1]; [|reflexivity].
  destruct (Z.eqb_spec (num_classes (parse_args w)) 1000) as [E2|E2]; [|reflexivity].
  destruct H; contradiction.
Qed.

Lemma main_succeeds (w : world) :
  let args := parse_args w in
  init_channel args = 64 -> num_classes args = 1000 ->
  ilsvrc_mean w <> None -> ilsvrc_std w <> None -> nr_gpu args <> 0 ->
  exists config,
    main w [] =
    (Ok tt,
     parse_events
     ++ [set_log_root (log_dir args); auto_set_dir]
     ++ [get_ilsvrc_augmented_data (if is_toy args then "toy_train" else "train");
         get_ilsvrc_augmented_data
           (if is_toy args then "toy_validation" else "validation");
         AnytimeResnet 224; compute_classification_callbacks;
         compute_loss_select_callbacks; TrainConfig_called]
     ++ restore_events w
     ++ [SyncMultiGPUTrainer; train config])
    /\ nr_tower config = Some (nr_gpu args).
Proof.
  intros args H1 H2 H3 H4 H5. unfold main, restore_events. fold args.
  cbv [bind emit].
  rewrite H1, H2. cbn [Z.eqb Pos.eqb assert_ pure].
  cbn [do_mean_std_gpu_process input_type mean std].
  destruct (ilsvrc_mean w) as [m|]; [|congruence].
  destruct (ilsvrc_std w) as [s|]; [|congruence].
  cbn [is_None negb andb String.eqb Ascii.eqb Bool.eqb assert_ pure].
  unfold get_config, get_data. cbn [is_toy nr_gpu load log_dir].
  cbv [bind emit pure check].
  destruct (Z.eqb_spec (nr_gpu args) 0) as [E|E]; [contradiction|].
  cbn [negb].
  destruct (is_toy args);
    (destruct (load args) as [path|];
     [ destruct (truthy (Some path)); [ destruct (path_exists w path) |] |]);
    cbv [bind emit pure fst snd andb];
    (eexists; split; [reflexivity | reflexivity]).
Qed.

(** C7.  The training script parses the command line first; when
    [args.init_channel == 64] or [args.num_classes == 1000] fails it stops
    with an [AssertionError] having made no call to the logger, the
    datasets or the trainer; otherwise it sets up the log directories,
    then builds the configuration (datasets, model, callbacks), and calls
    [SyncMultiGPUTrainer(config).train()] last. *)
Theorem main_order (w : world) :
  let args := parse_args w in
  (init_channel args <> 64 \/ num_classes args <> 1000 ->
   exists msg tr,
     main w [] = (Raise (AssertionError msg), tr)
     /\ tr = parse_events
     /\ Forall (fun e => phase_of e = Parse) tr)
  /\
  (init_channel args = 64 -> num_classes args = 1000 ->
   ilsvrc_mean w <> None -> ilsvrc_std w <> None -> nr_gpu args <> 0 ->
   exists config tr,
     main w [] = (Ok tt, tr)
     /\ tr =
        parse_events
        ++ [set_log_root (log_dir args); auto_set_dir]
        ++ [get_ilsvrc_augmented_data (if is_toy args then "toy_train" else "train");
            get_ilsvrc_augmented_data
              (if is_toy args then "toy_validation" else "validation");
            AnytimeResnet 224; compute_classification_callbacks;
            compute_loss_select_callbacks; TrainConfig_called]
        ++ restore_events w
        ++ [SyncMultiGPUTrainer; train config]
     /\ ordered tr = true).
Proof.
  intros args. split.
  - intros H. exists ""%string, parse_events.
    split; [apply main_assertion_fails; exact H|].
    split; [reflexivity|]. repeat constructor.
  - intros H1 H2 H3 H4 H5.
    destruct (main_succeeds w H1 H2 H3 H4 H5) as (config & Hrun & _).
    exists config. eexists. split; [exact Hrun|]. split; [reflexivity|].
    unfold restore_events.
    destruct (load (parse_args w)) as [path|]; [|reflexivity].
    destruct (truthy (Some path) && path_exists w path); reflexivity.
Qed.

Lemma main_order_witness :
  (exists msg tr,
     main example_world_10_classes [] = (Raise (AssertionError msg), tr)
     /\ tr = parse_events
     /\ Forall (fun e => phase_of e = Parse) tr)
  /\
  (exists config tr,
     main example_world [] = (Ok tt, tr)
     /\ tr =
        parse_events
        ++ [set_log_root (Some "/log"%string); auto_set_dir]
        ++ [get_ilsvrc_augmented_data "train";
            get_ilsvrc_augmented_data "validation";
            AnytimeResnet 224; compute_classification_callbacks;
            compute_loss_select_callbacks; TrainConfig_called]
        ++ [SaverRestore "ckpt"]
        ++ [SyncMultiGPUTrainer; train config]
     /\ ordered tr = true).
Proof.
  split.
  - apply (main_order example_world_10_classes). right. discriminate.
  - apply (main_order example_world); try reflexivity; discriminate.
Defined.

(** ** Further properties of the training script *)


Lemma main_zero_gpus_run (w : world) :
  init_channel (parse_args w) = 64 -> num_classes (parse_args w) = 1000 ->
  ilsvrc_mean w <> None -> ilsvrc_std w <> None -> nr_gpu (parse_args w) = 0 ->
  main w [] =
  (Raise ZeroDivisionError, parse_events ++ logging_events w ++ dataset_events w).
Proof.
  intros H1 H2 H3 H4 H5. unfold main, logging_events, dataset_events.
  cbv [bind emit].
  rewrite H1, H2. cbn [Z.eqb Pos.eqb assert_ pure].
  cbn [do_mean_std_gpu_process input_type mean std].
  destruct (ilsvrc_mean w) as [m|]; [|congruence].
  destruct (ilsvrc_std w) as [s|]; [|congruence].
  cbn [is_None negb andb String.eqb Ascii.eqb Bool.eqb assert_ pure].
  unfold get_config, get_data. cbn [is_toy nr_gpu load log_dir].
  cbv [bind emit pure check]. rewrite H5. cbn [Z.eqb negb].
  destruct (is_toy (parse_args w)); reflexivity.
Qed.


(** X18.  With [nr_gpu] 0 and the assertions passing, the script stops
    with [ZeroDivisionError] after the command line was parsed, the log
    directory set up and the two datasets built, before the model is
    instantiated: nothing is trained. *)
Theorem main_zero_gpus (w : world) :
  let args := parse_args w in
  init_channel args = 64 -> num_classes args = 1000 ->
  ilsvrc_mean w <> None -> ilsvrc_std w <> None -> nr_gpu args = 0 ->
  exists tr,
    main w [] = (Raise ZeroDivisionError, tr)
    /\ tr = parse_events ++ logging_events w ++ dataset_events w
    /\ Forall (fun e => phase_of e <> Training /\ e <> AnytimeResnet INPUT_SIZE) tr.
Proof.
  intros args H1 H2 H3 H4 H5. eexists. split.
  - apply main_zero_gpus_run; assumption.
  - split; [reflexivity|].
    unfold parse_events, logging_events, dataset_events. cbn [app].
    repeat constructor; discriminate.
Qed.

(** X19.  When the script reaches the trainer, the configuration it
    trains has the training set (the toy one under [is_toy]) as
    dataflow, [size() // nr_gpu] steps per epoch, 128 epochs, five groups
    of callbacks, [nr_tower = nr_gpu], the checkpoint [args.load] as
    session_init exactly when it is a non-empty path that exists, and a
    model built from the arguments with the mean, the std and the input
    type uint8 set by the script. *)
Theorem main_trains_config (w : world) :
  let args := parse_args w in
  init_channel args = 64 -> num_classes args = 1000 ->
  ilsvrc_mean w <> None -> ilsvrc_std w <> None -> nr_gpu args <> 0 ->
  exists config tr,
    main w [] = (Ok tt, tr ++ [train config])
    /\ dataflow config =
       {| df_name := train_name w; df_size := dataset_size w (train_name w) |}
    /\ steps_per_epoch config = dataset_size w (train_name w) / nr_gpu args
    /\ max_epoch config = 128
    /\ nr_tower config = Some (nr_gpu args)
    /\ session_init config =
       match load args with
       | Some path =>
           if negb (String.eqb path "") && path_exists w path
           then Some path else None
       | None => None
       end
    /\ length (callbacks config) = 5%nat
    /\ do_mean_std_gpu_process (model_args config) = true
    /\ input_type (model_args config) = "uint8"%string
    /\ mean (model_args config) = ilsvrc_mean w
    /\ std (model_args config) = ilsvrc_std w
    /\ batch_size (model_args config) = batch_size args.
Proof.
  intros args H1 H2 H3 H4 H5. unfold main, train_name. fold args.
  cbv [bind emit].
  rewrite H1, H2. cbn [Z.eqb Pos.eqb assert_ pure].
  cbn [do_mean_std_gpu_process input_type mean std].
  destruct (ilsvrc_mean w) as [m|]; [|congruence].
  destruct (ilsvrc_std w) as [s|]; [|congruence].
  cbn [is_None negb andb String.eqb Ascii.eqb Bool.eqb assert_ pure].
  unfold get_config, get_data. cbn [is_toy nr_gpu load log_dir].
  cbv [bind emit pure check].
  destruct (Z.eqb_spec (nr_gpu args) 0) as [E|E]; [contradiction|].
  cbn [negb].
  destruct (is_toy args);
    (destruct (load args) as [path|];
     [ unfold truthy; destruct (negb (String.eqb path "")); 
       [ destruct (path_exists w path) |] |]);
    cbv [bind emit pure fst snd andb];
    (eexists; eexists; split; [reflexivity | cbn; repeat split; reflexivity]).
Qed.

(** *** Instances on the example command lines *)


Lemma main_zero_gpus_witness :
  exists tr,
    main example_world_no_gpu [] = (Raise ZeroDivisionError, tr)
    /\ tr = parse_events ++ logging_events example_world_no_gpu
            ++ dataset_events example_world_no_gpu
    /\ Forall (fun e => phase_of e <> Training /\ e <> AnytimeResnet INPUT_SIZE) tr.
Proof.
  apply (@main_zero_gpus example_world_no_gpu); try reflexivity; discriminate.
Defined.

Lemma main_trains_config_witness :
  exists config tr,
    main example_world [] = (Ok tt, tr ++ [train config])
    /\ dataflow config = {| df_name := "train"; df_size := 1024 |}
    /\ steps_per_epoch config = 1024 / 2
    /\ max_epoch config = 128
    /\ nr_tower config = Some 2
    /\ session_init config = Some "ckpt"%string
    /\ length (callbacks config) = 5%nat
    /\ do_mean_std_gpu_process (model_args config) = true
    /\ input_type (model_args config) = "uint8"%string
    /\ mean (model_args config) = Some [124; 116; 104]
    /\ std (model_args config) = Some [58; 57; 57]
    /\ batch_size (model_args config) = 128.
Proof.
  apply (@main_trains_config example_world); try reflexivity; discriminate.
Defined.
